(** * Attendance bot: ledger, user directory, settings store and chat adapter

    A shallow embedding of [app.py].  The three SQLite tables are lists of
    rows in rowid order, the clock and the deployment configuration are an
    explicit environment, and a Python call that may raise returns an
    [outcome].  Python text is a byte string: the literals below are the
    UTF-8 bytes of the source's literals.

    Inputs are typed as the platform sends them: identifiers, names, statuses
    and message text are text, a completion is an integer, and a JSON body is
    a record whose absent keys are [None]. *)

From Stdlib Require Import String Ascii List ZArith Bool Lia Permutation DecimalString Sorted.
Import ListNotations.
Open Scope string_scope.
Open Scope list_scope.
Open Scope Z_scope.
Local Set Warnings "-register-all".

(** ** Python values and results *)

(** The values that cross the JSON boundary (decoded settings, card
    payloads).  A float is kept as the text of its literal: the program
    builds none and computes with none. *)
Inductive pyval : Type :=
| PNone
| PBool (b : bool)
| PInt (z : Z)
| PFloat (literal : string)
| PStr (s : string)
| PList (l : list pyval)
| PDict (d : list (string * pyval)).

Inductive exn : Type :=
| IntegrityError
| OperationalError
| OverflowError
| ValueError
| TypeError
| AttributeError.

Inductive outcome (A : Type) : Type :=
| Return (a : A)
| Raise (e : exn).
Arguments Return {A} a.
Arguments Raise {A} e.

Definition bind {A B : Type} (m : outcome A) (k : A -> outcome B) : outcome B :=
  match m with
  | Return a => k a
  | Raise e => Raise e
  end.

Notation "x <- m ;; k" := (bind m (fun x => k))
  (at level 61, m at next level, right associativity).

Definition nl : string := String "010"%char EmptyString.

(** [d.get(k, default)] on a dict kept in insertion order. *)
Fixpoint dict_lookup {V : Type} (k : string) (d : list (string * V)) : option V :=
  match d with
  | [] => None
  | (k', v) :: d' => if (k' =? k)%string then Some v else dict_lookup k d'
  end.

Definition dict_get {V : Type} (d : list (string * V)) (k : string) (default : V) : V :=
  match dict_lookup k d with
  | Some v => v
  | None => default
  end.

(** [d[k] = v]: an existing key keeps its position. *)
Fixpoint dict_set {V : Type} (k : string) (v : V) (d : list (string * V)) : list (string * V) :=
  match d with
  | [] => [(k, v)]
  | (k', v') :: d' =>
      if (k' =? k)%string then (k, v) :: d' else (k', v') :: dict_set k v d'
  end.

(** [str(n)] for a Python int. *)
Definition str_of_int (z : Z) : string := NilZero.string_of_int (Z.to_int z).

(** [str(v)] for a nullable text column, as an f-string formats it. *)
Definition str_of_text (v : option string) : string :=
  match v with
  | Some s => s
  | None => "None"
  end.

(** Truthiness of a nullable text column: [None] and [''] are falsy. *)
Definition truthy_text (v : option string) : bool :=
  match v with
  | Some s => negb (s =? "")%string
  | None => false
  end.

(** The Python built-ins the program calls.  [json_loads] is [None] where
    [json.loads] raises; [py_str] is [str] as an f-string applies it. *)
Class PyBuiltins : Type := {
  json_loads : string -> option pyval;
  json_dumps : pyval -> string;
  py_str : pyval -> string;
  str_strip : string -> string
}.

(** ** Tables *)

Record AttendanceRow : Type := mkAttendance {
  att_id : Z;
  att_user_id : string;
  att_user_name : string;
  att_date : string;
  att_check_in_time : option string;
  att_check_out_time : option string;
  att_morning_status : option string;
  att_evening_status : option string;
  att_location : option string;
  att_task : option string;
  att_tasks_json : option string;
  att_completion : Z;
  att_progress_status : option string;
  att_work_summary : option string;
  att_created_at : string
}.

Record UserRow : Type := mkUser {
  usr_user_id : string;
  usr_user_name : string;
  usr_is_active : Z
}.

Record SettingRow : Type := mkSetting {
  set_key : string;
  set_value : option string;
  set_updated_at : string
}.

Record DB : Type := mkDB {
  attendance : list AttendanceRow;
  users : list UserRow;
  settings : list SettingRow
}.

Definition empty_db : DB := mkDB [] [] [].

(** Whether the store answers.  Under [Faulty] the connection opens and
    every [cursor.execute] of the call raises [sqlite3.OperationalError];
    under [Unreachable] [sqlite3.connect] itself raises it. *)
Inductive storage : Type := Healthy | Faulty | Unreachable.

(** Clock readings and deployment configuration seen by one request;
    [delivered] says whether the platform answers a POST with code 0. *)
Record Env : Type := mkEnv {
  today : string;
  current_time : string;
  now : string;
  utc_now : string;
  FEISHU_WEBHOOK_URL : string;
  delivered : bool
}.

Definition get_today_date (env : Env) : string := today env.
Definition get_current_time (env : Env) : string := current_time env.

(** ** SQL statements *)

(** [conn = get_db(); cursor = conn.cursor()] *)
Definition get_db (st : storage) : outcome unit :=
  match st with
  | Unreachable => Raise OperationalError
  | _ => Return tt
  end.

(** [cursor.execute(...)] with the statement's own result [r]. *)
Definition execute {A : Type} (st : storage) (r : outcome A) : outcome A :=
  match st with
  | Healthy => r
  | _ => Raise OperationalError
  end.

(** A Python int bound to a statement parameter: [sqlite3] raises
    [OverflowError] outside the signed 64-bit range. *)
Definition fits_int64 (z : Z) : bool := (- 2 ^ 63 <=? z) && (z <? 2 ^ 63).

Definition bind_int (z : Z) : outcome Z :=
  if fits_int64 z then Return z else Raise OverflowError.

(** [WHERE user_id = ? AND date = ?] *)
Definition att_where (uid d : string) (r : AttendanceRow) : bool :=
  ((att_user_id r =? uid) && (att_date r =? d))%string.

(** AUTOINCREMENT: one more than the largest rowid (rows are never deleted). *)
Definition next_rowid (tbl : list AttendanceRow) : Z :=
  1 + fold_right Z.max 0 (map att_id tbl).

(** [INSERT INTO attendance]: [UNIQUE(user_id, date)] is checked. *)
Definition insert_attendance (r : AttendanceRow) (tbl : list AttendanceRow)
  : outcome (list AttendanceRow) :=
  if existsb (att_where (att_user_id r) (att_date r)) tbl
  then Raise IntegrityError
  else Return (tbl ++ [r]).

(** [UPDATE attendance SET ... WHERE ...] with its [rowcount]. *)
Definition update_attendance (p : AttendanceRow -> bool)
  (f : AttendanceRow -> AttendanceRow) (tbl : list AttendanceRow)
  : list AttendanceRow * nat :=
  (map (fun r => if p r then f r else r) tbl, length (filter p tbl)).

(** [INSERT OR REPLACE INTO users]: the row with the same primary key goes,
    the new row gets a fresh rowid. *)
Definition replace_user (u : UserRow) (tbl : list UserRow) : list UserRow :=
  filter (fun r => negb (usr_user_id r =? usr_user_id u)%string) tbl ++ [u].

Definition replace_setting (s : SettingRow) (tbl : list SettingRow) : list SettingRow :=
  filter (fun r => negb (set_key r =? set_key s)%string) tbl ++ [s].

(** [INSERT OR IGNORE INTO settings] *)
Definition ignore_setting (s : SettingRow) (tbl : list SettingRow) : list SettingRow :=
  if existsb (fun r => (set_key r =? set_key s)%string) tbl then tbl else tbl ++ [s].

(** [ORDER BY check_in_time]: NULL first, then text by bytes; rows with equal
    keys keep rowid order. *)
Definition time_leb (a b : option string) : bool :=
  match a, b with
  | None, _ => true
  | Some _, None => false
  | Some x, Some y => String.leb x y
  end.

Fixpoint insert_by_time (r : AttendanceRow) (l : list AttendanceRow) : list AttendanceRow :=
  match l with
  | [] => [r]
  | r' :: l' =>
      if time_leb (att_check_in_time r) (att_check_in_time r')
      then r :: r' :: l'
      else r' :: insert_by_time r l'
  end.

Definition order_by_check_in_time (l : list AttendanceRow) : list AttendanceRow :=
  fold_right insert_by_time [] l.


Definition with_attendance (db : DB) (tbl : list AttendanceRow) : DB :=
  mkDB tbl (users db) (settings db).

Definition with_users (db : DB) (tbl : list UserRow) : DB :=
  mkDB (attendance db) tbl (settings db).

Definition with_settings (db : DB) (tbl : list SettingRow) : DB :=
  mkDB (attendance db) (users db) tbl.

(** ** Query results *)

(** The dict built by [get_today_status] for one row. *)
Record TodayStatus : Type := mkTodayStatus {
  ts_name : string;
  ts_check_in : option string;
  ts_check_out : option string;
  ts_morning_status : option string;
  ts_evening_status : option string;
  ts_task : option string;
  ts_location : option string;
  ts_completion : Z;
  ts_progress_status : option string;
  ts_work_summary : option string;
  ts_tasks : pyval
}.

(** The dict built by [get_user_status]. *)
Record UserStatus : Type := mkUserStatus {
  us_name : string;
  us_check_in : option string;
  us_check_out : option string;
  us_status : option string;
  us_task : option string;
  us_completion : Z;
  us_progress_status : option string
}.

(** The dict built by [get_all_users] for one row. *)
Record UserEntry : Type := mkUserEntry {
  ue_id : string;
  ue_name : string
}.

Section Program.

Context `{PyBuiltins}.

(** ** Settings store *)

Definition get_setting (st : storage) (db : DB) (key : string) (default : option string)
  : outcome (option string) :=
  _ <- get_db st ;;
  rows <- execute st (Return (filter (fun r => (set_key r =? key)%string) (settings db))) ;;
  match rows with
  | row :: _ => Return (set_value row)
  | [] => Return default
  end.

Definition set_setting (st : storage) (env : Env) (db : DB) (key value : string)
  : outcome unit * DB :=
  match get_db st with
  | Raise e => (Raise e, db)
  | Return _ =>
      match execute st (Return (replace_setting (mkSetting key (Some value) (now env))
                                  (settings db))) with
      | Return tbl => (Return tt, with_settings db tbl)
      | Raise e => (Raise e, db)
      end
  end.

(** [json.loads(row['value'])] under the bare [except]: the raw value is
    kept when decoding raises. *)
Definition decode_setting (v : option string) : pyval :=
  match v with
  | Some s =>
      match json_loads s with
      | Some j => j
      | None => PStr s
      end
  | None => PNone
  end.

Definition get_all_settings (st : storage) (db : DB) : outcome (list (string * pyval)) :=
  _ <- get_db st ;;
  rows <- execute st (Return (settings db)) ;;
  Return (fold_left (fun d row => dict_set (set_key row) (decode_setting (set_value row)) d)
                    rows []).

Definition default_settings : list (string * string) :=
  [ ("bot_name", "考勤小助手");
    ("welcome_message", "你好！我是考勤小助手");
    ("morning_time", "09:00");
    ("noon_time", "13:00");
    ("evening_time", "18:00");
    ("report_time", "20:00");
    ("week_report_time", "18:00");
    ("month_report_time", "18:00");
    ("task_tags", json_dumps (PList [PStr "视频剪辑"; PStr "文案撰写"; PStr "素材拍摄";
                                     PStr "字幕压制"; PStr "封面设计"; PStr "平台发布"]));
    ("status_options", json_dumps (PList [PStr "办公室坐班"; PStr "外出拍摄";
                                          PStr "居家办公"; PStr "会议中"]));
    ("schedule_enabled", "true");
    ("company_location", "");
    ("company_lat", "");
    ("company_lng", "");
    ("checkin_radius", "500") ].

(** The tables exist after the first run; the defaults are inserted where
    their key is absent. *)
Definition init_db (st : storage) (env : Env) (db : DB) : outcome unit * DB :=
  match get_db st with
  | Raise e => (Raise e, db)
  | Return _ =>
      match execute st (Return tt) with
      | Return _ =>
          (Return tt,
           with_settings db
             (fold_left (fun tbl kv => ignore_setting (mkSetting (fst kv) (Some (snd kv)) (utc_now env)) tbl)
                        default_settings (settings db)))
      | Raise e => (Raise e, db)
      end
  end.

(** ** User directory *)

Definition register_user (st : storage) (db : DB) (user_id user_name : string)
  : outcome bool * DB :=
  match get_db st with
  | Raise e => (Raise e, db)
  | Return _ =>
      match execute st (Return (replace_user (mkUser user_id user_name 1) (users db))) with
      | Return tbl => (Return true, with_users db tbl)
      | Raise _ => (Return false, db)
      end
  end.

Definition get_all_users (st : storage) (db : DB) : outcome (list UserEntry) :=
  _ <- get_db st ;;
  rows <- execute st (Return (filter (fun u => usr_is_active u =? 1) (users db))) ;;
  Return (map (fun u => mkUserEntry (usr_user_id u) (usr_user_name u)) rows).

(** ** Attendance ledger *)

Definition default_location : string := "办公室".
Definition default_tasks_json : string := "[]".

Definition check_in (st : storage) (env : Env) (db : DB)
  (user_id user_name status task location tasks_json : string)
  : outcome (bool * string) * DB :=
  let today := get_today_date env in
  let current_time := get_current_time env in
  match get_db st with
  | Raise e => (Raise e, db)
  | Return _ =>
  match execute st (Return (filter (att_where user_id today) (attendance db))) with
  | Raise _ => (Return (false, "签到失败，请重试"), db)
  | Return (_ :: _) => (Return (false, "您今天已经签到过了！"), db)
  | Return [] =>
      match execute st
              (insert_attendance
                 (mkAttendance (next_rowid (attendance db)) user_id user_name today
                    (Some current_time) None (Some status) None (Some location)
                    (Some task) (Some tasks_json) 0 None None (utc_now env))
                 (attendance db)) with
      | Raise _ => (Return (false, "签到失败，请重试"), db)
      | Return tbl =>
          match register_user st (with_attendance db tbl) user_id user_name with
          | (Return _, db') =>
              (Return (true, ("签到成功！" ++ nl ++ "状态：" ++ status ++ nl
                              ++ "任务：" ++ task)%string), db')
          | (Raise _, db') => (Return (false, "签到失败，请重试"), db')
          end
      end
  end
  end.

(** The [SET] clause of [check_out]. *)
Definition set_check_out (current_time : string) (completion : Z) (work_summary : string)
  (r : AttendanceRow) : AttendanceRow :=
  mkAttendance (att_id r) (att_user_id r) (att_user_name r) (att_date r)
    (att_check_in_time r) (Some current_time) (att_morning_status r)
    (Some "已完成工作") (att_location r) (att_task r) (att_tasks_json r)
    completion (att_progress_status r) (Some work_summary) (att_created_at r).

Definition check_out (st : storage) (env : Env) (db : DB)
  (user_id : string) (completion : Z) (work_summary : string)
  : outcome (bool * string) * DB :=
  let today := get_today_date env in
  let current_time := get_current_time env in
  match get_db st with
  | Raise e => (Raise e, db)
  | Return _ =>
  match execute st
          (stored <- bind_int completion ;;
           Return (update_attendance (att_where user_id today)
                     (set_check_out current_time stored work_summary)
                     (attendance db))) with
  | Raise _ => (Return (false, "签退失败，请重试"), db)
  | Return (tbl, rowcount) =>
      if (rowcount =? 0)%nat
      then (Return (false, "您今天还没有签到！"), with_attendance db tbl)
      else (Return (true, ("签退成功！" ++ nl ++ "今日完成度："
                           ++ str_of_int completion ++ "%")%string),
            with_attendance db tbl)
  end
  end.

(** The [SET] clause of [update_progress]. *)
Definition set_progress (progress_status : string) (r : AttendanceRow) : AttendanceRow :=
  mkAttendance (att_id r) (att_user_id r) (att_user_name r) (att_date r)
    (att_check_in_time r) (att_check_out_time r) (att_morning_status r)
    (att_evening_status r) (att_location r) (att_task r) (att_tasks_json r)
    (att_completion r) (Some progress_status) (att_work_summary r) (att_created_at r).

Definition update_progress (st : storage) (env : Env) (db : DB)
  (user_id progress_status : string) : outcome bool * DB :=
  let today := get_today_date env in
  match get_db st with
  | Raise e => (Raise e, db)
  | Return _ =>
      match execute st
              (Return (update_attendance (att_where user_id today)
                         (set_progress progress_status) (attendance db))) with
      | Return (tbl, _) => (Return true, with_attendance db tbl)
      | Raise e => (Raise e, db)
      end
  end.

Definition decode_tasks (v : option string) : outcome pyval :=
  match v with
  | Some s =>
      if (s =? "")%string then Return (PList [])
      else match json_loads s with
           | Some j => Return j
           | None => Raise ValueError
           end
  | None => Return (PList [])
  end.

(** The dict appended to [results] for one row. *)
Definition today_status_of (row : AttendanceRow) (tasks : pyval) : TodayStatus :=
  mkTodayStatus (att_user_name row) (att_check_in_time row) (att_check_out_time row)
    (att_morning_status row) (att_evening_status row) (att_task row) (att_location row)
    (att_completion row) (att_progress_status row) (att_work_summary row) tasks.

Fixpoint today_status_rows (rows : list AttendanceRow) : outcome (list TodayStatus) :=
  match rows with
  | [] => Return []
  | row :: rest =>
      tasks <- decode_tasks (att_tasks_json row) ;;
      results <- today_status_rows rest ;;
      Return (today_status_of row tasks :: results)
  end.

Definition get_today_status (st : storage) (env : Env) (db : DB) : outcome (list TodayStatus) :=
  let today := get_today_date env in
  _ <- get_db st ;;
  rows <- execute st (Return (order_by_check_in_time
                                (filter (fun r => (att_date r =? today)%string) (attendance db)))) ;;
  today_status_rows rows.

Definition get_user_status (st : storage) (env : Env) (db : DB) (user_id : string)
  : outcome (option UserStatus) :=
  let today := get_today_date env in
  _ <- get_db st ;;
  rows <- execute st (Return (filter (att_where user_id today) (attendance db))) ;;
  match rows with
  | row :: _ =>
      Return (Some (mkUserStatus (att_user_name row) (att_check_in_time row)
                      (att_check_out_time row) (att_morning_status row)
                      (att_task row) (att_completion row) (att_progress_status row)))
  | [] => Return None
  end.

(** ** Daily report *)

Definition status_icon (morning_status : option string) : string :=
  match morning_status with
  | Some m =>
      if (m =? "办公室坐班")%string then "🏢"
      else if (m =? "外出拍摄")%string then "📹"
      else if (m =? "居家办公")%string then "💻"
      else if (m =? "会议中")%string then "📞"
      else "📌"
  | None => "📌"
  end.

Definition text_is (v : option string) (s : string) : bool :=
  match v with
  | Some x => (x =? s)%string
  | None => false
  end.

(** The lines appended for one entry of [statuses]. *)
Definition report_entry (s : TodayStatus) : string :=
  let task_text := if truthy_text (ts_task s) then str_of_text (ts_task s) else "未填写任务" in
  let progress_icon := if text_is (ts_progress_status s) "一切正常" then "🟢" else "🔴" in
  ("• " ++ ts_name s ++ " " ++ status_icon (ts_morning_status s) ++ " "
   ++ str_of_text (ts_morning_status s) ++ nl
   ++ "  📝 " ++ task_text ++ nl
   ++ "  " ++ progress_icon ++ " 进度: " ++ str_of_text (ts_progress_status s) ++ nl
   ++ (if truthy_text (ts_check_out s)
       then "  ⏰ 已签退 (" ++ str_of_int (ts_completion s) ++ "%)" ++ nl
       else "")
   ++ nl)%string.

Definition roster_line (name : string) : string := ("• " ++ name ++ nl)%string.

(** [content] as [build_daily_report] accumulates it. *)
Definition report_content (today : string) (statuses : list TodayStatus)
  (not_checked_in : list string) : string :=
  ("📊 **今日团队去向** - " ++ today ++ nl ++ nl
   ++ match statuses with
      | [] => ""
      | _ :: _ => String.concat "" (map report_entry statuses)
      end
   ++ match not_checked_in with
      | [] => ""
      | _ :: _ => "⏰ **未签到**" ++ nl ++ String.concat "" (map roster_line not_checked_in)
      end)%string.

(** [name in checked_in_names] *)
Definition name_in (name : string) (names : list string) : bool :=
  existsb (String.eqb name) names.

Definition build_daily_report (st : storage) (env : Env) (db : DB) : outcome string :=
  statuses <- get_today_status st env db ;;
  all_users <- get_all_users st db ;;
  let today := get_today_date env in
  let checked_in_names := map ts_name statuses in
  let not_checked_in :=
    map ue_name (filter (fun u => negb (name_in (ue_name u) checked_in_names)) all_users) in
  Return (report_content today statuses not_checked_in).

End Program.

(** ** Chat integration adapter *)

(** The JSON bodies of the two inbound endpoints, as the platform sends
    them: objects whose keys, when present, hold a value of the documented
    type; an absent key is [None].  A body with [null] or a value of another
    type under a key lies outside these types. *)
Record SenderId : Type := mkSenderId { sid_name : option string }.

Record Sender : Type := mkSender {
  snd_user_id : option string;
  snd_sender_id : option SenderId
}.

Record TextBody : Type := mkTextBody { txt_content : option string }.

Record WebhookData : Type := mkWebhookData {
  wd_msg_type : option string;
  wd_sender : option Sender;
  wd_text : option TextBody
}.

Record ActionValue : Type := mkActionValue {
  av_action : option string;
  av_status : option string;
  av_completion : option Z
}.

Record Action : Type := mkAction { act_value : option ActionValue }.

Record Operator : Type := mkOperator {
  op_user_id : option string;
  op_name : option string
}.

Record CallbackData : Type := mkCallbackData {
  cd_type : option string;
  cd_action : option Action;
  cd_operator : option Operator
}.

(** [jsonify({"code": ..., "message": ...})] *)
Record Response : Type := mkResponse {
  code : Z;
  message : string
}.

Definition response_ok : Response := mkResponse 0 "ok".
Definition response_error : Response := mkResponse 500 "internal error".

(** The calls made to [requests.post]: endpoint and JSON body, oldest first. *)
Definition outbox : Type := list (string * pyval).

(** [o.get(k, default)] through an absent key. *)
Definition get_or {A : Type} (v : option A) (default : A) : A :=
  match v with
  | Some a => a
  | None => default
  end.

Definition send_feishu_message (env : Env) (out : outbox) (webhook_url : string)
  (msg : pyval) : bool * outbox :=
  (delivered env, out ++ [(webhook_url, msg)]).

(** [webhook_url or FEISHU_WEBHOOK_URL] *)
Definition url_or_default (env : Env) (webhook_url : option string) : string :=
  match webhook_url with
  | Some u => if (u =? "")%string then FEISHU_WEBHOOK_URL env else u
  | None => FEISHU_WEBHOOK_URL env
  end.

Definition send_text_message (env : Env) (out : outbox) (text : string)
  (webhook_url : option string) : bool * outbox :=
  let url := url_or_default env webhook_url in
  if (url =? "")%string then (false, out)
  else send_feishu_message env out url
         (PDict [("msg_type", PStr "text"); ("text", PDict [("content", PStr text)])]).

Definition send_rich_text_message (env : Env) (out : outbox) (title content : string)
  (webhook_url : option string) : bool * outbox :=
  let url := url_or_default env webhook_url in
  if (url =? "")%string then (false, out)
  else send_feishu_message env out url
         (PDict [("msg_type", PStr "post");
                 ("post", PDict [("zh_cn", PDict [
                    ("title", PStr title);
                    ("content", PList [PList [PList [
                       PDict [("tag", PStr "text"); ("text", PStr content)]]]])])])]).

Definition plain_text (content : string) : pyval :=
  PDict [("tag", PStr "plain_text"); ("content", PStr content)].

Definition checkin_button (label status : string) : pyval :=
  PDict [("tag", PStr "button"); ("text", plain_text label); ("type", PStr "primary");
         ("value", PDict [("action", PStr "checkin"); ("status", PStr status)])].

(** The card literal of the check-in branch; [location] is the formatted
    [company_location] setting. *)
Definition checkin_card (location : string) : pyval :=
  PDict [
    ("header", PDict [("title", plain_text "☀️ 早安！请签到"); ("template", PStr "blue")]);
    ("elements", PList [
       PDict [("tag", PStr "div");
              ("text", PDict [("tag", PStr "lark_md");
                              ("content", PStr ("📍 当前定位：" ++ location ++ nl
                                                ++ "选择您的状态：")%string)])];
       PDict [("tag", PStr "action");
              ("actions", PList [checkin_button "🏢 办公室坐班" "办公室坐班";
                                 checkin_button "📹 外出拍摄" "外出拍摄"])];
       PDict [("tag", PStr "action");
              ("actions", PList [checkin_button "💻 居家办公" "居家办公";
                                 checkin_button "📞 会议中" "会议中"])]])].

Definition checkout_button (label : string) (primary : bool) (completion : Z) : pyval :=
  PDict ([("tag", PStr "button"); ("text", plain_text label)]
         ++ (if primary then [("type", PStr "primary")] else [])
         ++ [("value", PDict [("action", PStr "checkout"); ("completion", PInt completion)])]).

Definition checkout_card : pyval :=
  PDict [
    ("header", PDict [("title", plain_text "🌙 辛苦了！请签退"); ("template", PStr "green")]);
    ("elements", PList [
       PDict [("tag", PStr "div");
              ("text", PDict [("tag", PStr "lark_md"); ("content", PStr "请选择完成度：")])];
       PDict [("tag", PStr "action");
              ("actions", PList [checkout_button "25% 🔴" false 25;
                                 checkout_button "50% 🟡" false 50])];
       PDict [("tag", PStr "action");
              ("actions", PList [checkout_button "75% 🟢" false 75;
                                 checkout_button "100% ⭐" true 100])]])].

(** [task_tags[:6]] feeds a string that is never used: what remains of it is
    whether the slice raises.  A list or a string can be sliced. *)
Definition task_buttons (task_tags : pyval) : outcome unit :=
  match task_tags with
  | PList _ => Return tt
  | PStr _ => Return tt
  | _ => Raise TypeError
  end.

Definition default_task_tags : pyval :=
  PList [PStr "视频剪辑"; PStr "文案撰写"; PStr "素材拍摄"].

Definition is_in (s : string) (l : list string) : bool := existsb (String.eqb s) l.

Section Adapter.

Context `{PyBuiltins}.

Definition interactive_message (card : pyval) : pyval :=
  PDict [("msg_type", PStr "interactive"); ("card", PStr (json_dumps card))].

Definition help_text (bot_name : string) : string :=
  ("🚗 **" ++ bot_name ++ "帮助**" ++ nl ++ nl
   ++ "*可用命令：*" ++ nl
   ++ "• 签到 - 每日签到" ++ nl
   ++ "• 签退 - 每日签退" ++ nl
   ++ "• 日报 - 查看今日汇总" ++ nl
   ++ "• 帮助 - 查看帮助信息" ++ nl ++ nl
   ++ "*考勤状态：*" ++ nl
   ++ "🏢 办公室坐班" ++ nl
   ++ "📹 外出拍摄" ++ nl
   ++ "💻 居家办公" ++ nl
   ++ "📞 会议中")%string.

(** [POST /feishu/webhook]: the acknowledgment, the outbound posts and the
    store after the request. *)
Definition feishu_webhook (st : storage) (env : Env) (db : DB) (data : option WebhookData)
  : Response * outbox * DB :=
  match data with
  | None => (response_ok, [], db)
  | Some d =>
      if negb (text_is (wd_msg_type d) "text") then (response_ok, [], db)
      else
        let sender := get_or (wd_sender d) (mkSender None None) in
        let user_id := get_or (snd_user_id sender) "" in
        let user_name :=
          get_or (sid_name (get_or (snd_sender_id sender) (mkSenderId None))) "未知用户" in
        let text_content :=
          str_strip (get_or (txt_content (get_or (wd_text d) (mkTextBody None))) "") in
        match register_user st db user_id user_name with
        | (Raise _, db1) => (response_error, [], db1)
        | (Return _, db1) =>
        match get_all_settings st db1 with
        | Raise _ => (response_error, [], db1)
        | Return settings =>
            let task_tags := dict_get settings "task_tags" default_task_tags in
            if is_in text_content ["签到"; "/checkin"; "/签到"] then
              match task_buttons task_tags with
              | Raise _ => (response_error, [], db1)
              | Return _ =>
                  let card :=
                    checkin_card
                      (py_str (dict_get settings "company_location" (PStr "公司地址未设置"))) in
                  (response_ok,
                   snd (send_feishu_message env [] (FEISHU_WEBHOOK_URL env)
                          (interactive_message card)),
                   db1)
              end
            else if is_in text_content ["签退"; "/checkout"; "/签退"] then
              (response_ok,
               snd (send_feishu_message env [] (FEISHU_WEBHOOK_URL env)
                      (interactive_message checkout_card)),
               db1)
            else if is_in text_content ["日报"; "/report"; "/日报"] then
              match build_daily_report st env db1 with
              | Raise _ => (response_error, [], db1)
              | Return content =>
                  (response_ok,
                   snd (send_rich_text_message env [] "📊 今日团队去向" content None),
                   db1)
              end
            else if is_in text_content ["帮助"; "/help"] then
              (response_ok,
               snd (send_text_message env []
                      (help_text (py_str (dict_get settings "bot_name" (PStr "考勤小助手"))))
                      None),
               db1)
            else
              (response_ok,
               snd (send_text_message env []
                      ("收到消息：" ++ text_content ++ nl ++ nl
                       ++ "发送「帮助」查看可用命令")%string None),
               db1)
        end
        end
  end.

(** [POST /feishu/callback] *)
Definition feishu_callback (st : storage) (env : Env) (db : DB) (data : option CallbackData)
  : Response * outbox * DB :=
  match data with
  | None => (response_error, [], db)
  | Some d =>
      if negb (text_is (cd_type d) "interactive") then (response_ok, [], db)
      else
        let action := get_or (cd_action d) (mkAction None) in
        let action_value := get_or (act_value action) (mkActionValue None None None) in
        let operator := get_or (cd_operator d) (mkOperator None None) in
        let user_id := get_or (op_user_id operator) "" in
        let user_name := get_or (op_name operator) "未知用户" in
        if text_is (av_action action_value) "checkin" then
          let status := get_or (av_status action_value) "办公室坐班" in
          match check_in st env db user_id user_name status "日常工作" status
                  default_tasks_json with
          | (Return (_, msg), db') =>
              (response_ok,
               snd (send_text_message env [] ("@" ++ user_name ++ " " ++ msg)%string None),
               db')
          | (Raise _, db') => (response_error, [], db')
          end
        else if text_is (av_action action_value) "checkout" then
          let completion := get_or (av_completion action_value) 0 in
          match check_out st env db user_id completion "" with
          | (Return (_, msg), db') =>
              (response_ok,
               snd (send_text_message env [] ("@" ++ user_name ++ " " ++ msg)%string None),
               db')
          | (Raise _, db') => (response_error, [], db')
          end
        else (response_ok, [], db)
  end.

(** ** Admin console: the saving routes *)

(** [request.form.get(k, default)] *)
Definition form_get (form : list (string * string)) (k default : string) : string :=
  dict_get form k default.

(** A run of [set_setting] calls; the first one that raises ends the request. *)
Fixpoint set_settings (st : storage) (env : Env) (db : DB) (kvs : list (string * string))
  : outcome unit * DB :=
  match kvs with
  | [] => (Return tt, db)
  | (k, v) :: rest =>
      match set_setting st env db k v with
      | (Return _, db') => set_settings st env db' rest
      | (Raise e, db') => (Raise e, db')
      end
  end.

(** What a route hands to [render_template_string]: the page, the settings
    read back and the message.  Rendering the template is not part of the
    embedding. *)
Record PageArgs : Type := mkPageArgs {
  pa_page : string;
  pa_settings : list (string * pyval);
  pa_message : string
}.

(** [settings = get_all_settings()] and the arguments of the render call. *)
Definition saved_page (st : storage) (page message : string) (r : outcome unit * DB)
  : outcome PageArgs * DB :=
  match r with
  | (Return _, db') =>
      (cfg <- get_all_settings st db' ;; Return (mkPageArgs page cfg message), db')
  | (Raise e, db') => (Raise e, db')
  end.

Definition save_settings (st : storage) (env : Env) (db : DB) (form : list (string * string))
  : outcome PageArgs * DB :=
  saved_page st "settings" "保存成功！"
    (set_settings st env db
       [ ("bot_name", form_get form "bot_name" "考勤小助手");
         ("welcome_message", form_get form "welcome_message" "你好！");
         ("company_location", form_get form "company_location" "");
         ("checkin_radius", form_get form "checkin_radius" "500");
         ("schedule_enabled", form_get form "schedule_enabled" "true") ]).

Definition save_timing (st : storage) (env : Env) (db : DB) (form : list (string * string))
  : outcome PageArgs * DB :=
  saved_page st "timing" "时间设置已保存！"
    (set_settings st env db
       [ ("morning_time", form_get form "morning_time" "09:00");
         ("noon_time", form_get form "noon_time" "13:00");
         ("evening_time", form_get form "evening_time" "18:00");
         ("report_time", form_get form "report_time" "20:00");
         ("week_report_time", form_get form "week_report_time" "18:00");
         ("month_report_time", form_get form "month_report_time" "18:00") ]).

Definition save_tasks (st : storage) (env : Env) (db : DB) (form : list (string * string))
  : outcome PageArgs * DB :=
  saved_page st "tasks" "任务标签已保存！"
    (set_settings st env db [ ("task_tags", form_get form "task_tags" "[]") ]).

Definition save_status (st : storage) (env : Env) (db : DB) (form : list (string * string))
  : outcome PageArgs * DB :=
  saved_page st "status" "状态选项已保存！"
    (set_settings st env db [ ("status_options", form_get form "status_options" "[]") ]).

End Adapter.

(** ** Reference built-ins

    An instance of [PyBuiltins] to evaluate the program on concrete inputs.
    It covers JSON without floats, text whose [repr] needs no escaping, and
    ASCII white space; on that fragment it computes what CPython computes. *)
Module Lite.

Definition dquote : ascii := "034"%char.
Definition backslash : ascii := "092"%char.

Definition is_space (c : ascii) : bool :=
  let n := nat_of_ascii c in
  ((n =? 32) || (n =? 9) || (n =? 10) || (n =? 13))%nat.

Fixpoint skip_ws (l : list ascii) : list ascii :=
  match l with
  | c :: r => if is_space c then skip_ws r else l
  | [] => []
  end.

Definition unescape (c : ascii) : option ascii :=
  if Ascii.eqb c dquote then Some dquote
  else if Ascii.eqb c backslash then Some backslash
  else if Ascii.eqb c "/" then Some "/"%char
  else if Ascii.eqb c "b" then Some "008"%char
  else if Ascii.eqb c "f" then Some "012"%char
  else if Ascii.eqb c "n" then Some "010"%char
  else if Ascii.eqb c "r" then Some "013"%char
  else if Ascii.eqb c "t" then Some "009"%char
  else None.

Definition hex_value (c : ascii) : option Z :=
  let n := Z.of_nat (nat_of_ascii c) in
  if (48 <=? n) && (n <=? 57) then Some (n - 48)
  else if (97 <=? n) && (n <=? 102) then Some (n - 87)
  else if (65 <=? n) && (n <=? 70) then Some (n - 55)
  else None.

Definition hex_quad (a b c d : ascii) : option Z :=
  match hex_value a, hex_value b, hex_value c, hex_value d with
  | Some w, Some x, Some y, Some z => Some (w * 4096 + x * 256 + y * 16 + z)
  | _, _, _, _ => None
  end.

Definition chr (n : Z) : ascii := ascii_of_nat (Z.to_nat n).

(** The UTF-8 bytes of a code point, in front of [s]. *)
Definition utf8 (cp : Z) (s : string) : string :=
  if cp <? 128 then String (chr cp) s
  else if cp <? 2048 then String (chr (192 + cp / 64)) (String (chr (128 + cp mod 64)) s)
  else if cp <? 65536 then
    String (chr (224 + cp / 4096))
      (String (chr (128 + cp / 64 mod 64)) (String (chr (128 + cp mod 64)) s))
  else
    String (chr (240 + cp / 262144))
      (String (chr (128 + cp / 4096 mod 64))
         (String (chr (128 + cp / 64 mod 64)) (String (chr (128 + cp mod 64)) s))).

Definition is_high (cp : Z) : bool := (55296 <=? cp) && (cp <? 56320).
Definition is_low (cp : Z) : bool := (56320 <=? cp) && (cp <? 57344).

(** The characters after an opening quote, up to the closing one.  A
    surrogate without its partner has no UTF-8 form and is left out of the
    fragment. *)
Fixpoint parse_string (l : list ascii) : option (string * list ascii) :=
  match l with
  | [] => None
  | c :: r =>
      if Ascii.eqb c dquote then Some (EmptyString, r)
      else if Ascii.eqb c backslash then
        match r with
        | "u"%char :: h1 :: h2 :: h3 :: h4 :: r' =>
            match hex_quad h1 h2 h3 h4 with
            | Some cp =>
                if is_high cp then
                  match r' with
                  | b :: "u"%char :: l1 :: l2 :: l3 :: l4 :: r'' =>
                      match hex_quad l1 l2 l3 l4, parse_string r'' with
                      | Some lo, Some (s, rest) =>
                          if Ascii.eqb b backslash && is_low lo
                          then Some (utf8 (65536 + (cp - 55296) * 1024 + (lo - 56320)) s, rest)
                          else None
                      | _, _ => None
                      end
                  | _ => None
                  end
                else if is_low cp then None
                else
                  match parse_string r' with
                  | Some (s, rest) => Some (utf8 cp s, rest)
                  | None => None
                  end
            | None => None
            end
        | e :: r' =>
            match unescape e, parse_string r' with
            | Some x, Some (s, rest) => Some (String x s, rest)
            | _, _ => None
            end
        | [] => None
        end
      else if (nat_of_ascii c <? 32)%nat then None
      else match parse_string r with
           | Some (s, rest) => Some (String c s, rest)
           | None => None
           end
  end.

Definition digit (c : ascii) : option Z :=
  let n := nat_of_ascii c in
  if ((48 <=? n) && (n <=? 57))%nat then Some (Z.of_nat n - 48) else None.

Fixpoint parse_digits (acc : Z) (l : list ascii) : Z * list ascii :=
  match l with
  | c :: r =>
      match digit c with
      | Some d => parse_digits (10 * acc + d) r
      | None => (acc, l)
      end
  | [] => (acc, [])
  end.

(** An integer literal: no leading zero, no fraction, no exponent. *)
Definition parse_nat (l : list ascii) : option (Z * list ascii) :=
  match l with
  | c :: r =>
      match digit c with
      | Some 0 =>
          match r with
          | c' :: _ =>
              match digit c' with
              | Some _ => None
              | None =>
                  if Ascii.eqb c' "." || Ascii.eqb c' "e" || Ascii.eqb c' "E"
                  then None else Some (0, r)
              end
          | [] => Some (0, r)
          end
      | Some d =>
          let '(n, rest) := parse_digits d r in
          match rest with
          | c' :: _ =>
              if Ascii.eqb c' "." || Ascii.eqb c' "e" || Ascii.eqb c' "E"
              then None else Some (n, rest)
          | [] => Some (n, rest)
          end
      | None => None
      end
  | [] => None
  end.

Definition parse_int (l : list ascii) : option (Z * list ascii) :=
  match l with
  | "-"%char :: r =>
      match parse_nat r with
      | Some (n, rest) => Some (- n, rest)
      | None => None
      end
  | _ => parse_nat l
  end.

Fixpoint parse_value (fuel : nat) (l : list ascii) {struct fuel} : option (pyval * list ascii) :=
  match fuel with
  | O => None
  | S f =>
      match l with
      | "n"%char :: "u"%char :: "l"%char :: "l"%char :: r => Some (PNone, r)
      | "t"%char :: "r"%char :: "u"%char :: "e"%char :: r => Some (PBool true, r)
      | "f"%char :: "a"%char :: "l"%char :: "s"%char :: "e"%char :: r => Some (PBool false, r)
      | "["%char :: r =>
          match skip_ws r with
          | "]"%char :: r' => Some (PList [], r')
          | r' =>
              match parse_items f r' with
              | Some (vs, rest) => Some (PList vs, rest)
              | None => None
              end
          end
      | "{"%char :: r =>
          match skip_ws r with
          | "}"%char :: r' => Some (PDict [], r')
          | r' =>
              match parse_members f r' with
              | Some (kvs, rest) =>
                  Some (PDict (fold_left (fun d kv => dict_set (fst kv) (snd kv) d) kvs []), rest)
              | None => None
              end
          end
      | c :: r =>
          if Ascii.eqb c dquote then
            match parse_string r with
            | Some (s, rest) => Some (PStr s, rest)
            | None => None
            end
          else
            match parse_int l with
            | Some (n, rest) => Some (PInt n, rest)
            | None => None
            end
      | [] => None
      end
  end

with parse_items (fuel : nat) (l : list ascii) {struct fuel} : option (list pyval * list ascii) :=
  match fuel with
  | O => None
  | S f =>
      match parse_value f l with
      | Some (v, r) =>
          match skip_ws r with
          | ","%char :: r' =>
              match parse_items f (skip_ws r') with
              | Some (vs, rest) => Some (v :: vs, rest)
              | None => None
              end
          | "]"%char :: r' => Some ([v], r')
          | _ => None
          end
      | None => None
      end
  end

with parse_members (fuel : nat) (l : list ascii) {struct fuel}
  : option (list (string * pyval) * list ascii) :=
  match fuel with
  | O => None
  | S f =>
      match l with
      | c :: r =>
          if Ascii.eqb c dquote then
            match parse_string r with
            | Some (k, r1) =>
                match skip_ws r1 with
                | ":"%char :: r2 =>
                    match parse_value f (skip_ws r2) with
                    | Some (v, r3) =>
                        match skip_ws r3 with
                        | ","%char :: r4 =>
                            match parse_members f (skip_ws r4) with
                            | Some (kvs, rest) => Some ((k, v) :: kvs, rest)
                            | None => None
                            end
                        | "}"%char :: r4 => Some ([(k, v)], r4)
                        | _ => None
                        end
                    | None => None
                    end
                | _ => None
                end
            | None => None
            end
          else None
      | [] => None
      end
  end.

Definition json_loads (s : string) : option pyval :=
  let l := list_ascii_of_string s in
  match parse_value (2 * List.length l + 2) (skip_ws l) with
  | Some (v, rest) =>
      match skip_ws rest with
      | [] => Some v
      | _ :: _ => None
      end
  | None => None
  end.

Definition byte (c : ascii) : Z := Z.of_nat (nat_of_ascii c).

Definition hex_digit (n : Z) : ascii :=
  nth (Z.to_nat n) (list_ascii_of_string "0123456789abcdef") "0"%char.

Definition hex4 (n : Z) : string :=
  String (hex_digit (n / 4096 mod 16)) (String (hex_digit (n / 256 mod 16))
    (String (hex_digit (n / 16 mod 16)) (String (hex_digit (n mod 16)) EmptyString))).

(** [ensure_ascii]: a code point outside ASCII as one or two [\uXXXX]. *)
Definition u_escape (cp : Z) : string :=
  if cp <? 65536 then String backslash (String "u" (hex4 cp))
  else
    let v := cp - 65536 in
    (String backslash (String "u" (hex4 (55296 + v / 1024)))
     ++ String backslash (String "u" (hex4 (56320 + v mod 1024))))%string.

Definition escape_ascii (c : ascii) : string :=
  let n := byte c in
  if Ascii.eqb c dquote then String backslash (String dquote EmptyString)
  else if Ascii.eqb c backslash then String backslash (String backslash EmptyString)
  else if n =? 10 then String backslash "n"
  else if n =? 13 then String backslash "r"
  else if n =? 9 then String backslash "t"
  else if n =? 8 then String backslash "b"
  else if n =? 12 then String backslash "f"
  else if n <? 32 then u_escape n
  else String c EmptyString.

(** The body of a JSON string for UTF-8 text. *)
Fixpoint escape (l : list ascii) : string :=
  match l with
  | [] => EmptyString
  | c :: r =>
      let n := byte c in
      if n <? 128 then (escape_ascii c ++ escape r)%string
      else if n <? 224 then
        match r with
        | c2 :: r' => (u_escape ((n - 192) * 64 + (byte c2 - 128)) ++ escape r')%string
        | [] => EmptyString
        end
      else if n <? 240 then
        match r with
        | c2 :: c3 :: r' =>
            (u_escape ((n - 224) * 4096 + (byte c2 - 128) * 64 + (byte c3 - 128))
             ++ escape r')%string
        | _ => EmptyString
        end
      else
        match r with
        | c2 :: c3 :: c4 :: r' =>
            (u_escape ((n - 240) * 262144 + (byte c2 - 128) * 4096
                       + (byte c3 - 128) * 64 + (byte c4 - 128))
             ++ escape r')%string
        | _ => EmptyString
        end
  end.

Definition quoted (s : string) : string :=
  String dquote (escape (list_ascii_of_string s) ++ String dquote EmptyString)%string.

Fixpoint json_dumps (v : pyval) : string :=
  match v with
  | PNone => "null"
  | PBool true => "true"
  | PBool false => "false"
  | PInt z => str_of_int z
  | PFloat literal => literal
  | PStr s => quoted s
  | PList l => ("[" ++ String.concat ", " (map json_dumps l) ++ "]")%string
  | PDict d =>
      ("{" ++ String.concat ", "
                (map (fun kv => match kv with
                                | (k, x) => (quoted k ++ ": " ++ json_dumps x)%string
                                end) d)
       ++ "}")%string
  end.

(** [repr] where a string needs no escaping. *)
Fixpoint py_repr (v : pyval) : string :=
  match v with
  | PNone => "None"
  | PBool true => "True"
  | PBool false => "False"
  | PInt z => str_of_int z
  | PFloat literal => literal
  | PStr s => ("'" ++ s ++ "'")%string
  | PList l => ("[" ++ String.concat ", " (map py_repr l) ++ "]")%string
  | PDict d =>
      ("{" ++ String.concat ", "
                (map (fun kv => match kv with
                                | (k, x) => ("'" ++ k ++ "': " ++ py_repr x)%string
                                end) d)
       ++ "}")%string
  end.

Definition py_str (v : pyval) : string :=
  match v with
  | PStr s => s
  | _ => py_repr v
  end.

Definition is_strip_space (c : ascii) : bool :=
  let n := byte c in
  ((9 <=? n) && (n <=? 13)) || ((28 <=? n) && (n <=? 32)).

Fixpoint lstrip (l : list ascii) : list ascii :=
  match l with
  | c :: r => if is_strip_space c then lstrip r else l
  | [] => []
  end.

Definition str_strip (s : string) : string :=
  string_of_list_ascii (rev (lstrip (rev (lstrip (list_ascii_of_string s))))).

Definition builtins : PyBuiltins :=
  Build_PyBuiltins json_loads json_dumps py_str str_strip.

End Lite.

(** ** Admin console: the data page *)

(** [ORDER BY date DESC, check_in_time DESC]: a later date first; within a
    date a later check-in first and NULL last; rows with equal keys keep
    rowid order. *)
Definition recent_first (a b : AttendanceRow) : bool :=
  match String.compare (att_date a) (att_date b) with
  | Gt => true
  | Eq => time_leb (att_check_in_time b) (att_check_in_time a)
  | Lt => false
  end.

Fixpoint insert_recent (r : AttendanceRow) (l : list AttendanceRow) : list AttendanceRow :=
  match l with
  | [] => [r]
  | r' :: l' => if recent_first r r' then r :: r' :: l' else r' :: insert_recent r l'
  end.

Definition order_recent (l : list AttendanceRow) : list AttendanceRow :=
  fold_right insert_recent [] l.

Section AdminData.

Context `{PyBuiltins}.

(** [GET /data]: the records and the settings handed to the template. *)
Definition admin_data (st : storage) (db : DB)
  : outcome (list AttendanceRow * list (string * pyval)) :=
  _ <- get_db st ;;
  records <- execute st (Return (firstn 100 (order_recent (attendance db)))) ;;
  cfg <- get_all_settings st db ;;
  Return (records, cfg).

End AdminData.

(** ** Reading a card *)






(** ** Store constraints and reachable states *)

(** The columns of [UNIQUE(user_id, date)]. *)
Definition att_key (r : AttendanceRow) : string * string := (att_user_id r, att_date r).

(** The three uniqueness constraints of the schema. *)
Definition schema_ok (db : DB) : Prop :=
  NoDup (map att_key (attendance db)) /\
  NoDup (map usr_user_id (users db)) /\
  NoDup (map set_key (settings db)).


(** The columns a check-in writes and nothing else updates. *)
Definition check_in_part (r : AttendanceRow)
  : Z * string * string * string * option string * option string * option string
    * option string * option string * string :=
  (att_id r, att_user_id r, att_user_name r, att_date r, att_check_in_time r,
   att_morning_status r, att_location r, att_task r, att_tasks_json r, att_created_at r).

(** Whether the settings table has a row for the key. *)
Definition has_setting (db : DB) (key : string) : bool :=
  existsb (fun r => (set_key r =? key)%string) (settings db).

(** The number of rows kept for a user on a date. *)
Definition records_for (db : DB) (user_id d : string) : nat :=
  List.length (filter (att_where user_id d) (attendance db)).

Definition has_record (db : DB) (user_id d : string) : bool :=
  existsb (att_where user_id d) (attendance db).

Section Reachable.

Context `{PyBuiltins}.

(** The stores the program can be in: an empty store, changed by any of its
    operations with any arguments, whether or not the store answers. *)
Inductive reachable : DB -> Prop :=
| reach_empty : reachable empty_db
| reach_init_db st env db :
    reachable db -> reachable (snd (init_db st env db))
| reach_set_setting st env db key value :
    reachable db -> reachable (snd (set_setting st env db key value))
| reach_register_user st db user_id user_name :
    reachable db -> reachable (snd (register_user st db user_id user_name))
| reach_check_in st env db user_id user_name status task location tasks_json :
    reachable db ->
    reachable (snd (check_in st env db user_id user_name status task location tasks_json))
| reach_check_out st env db user_id completion work_summary :
    reachable db -> reachable (snd (check_out st env db user_id completion work_summary))
| reach_update_progress st env db user_id progress_status :
    reachable db -> reachable (snd (update_progress st env db user_id progress_status)).


(** One operation of the program on the store. *)
Inductive step : DB -> DB -> Prop :=
| step_init_db st env db : step db (snd (init_db st env db))
| step_set_setting st env db key value : step db (snd (set_setting st env db key value))
| step_register_user st db user_id user_name :
    step db (snd (register_user st db user_id user_name))
| step_check_in st env db user_id user_name status task location tasks_json :
    step db (snd (check_in st env db user_id user_name status task location tasks_json))
| step_check_out st env db user_id completion work_summary :
    step db (snd (check_out st env db user_id completion work_summary))
| step_update_progress st env db user_id progress_status :
    step db (snd (update_progress st env db user_id progress_status)).

End Reachable.

(** ** Sample data *)

Module Sample.

Definition env : Env :=
  mkEnv "2024-05-06" "09:01:30" "2024-05-06 09:01:30" "2024-05-06 01:01:30"
        "https://open.feishu.cn/open-apis/bot/v2/hook/sample" true.

(** A store in which carol, checked in today, has been deactivated. *)
Definition carol_inactive : DB :=
  mkDB [mkAttendance 1 "ou_carol" "carol" "2024-05-06" (Some "08:55:10") None
          (Some "居家办公") None (Some "居家办公") (Some "日常工作") (Some "[]") 0 None None
          "2024-05-06 00:55:10"]
       [mkUser "ou_carol" "carol" 0]
       [].

(** The store after the admin console saved a status vocabulary of its own. *)
Definition custom_status : DB :=
  snd (save_status (H := Lite.builtins) Healthy env empty_db
         [("status_options", Lite.json_dumps (PList [PStr "远程办公"; PStr "出差"]))]).

(** alice sends the check-in keyword. *)
Definition checkin_text : WebhookData :=
  mkWebhookData (Some "text")
    (Some (mkSender (Some "ou_alice") (Some (mkSenderId (Some "alice")))))
    (Some (mkTextBody (Some " 签到 "))).

(** A day with two check-ins, one check-out, one registered user without a
    record and one deactivated user. *)
Definition team_day : DB :=
  mkDB [mkAttendance 1 "ou_bob" "bob" "2024-05-06" (Some "09:20:00") None
          (Some "外出拍摄") None (Some "外出拍摄") (Some "日常工作") (Some "[]") 0
          (Some "一切正常") None "2024-05-06 01:20:00";
        mkAttendance 2 "ou_alice" "alice" "2024-05-06" (Some "09:01:30") (Some "18:05:00")
          (Some "办公室坐班") (Some "已完成工作") (Some "办公室坐班") (Some "日常工作")
          (Some "[]") 75 None (Some "") "2024-05-06 01:01:30";
        mkAttendance 3 "ou_alice" "alice" "2024-05-05" (Some "09:10:00") None
          (Some "居家办公") None (Some "居家办公") (Some "日常工作") (Some "[]") 0 None None
          "2024-05-05 01:10:00"]
       [mkUser "ou_alice" "alice" 1; mkUser "ou_bob" "bob" 1; mkUser "ou_erin" "erin" 1;
        mkUser "ou_carol" "carol" 0]
       [].

(** Later the same day. *)
Definition evening : Env :=
  mkEnv "2024-05-06" "18:30:00" "2024-05-06 18:30:00" "2024-05-06 10:30:00"
        "https://open.feishu.cn/open-apis/bot/v2/hook/sample" true.

(** The store after alice's check-in from the status card. *)
Definition alice_in : DB :=
  snd (check_in Healthy env empty_db "ou_alice" "alice" "办公室坐班" "日常工作"
         "办公室坐班" default_tasks_json).

End Sample.

(** * Properties *)

(** ** Rows and keys *)

Lemma att_where_key (u d : string) (r : AttendanceRow) :
  att_where u d r = true <-> att_key r = (u, d).
Proof.
  unfold att_where, att_key. rewrite andb_true_iff, !String.eqb_eq.
  split.
  - intros [-> ->]. reflexivity.
  - intros E. inversion E. split; reflexivity.
Qed.

Lemma existsb_false_filter {A : Type} (p : A -> bool) (l : list A) :
  existsb p l = false -> filter p l = [].
Proof.
  induction l as [|a l IH]; simpl; [reflexivity|].
  rewrite orb_false_iff. intros [Ha Hl]. rewrite Ha. auto.
Qed.

Lemma filter_nil_existsb {A : Type} (p : A -> bool) (l : list A) :
  filter p l = [] -> existsb p l = false.
Proof.
  induction l as [|a l IH]; simpl; [reflexivity|].
  destruct (p a); [discriminate|]. exact IH.
Qed.

Lemma existsb_false_map {A : Type} (p : A -> bool) (f : A -> A) (l : list A) :
  existsb p l = false -> map (fun r => if p r then f r else r) l = l.
Proof.
  induction l as [|a l IH]; simpl; [reflexivity|].
  rewrite orb_false_iff. intros [Ha Hl]. rewrite Ha, IH by assumption. reflexivity.
Qed.

Lemma has_record_in (db : DB) (u d : string) :
  has_record db u d = true <->
  exists r, In r (attendance db) /\ att_user_id r = u /\ att_date r = d.
Proof.
  unfold has_record. rewrite existsb_exists. split.
  - intros [r [Hin Hw]]. apply att_where_key in Hw. inversion Hw. eauto.
  - intros [r [Hin [Hu Hd]]]. exists r. split; [assumption|].
    apply att_where_key. unfold att_key. rewrite Hu, Hd. reflexivity.
Qed.

(** A key without duplicates selects at most one row. *)
Lemma nodup_key_filter (tbl : list AttendanceRow) (u d : string) :
  NoDup (map att_key tbl) -> (List.length (filter (att_where u d) tbl) <= 1)%nat.
Proof.
  induction tbl as [|r tbl IH]; simpl; intros Hnd; [lia|].
  inversion Hnd as [|k ks Hnotin Hnd']; subst.
  destruct (att_where u d r) eqn:Hw.
  - apply att_where_key in Hw.
    assert (Hnone : filter (att_where u d) tbl = []).
    { apply existsb_false_filter. apply not_true_is_false. intros Hex.
      apply existsb_exists in Hex. destruct Hex as [r' [Hin Hw']].
      apply att_where_key in Hw'. apply Hnotin. rewrite Hw, <- Hw'.
      apply in_map. assumption. }
    simpl. rewrite Hnone. simpl. lia.
  - apply IH. assumption.
Qed.

Lemma update_keeps_keys (p : AttendanceRow -> bool) (f : AttendanceRow -> AttendanceRow)
  (tbl : list AttendanceRow) :
  (forall r, att_key (f r) = att_key r) ->
  map att_key (fst (update_attendance p f tbl)) = map att_key tbl.
Proof.
  intros Hf. unfold update_attendance. simpl. rewrite map_map.
  apply map_ext. intros r. destruct (p r); [apply Hf | reflexivity].
Qed.

Lemma insert_keeps_unique (r : AttendanceRow) (tbl tbl' : list AttendanceRow) :
  NoDup (map att_key tbl) ->
  insert_attendance r tbl = Return tbl' ->
  NoDup (map att_key tbl').
Proof.
  unfold insert_attendance. intros Hnd.
  destruct (existsb _ tbl) eqn:Hex; [discriminate|].
  intros E. inversion E; subst. rewrite map_app. simpl.
  apply NoDup_app; [assumption | repeat constructor; simpl; tauto |].
  intros k Hk [<- | []].
  apply in_map_iff in Hk. destruct Hk as [r' [Hk Hin]].
  assert (Hex' : existsb (att_where (att_user_id r) (att_date r)) tbl = true).
  { apply existsb_exists. exists r'. split; [assumption|]. apply att_where_key. exact Hk. }
  congruence.
Qed.

(** ** The schema's constraints hold in every reachable store *)

Lemma nodup_map_filter {A K : Type} (key : A -> K) (p : A -> bool) (l : list A) :
  NoDup (map key l) -> NoDup (map key (filter p l)).
Proof.
  induction l as [|a l IH]; simpl; intros Hnd; [constructor|].
  inversion Hnd as [|k ks Hnotin Hnd']; subst.
  destruct (p a); simpl; [|auto].
  constructor; [|auto].
  intros Hin. apply Hnotin. apply in_map_iff in Hin.
  destruct Hin as [x [Hx Hin]]. apply filter_In in Hin.
  rewrite <- Hx. apply in_map. tauto.
Qed.

(** Dropping the rows of one key and appending a row of that key. *)
Lemma nodup_replace {A : Type} (key : A -> string) (a : A) (l : list A) :
  NoDup (map key l) ->
  NoDup (map key (filter (fun r => negb (key r =? key a)%string) l ++ [a])).
Proof.
  intros Hnd. rewrite map_app. simpl.
  apply NoDup_app.
  - apply nodup_map_filter. assumption.
  - repeat constructor. simpl. tauto.
  - intros k Hk [<- | []].
    apply in_map_iff in Hk. destruct Hk as [x [Hx Hin]].
    apply filter_In in Hin. destruct Hin as [_ Hne].
    rewrite Hx, String.eqb_refl in Hne. discriminate.
Qed.

Lemma ignore_setting_unique (s : SettingRow) (tbl : list SettingRow) :
  NoDup (map set_key tbl) -> NoDup (map set_key (ignore_setting s tbl)).
Proof.
  intros Hnd. unfold ignore_setting.
  destruct (existsb _ tbl) eqn:Hex; [assumption|].
  rewrite map_app. simpl.
  apply NoDup_app; [assumption | repeat constructor; simpl; tauto |].
  intros k Hk [<- | []].
  apply in_map_iff in Hk. destruct Hk as [x [Hx Hin]].
  assert (Hex' : existsb (fun r => (set_key r =? set_key s)%string) tbl = true).
  { apply existsb_exists. exists x. split; [assumption|]. apply String.eqb_eq. exact Hx. }
  congruence.
Qed.

Lemma set_check_out_key (t : string) (c : Z) (w : string) (r : AttendanceRow) :
  att_key (set_check_out t c w r) = att_key r.
Proof. reflexivity. Qed.

Lemma set_progress_key (p : string) (r : AttendanceRow) :
  att_key (set_progress p r) = att_key r.
Proof. reflexivity. Qed.

Section SchemaInvariant.

Context `{PyBuiltins}.

Lemma fold_ignore_unique (stamp : string) (defaults : list (string * string))
  (tbl : list SettingRow) :
  NoDup (map set_key tbl) ->
  NoDup (map set_key
           (fold_left (fun tbl kv => ignore_setting (mkSetting (fst kv) (Some (snd kv)) stamp) tbl)
                      defaults tbl)).
Proof.
  revert tbl. induction defaults as [|kv defaults IH]; intros tbl Hs; [exact Hs|].
  cbn [fold_left]. apply IH. apply ignore_setting_unique. exact Hs.
Qed.

Lemma init_db_schema st env db : schema_ok db -> schema_ok (snd (init_db st env db)).
Proof.
  intros [Ha [Hu Hs]]. unfold init_db.
  destruct st; cbn [get_db execute snd]; [|repeat split; assumption..].
  unfold schema_ok, with_settings. cbn [attendance users settings].
  repeat split; try assumption.
  apply fold_ignore_unique. exact Hs.
Qed.

Lemma set_setting_schema st env db key value :
  schema_ok db -> schema_ok (snd (set_setting st env db key value)).
Proof.
  intros [Ha [Hu Hs]]. unfold set_setting. destruct st; simpl; repeat split; try assumption.
  apply (nodup_replace set_key (mkSetting key (Some value) (now env))). exact Hs.
Qed.

Lemma register_user_schema st db user_id user_name :
  schema_ok db -> schema_ok (snd (register_user st db user_id user_name)).
Proof.
  intros [Ha [Hu Hs]]. unfold register_user. destruct st; simpl; repeat split; try assumption.
  apply (nodup_replace usr_user_id (mkUser user_id user_name 1)). exact Hu.
Qed.

Lemma check_in_schema st env db user_id user_name status task location tasks_json :
  schema_ok db ->
  schema_ok (snd (check_in st env db user_id user_name status task location tasks_json)).
Proof.
  intros Hok. unfold check_in. destruct st; simpl; [|exact Hok..].
  destruct (filter _ (attendance db)) as [|r rs] eqn:Hsel; [|exact Hok].
  destruct (insert_attendance _ (attendance db)) as [tbl|e] eqn:Hins; [|exact Hok].
  simpl. destruct Hok as [Ha [Hu Hs]]. repeat split; simpl; try assumption.
  - eapply insert_keeps_unique; eassumption.
  - apply (nodup_replace usr_user_id (mkUser user_id user_name 1)). exact Hu.
Qed.

Lemma check_out_schema st env db user_id completion work_summary :
  schema_ok db -> schema_ok (snd (check_out st env db user_id completion work_summary)).
Proof.
  intros Hok. unfold check_out, update_attendance.
  destruct st; cbn [get_db execute]; [|exact Hok..].
  unfold bind_int. destruct (fits_int64 completion); cbn [bind]; [|exact Hok].
  destruct Hok as [Ha [Hu Hs]].
  assert (Hkeys := update_keeps_keys (att_where user_id (get_today_date env))
                     (set_check_out (get_current_time env) completion work_summary)
                     (attendance db) (set_check_out_key _ _ _)).
  simpl in Hkeys.
  destruct (_ =? 0)%nat; simpl; repeat split; simpl; try assumption;
    rewrite Hkeys; assumption.
Qed.

Lemma update_progress_schema st env db user_id progress_status :
  schema_ok db -> schema_ok (snd (update_progress st env db user_id progress_status)).
Proof.
  intros Hok. unfold update_progress. destruct st; simpl; [|exact Hok..].
  destruct Hok as [Ha [Hu Hs]].
  assert (Hkeys := update_keeps_keys (att_where user_id (get_today_date env))
                     (set_progress progress_status) (attendance db) (set_progress_key _)).
  simpl in Hkeys. repeat split; simpl; try assumption. rewrite Hkeys. assumption.
Qed.

Lemma reachable_schema_ok db : reachable db -> schema_ok db.
Proof.
  induction 1.
  - repeat split; constructor.
  - apply init_db_schema; assumption.
  - apply set_setting_schema; assumption.
  - apply register_user_schema; assumption.
  - apply check_in_schema; assumption.
  - apply check_out_schema; assumption.
  - apply update_progress_schema; assumption.
Qed.

End SchemaInvariant.

(** ** Check-in and check-out *)

Lemma with_attendance_same (db : DB) : with_attendance db (attendance db) = db.
Proof. destruct db; reflexivity. Qed.

Lemma check_in_rejected env db user_id user_name status task location tasks_json :
  has_record db user_id (today env) = true ->
  check_in Healthy env db user_id user_name status task location tasks_json
  = (Return (false, "您今天已经签到过了！"), db).
Proof.
  unfold has_record, check_in, get_today_date. intros Hex. cbn [get_db execute].
  destruct (filter (att_where user_id (today env)) (attendance db)) eqn:Hsel.
  - apply filter_nil_existsb in Hsel. congruence.
  - reflexivity.
Qed.

Lemma check_in_accepted env db user_id user_name status task location tasks_json :
  has_record db user_id (today env) = false ->
  check_in Healthy env db user_id user_name status task location tasks_json
  = (Return (true, ("签到成功！" ++ nl ++ "状态：" ++ status ++ nl ++ "任务：" ++ task)%string),
     mkDB (attendance db
           ++ [mkAttendance (next_rowid (attendance db)) user_id user_name (today env)
                 (Some (current_time env)) None (Some status) None (Some location)
                 (Some task) (Some tasks_json) 0 None None (utc_now env)])
          (replace_user (mkUser user_id user_name 1) (users db))
          (settings db)).
Proof.
  unfold has_record, check_in, get_today_date, get_current_time. intros Hex. cbn [get_db execute].
  rewrite (existsb_false_filter _ _ Hex).
  unfold insert_attendance. cbn [att_user_id att_date]. rewrite Hex.
  reflexivity.
Qed.

Lemma has_record_after_check_in env db user_id user_name status task location tasks_json :
  has_record (snd (check_in Healthy env db user_id user_name status task location tasks_json))
    user_id (today env) = true.
Proof.
  destruct (has_record db user_id (today env)) eqn:Hex.
  - rewrite check_in_rejected by assumption. exact Hex.
  - rewrite check_in_accepted by assumption. unfold has_record. cbn [snd attendance].
    rewrite existsb_app. cbn [existsb]. unfold att_where at 2. cbn [att_user_id att_date].
    rewrite !String.eqb_refl. cbn. apply orb_true_r.
Qed.

(** C1: in every reachable store a user has at most one record per date; a
    check-in on a day that already has a record returns the "already checked
    in" failure and leaves the store, hence the record's fields, as it was;
    in particular the second of two check-ins on one day is rejected and the
    first one's row stays as written. *)
Theorem check_in_at_most_once {B : PyBuiltins} (db : DB) :
  reachable db ->
  (forall u d, (records_for db u d <= 1)%nat) /\
  (forall env user_id user_name status task location tasks_json,
      has_record db user_id (today env) = true ->
      check_in Healthy env db user_id user_name status task location tasks_json
      = (Return (false, "您今天已经签到过了！"), db)) /\
  (forall env env' user_id user_name status task location tasks_json
          user_name' status' task' location' tasks_json',
      today env' = today env ->
      has_record db user_id (today env) = false ->
      let db1 := snd (check_in Healthy env db user_id user_name status task location
                        tasks_json) in
      filter (att_where user_id (today env)) (attendance db1)
      = [mkAttendance (next_rowid (attendance db)) user_id user_name (today env)
           (Some (current_time env)) None (Some status) None (Some location)
           (Some task) (Some tasks_json) 0 None None (utc_now env)] /\
      check_in Healthy env' db1 user_id user_name' status' task' location' tasks_json'
      = (Return (false, "您今天已经签到过了！"), db1)).
Proof.
  intros Hreach. split; [|split].
  - intros u d. apply nodup_key_filter.
    apply (reachable_schema_ok db Hreach).
  - intros. apply check_in_rejected. assumption.
  - intros env env' user_id user_name status task location tasks_json
           user_name' status' task' location' tasks_json' Hday Hnone db1.
    split.
    + subst db1. rewrite check_in_accepted by assumption. cbn [snd attendance].
      rewrite filter_app. unfold has_record in Hnone.
      rewrite (existsb_false_filter _ _ Hnone). cbn [filter app].
      unfold att_where. cbn [att_user_id att_date]. rewrite !String.eqb_refl.
      reflexivity.
    + apply check_in_rejected. rewrite Hday. subst db1. apply has_record_after_check_in.
Qed.

Lemma check_in_at_most_once_witness :
  reachable (H := Lite.builtins) Sample.alice_in /\
  (records_for Sample.alice_in "ou_alice" "2024-05-06" <= 1)%nat /\
  check_in Healthy Sample.evening Sample.alice_in "ou_alice" "alice" "外出拍摄" "日常工作"
    "外出拍摄" default_tasks_json
  = (Return (false, "您今天已经签到过了！"), Sample.alice_in).
Proof.
  assert (Hreach : reachable (H := Lite.builtins) Sample.alice_in).
  { apply reach_check_in. apply reach_empty. }
  split; [exact Hreach|].
  destruct (check_in_at_most_once (B := Lite.builtins) Sample.alice_in Hreach)
    as [Hone [Hreject _]].
  split; [apply Hone|].
  apply Hreject. vm_compute. reflexivity.
Defined.

(** A completion that does not fit a signed 64-bit integer cannot be bound:
    the statement is not run and the [except] branch answers. *)
Lemma check_out_overflow env db user_id completion work_summary :
  fits_int64 completion = false ->
  check_out Healthy env db user_id completion work_summary
  = (Return (false, "签退失败，请重试"), db).
Proof.
  unfold check_out, bind_int. intros Hbig. cbn [get_db execute]. rewrite Hbig. reflexivity.
Qed.

(** A check-out that matches no row: [rowcount] is 0 and nothing moves. *)
Lemma check_out_unrecorded env db user_id completion work_summary :
  fits_int64 completion = true ->
  has_record db user_id (today env) = false ->
  check_out Healthy env db user_id completion work_summary
  = (Return (false, "您今天还没有签到！"), db).
Proof.
  unfold has_record, check_out, update_attendance, bind_int, get_today_date.
  intros Hfits Hex. cbn [get_db execute]. rewrite Hfits. cbn [bind].
  rewrite (existsb_false_map _ _ _ Hex), (existsb_false_filter _ _ Hex).
  cbn [List.length Nat.eqb]. rewrite with_attendance_same. reflexivity.
Qed.

(** C2: a check-out for a user without a record for today creates no record
    and leaves the store as it was; with a completion that SQLite can store
    (a signed 64-bit integer) it returns the "not checked in" failure, and
    with a larger one the retry failure. *)
Theorem check_out_requires_check_in (env : Env) (db : DB) (user_id : string)
  (completion : Z) (work_summary : string) :
  has_record db user_id (today env) = false ->
  (fits_int64 completion = true ->
   check_out Healthy env db user_id completion work_summary
   = (Return (false, "您今天还没有签到！"), db)) /\
  (fits_int64 completion = false ->
   check_out Healthy env db user_id completion work_summary
   = (Return (false, "签退失败，请重试"), db)) /\
  records_for (snd (check_out Healthy env db user_id completion work_summary))
    user_id (today env) = 0%nat /\
  snd (check_out Healthy env db user_id completion work_summary) = db.
Proof.
  intros Hnone.
  assert (Hsame : snd (check_out Healthy env db user_id completion work_summary) = db).
  { destruct (fits_int64 completion) eqn:Hfits.
    - rewrite check_out_unrecorded by assumption. reflexivity.
    - rewrite check_out_overflow by assumption. reflexivity. }
  split; [intros Hfits; apply check_out_unrecorded; assumption|].
  split; [intros Hbig; apply check_out_overflow; assumption|].
  split; [|exact Hsame].
  rewrite Hsame. unfold records_for. unfold has_record in Hnone.
  rewrite (existsb_false_filter _ _ Hnone). reflexivity.
Qed.

Lemma check_out_requires_check_in_witness :
  has_record Sample.alice_in "ou_bob" (today Sample.evening) = false /\
  fits_int64 75 = true /\
  check_out Healthy Sample.evening Sample.alice_in "ou_bob" 75 ""
  = (Return (false, "您今天还没有签到！"), Sample.alice_in).
Proof.
  split; [vm_compute; reflexivity|]. split; [reflexivity|].
  destruct (check_out_requires_check_in Sample.evening Sample.alice_in "ou_bob" 75 "")
    as [Hout _]; [vm_compute; reflexivity | apply Hout; reflexivity].
Defined.

(** C2 as stated fails for a completion that SQLite cannot store: binding it
    raises [OverflowError] inside the [try], so the call answers with the
    retry text and not with "not checked in". *)
Lemma check_out_overflow_is_a_retry :
  has_record Sample.alice_in "ou_bob" (today Sample.evening) = false /\
  check_out Healthy Sample.evening Sample.alice_in "ou_bob" (2 ^ 63) ""
  = (Return (false, "签退失败，请重试"), Sample.alice_in) /\
  check_out Healthy Sample.evening Sample.alice_in "ou_bob" (2 ^ 63) ""
  <> (Return (false, "您今天还没有签到！"), Sample.alice_in).
Proof.
  split; [vm_compute; reflexivity|].
  assert (E : check_out Healthy Sample.evening Sample.alice_in "ou_bob" (2 ^ 63) ""
              = (Return (false, "签退失败，请重试"), Sample.alice_in))
    by (apply check_out_overflow; reflexivity).
  split; [exact E|]. rewrite E. intros Hsame. inversion Hsame.
Qed.

Lemma filter_update (p : AttendanceRow -> bool) (f : AttendanceRow -> AttendanceRow)
  (tbl : list AttendanceRow) :
  (forall r, p (f r) = p r) ->
  filter p (map (fun r => if p r then f r else r) tbl) = map f (filter p tbl).
Proof.
  intros Hf. induction tbl as [|r tbl IH]; [reflexivity|].
  cbn [map filter]. destruct (p r) eqn:Hp.
  - rewrite Hf, Hp. cbn [map]. rewrite IH. reflexivity.
  - rewrite Hp. exact IH.
Qed.

Lemma existsb_true_length {A : Type} (p : A -> bool) (l : list A) :
  existsb p l = true -> (List.length (filter p l) =? 0)%nat = false.
Proof.
  intros Hex. destruct (filter p l) eqn:Hsel; [|reflexivity].
  apply filter_nil_existsb in Hsel. congruence.
Qed.

(** A check-out with a record for today: every row of the user for today
    gets the [SET] clause, the others stay. *)
Lemma check_out_recorded env db user_id completion work_summary :
  fits_int64 completion = true ->
  has_record db user_id (today env) = true ->
  check_out Healthy env db user_id completion work_summary
  = (Return (true, ("签退成功！" ++ nl ++ "今日完成度：" ++ str_of_int completion ++ "%")%string),
     with_attendance db
       (map (fun r => if att_where user_id (today env) r
                      then set_check_out (current_time env) completion work_summary r
                      else r)
            (attendance db))).
Proof.
  unfold has_record, check_out, update_attendance, bind_int, get_today_date,
    get_current_time.
  intros Hfits Hex. cbn [get_db execute]. rewrite Hfits. cbn [bind].
  rewrite (existsb_true_length _ _ Hex). reflexivity.
Qed.

Lemma att_where_set_check_out u d t c w r :
  att_where u d (set_check_out t c w r) = att_where u d r.
Proof. reflexivity. Qed.

Lemma att_where_set_progress u d p r :
  att_where u d (set_progress p r) = att_where u d r.
Proof. reflexivity. Qed.

(** C5: after a successful check-in, a check-out on the same day with a
    completion [P] that SQLite can store (a signed 64-bit integer) and
    summary [W] succeeds and leaves today's record with
    the check-out time, completion [P], the fixed evening status and
    summary [W], the check-in fields being kept; the per-user query then
    shows the check-out time and completion [P]. *)
Theorem check_out_after_check_in (env env' : Env) (db : DB)
  (user_id user_name status task location tasks_json : string) (P : Z) (W : string) :
  today env' = today env ->
  has_record db user_id (today env) = false ->
  fits_int64 P = true ->
  let db1 := snd (check_in Healthy env db user_id user_name status task location tasks_json) in
  let out := check_out Healthy env' db1 user_id P W in
  fst out = Return (true, ("签退成功！" ++ nl ++ "今日完成度：" ++ str_of_int P ++ "%")%string) /\
  filter (att_where user_id (today env')) (attendance (snd out))
  = [mkAttendance (next_rowid (attendance db)) user_id user_name (today env)
       (Some (current_time env)) (Some (current_time env')) (Some status)
       (Some "已完成工作") (Some location) (Some task) (Some tasks_json)
       P None (Some W) (utc_now env)] /\
  get_user_status Healthy env' (snd out) user_id
  = Return (Some (mkUserStatus user_name (Some (current_time env))
                    (Some (current_time env')) (Some status) (Some task) P None)).
Proof.
  intros Hday Hnone Hfits db1 out.
  assert (Hrec : has_record db1 user_id (today env') = true).
  { rewrite Hday. apply has_record_after_check_in. }
  assert (Hrows : filter (att_where user_id (today env')) (attendance (snd out))
                  = [mkAttendance (next_rowid (attendance db)) user_id user_name (today env)
                       (Some (current_time env)) (Some (current_time env')) (Some status)
                       (Some "已完成工作") (Some location) (Some task) (Some tasks_json)
                       P None (Some W) (utc_now env)]).
  { subst out. rewrite check_out_recorded by assumption. cbn [snd with_attendance attendance].
    rewrite filter_update by (intros; apply att_where_set_check_out).
    subst db1. rewrite check_in_accepted by assumption. cbn [snd attendance].
    rewrite filter_app, Hday. unfold has_record in Hnone.
    rewrite (existsb_false_filter _ _ Hnone). cbn [filter app].
    unfold att_where. cbn [att_user_id att_date]. rewrite !String.eqb_refl.
    reflexivity. }
  split; [|split].
  - subst out. rewrite check_out_recorded by assumption. reflexivity.
  - exact Hrows.
  - unfold get_user_status, get_today_date. cbn [get_db execute bind]. rewrite Hrows. reflexivity.
Qed.

Lemma check_out_after_check_in_witness :
  today Sample.evening = today Sample.env /\
  has_record empty_db "ou_alice" (today Sample.env) = false /\
  fits_int64 75 = true /\
  get_user_status Healthy Sample.evening
    (snd (check_out Healthy Sample.evening Sample.alice_in "ou_alice" 75 "三条视频已发布"))
    "ou_alice"
  = Return (Some (mkUserStatus "alice" (Some "09:01:30") (Some "18:30:00")
                    (Some "办公室坐班") (Some "日常工作") 75 None)).
Proof.
  split; [reflexivity|]. split; [reflexivity|]. split; [reflexivity|].
  apply (check_out_after_check_in Sample.env Sample.evening empty_db "ou_alice" "alice"
           "办公室坐班" "日常工作" "办公室坐班" default_tasks_json 75 "三条视频已发布");
    reflexivity.
Defined.

(** C5 as stated fails: the per-user query carries no work summary (nor
    evening status), so nothing can read the summary back from it.  Two
    check-outs that differ in the summary give the same query result. *)
Lemma user_status_hides_work_summary :
  ~ (exists read : outcome (option UserStatus) -> string,
        forall W : string,
          read (get_user_status Healthy Sample.evening
                  (snd (check_out Healthy Sample.evening Sample.alice_in "ou_alice" 75 W))
                  "ou_alice") = W).
Proof.
  intros [read Hread].
  assert (Ha := Hread "a"). assert (Hb := Hread "b").
  assert (E : get_user_status Healthy Sample.evening
                (snd (check_out Healthy Sample.evening Sample.alice_in "ou_alice" 75 "a"))
                "ou_alice"
              = get_user_status Healthy Sample.evening
                  (snd (check_out Healthy Sample.evening Sample.alice_in "ou_alice" 75 "b"))
                  "ou_alice") by reflexivity.
  rewrite E in Ha. rewrite Ha in Hb. discriminate Hb.
Qed.

(** ** Progress updates *)

(** C7: [update_progress] reports success and rewrites only the progress
    field, on every row of the user for today, checked out or not; the
    per-user query then shows the new progress; without a record for today
    the store is unchanged and the call still reports success. *)
Theorem update_progress_sets_field (env : Env) (db : DB) (user_id progress_status : string) :
  let out := update_progress Healthy env db user_id progress_status in
  fst out = Return true /\
  snd out
  = with_attendance db
      (map (fun r => if att_where user_id (today env) r
                     then set_progress progress_status r else r)
           (attendance db)) /\
  (forall r, In r (attendance db) -> att_where user_id (today env) r = true ->
             In (mkAttendance (att_id r) (att_user_id r) (att_user_name r) (att_date r)
                   (att_check_in_time r) (att_check_out_time r) (att_morning_status r)
                   (att_evening_status r) (att_location r) (att_task r) (att_tasks_json r)
                   (att_completion r) (Some progress_status) (att_work_summary r)
                   (att_created_at r))
                (attendance (snd out))) /\
  (has_record db user_id (today env) = true ->
   exists us, get_user_status Healthy env (snd out) user_id = Return (Some us) /\
              us_progress_status us = Some progress_status) /\
  (has_record db user_id (today env) = false -> snd out = db).
Proof.
  intros out. subst out. unfold update_progress, update_attendance, get_today_date.
  cbn [get_db execute fst snd]. split; [reflexivity|]. split; [reflexivity|].
  split; [|split].
  - intros r Hin Hw. cbn [with_attendance attendance].
    apply in_map_iff. exists r. rewrite Hw. split; [reflexivity | assumption].
  - intros Hrec. unfold get_user_status, get_today_date. cbn [get_db execute bind].
    cbn [with_attendance attendance].
    rewrite filter_update by (intros; apply att_where_set_progress).
    unfold has_record in Hrec.
    destruct (filter (att_where user_id (today env)) (attendance db)) as [|r rs] eqn:Hsel.
    + apply filter_nil_existsb in Hsel. congruence.
    + cbn [map]. eexists. split; reflexivity.
  - intros Hnone. unfold has_record in Hnone.
    rewrite (existsb_false_map _ _ _ Hnone). apply with_attendance_same.
Qed.

Lemma update_progress_sets_field_witness :
  has_record Sample.alice_in "ou_alice" (today Sample.env) = true /\
  has_record Sample.alice_in "ou_bob" (today Sample.env) = false /\
  (exists us,
      get_user_status Healthy Sample.env
        (snd (update_progress Healthy Sample.env Sample.alice_in "ou_alice" "一切正常"))
        "ou_alice" = Return (Some us) /\
      us_progress_status us = Some "一切正常") /\
  update_progress Healthy Sample.env Sample.alice_in "ou_bob" "一切正常"
  = (Return true, Sample.alice_in).
Proof.
  split; [reflexivity|]. split; [reflexivity|].
  destruct (update_progress_sets_field Sample.env Sample.alice_in "ou_alice" "一切正常")
    as [_ [_ [_ [Hshown _]]]].
  destruct (update_progress_sets_field Sample.env Sample.alice_in "ou_bob" "一切正常")
    as [Hret [_ [_ [_ Hsame]]]].
  split; [apply Hshown; reflexivity|].
  rewrite (surjective_pairing (update_progress _ _ _ _ _)).
  rewrite Hret, Hsame by reflexivity. reflexivity.
Defined.

(** ** Check-out from the completion card *)

(** Reduce the payload accessors of [feishu_callback] on a literal body. *)
Ltac callback_fields :=
  cbn [cd_type text_is negb String.eqb Ascii.eqb Bool.eqb cd_action cd_operator get_or
       act_value av_action av_status av_completion].

(** C10: an interactive callback whose payload has action "checkout" and no
    completion runs [check_out] with completion 0 and an empty summary and
    acknowledges; when the operator has a record for today the call
    succeeds and the record's completion becomes 0. *)
Theorem callback_checkout_without_completion (env : Env) (db : DB)
  (status : option string) (operator : option Operator) :
  let data := mkCallbackData (Some "interactive")
                (Some (mkAction (Some (mkActionValue (Some "checkout") status None))))
                operator in
  let user_id := get_or (op_user_id (get_or operator (mkOperator None None))) "" in
  let user_name := get_or (op_name (get_or operator (mkOperator None None))) "未知用户" in
  let out := check_out Healthy env db user_id 0 "" in
  (exists ok msg,
      fst out = Return (ok, msg) /\
      feishu_callback Healthy env db (Some data)
      = (response_ok,
         snd (send_text_message env [] ("@" ++ user_name ++ " " ++ msg)%string None),
         snd out)) /\
  (has_record db user_id (today env) = true ->
   fst out = Return (true, ("签退成功！" ++ nl ++ "今日完成度：0%")%string) /\
   (forall r, In r (attendance (snd out)) -> att_where user_id (today env) r = true ->
              att_completion r = 0 /\ att_work_summary r = Some "" /\
              att_check_out_time r = Some (current_time env) /\
              att_evening_status r = Some "已完成工作") /\
   exists us, get_user_status Healthy env (snd out) user_id = Return (Some us) /\
              us_completion us = 0).
Proof.
  intros data user_id user_name out. split.
  - destruct (has_record db user_id (today env)) eqn:Hrec.
    + exists true, ("签退成功！" ++ nl ++ "今日完成度：" ++ str_of_int 0 ++ "%")%string.
      assert (E : out = (Return (true, ("签退成功！" ++ nl ++ "今日完成度："
                                        ++ str_of_int 0 ++ "%")%string),
                         with_attendance db
                           (map (fun r => if att_where user_id (today env) r
                                          then set_check_out (current_time env) 0 "" r
                                          else r) (attendance db))))
        by (apply check_out_recorded; [reflexivity | assumption]).
      split; [rewrite E; reflexivity|].
      unfold feishu_callback. subst data. callback_fields.
      fold user_id. fold user_name. fold out. rewrite E. reflexivity.
    + exists false, "您今天还没有签到！".
      assert (E : out = (Return (false, "您今天还没有签到！"), db))
        by (apply check_out_unrecorded; [reflexivity | assumption]).
      split; [rewrite E; reflexivity|].
      unfold feishu_callback. subst data. callback_fields.
      fold user_id. fold user_name. fold out. rewrite E. reflexivity.
  - intros Hrec.
    assert (E : out = (Return (true, ("签退成功！" ++ nl ++ "今日完成度："
                                      ++ str_of_int 0 ++ "%")%string),
                       with_attendance db
                         (map (fun r => if att_where user_id (today env) r
                                        then set_check_out (current_time env) 0 "" r
                                        else r) (attendance db))))
      by (apply check_out_recorded; [reflexivity | assumption]).
    rewrite E. cbn [fst snd with_attendance attendance]. split; [reflexivity|]. split.
    + intros r Hin Hw. apply in_map_iff in Hin. destruct Hin as [r0 [Hr0 Hin]].
      destruct (att_where user_id (today env) r0) eqn:Hw0.
      * subst r. repeat split.
      * subst r. congruence.
    + unfold get_user_status, get_today_date. cbn [get_db execute bind attendance with_attendance].
      rewrite filter_update by (intros; apply att_where_set_check_out).
      unfold has_record in Hrec.
      destruct (filter (att_where user_id (today env)) (attendance db)) as [|r rs] eqn:Hsel.
      * apply filter_nil_existsb in Hsel. congruence.
      * cbn [map]. eexists. split; reflexivity.
Qed.

Lemma callback_checkout_without_completion_witness :
  has_record Sample.alice_in "ou_alice" (today Sample.evening) = true /\
  snd (feishu_callback Healthy Sample.evening Sample.alice_in
         (Some (mkCallbackData (Some "interactive")
                  (Some (mkAction (Some (mkActionValue (Some "checkout") None None))))
                  (Some (mkOperator (Some "ou_alice") (Some "alice"))))))
  = snd (check_out Healthy Sample.evening Sample.alice_in "ou_alice" 0 "") /\
  exists us,
    get_user_status Healthy Sample.evening
      (snd (check_out Healthy Sample.evening Sample.alice_in "ou_alice" 0 "")) "ou_alice"
    = Return (Some us) /\
    us_completion us = 0.
Proof.
  split; [reflexivity|].
  destruct (callback_checkout_without_completion Sample.evening Sample.alice_in None
              (Some (mkOperator (Some "ou_alice") (Some "alice"))))
    as [[ok [msg [_ Hcall]]] Hrecorded].
  split.
  - cbn [get_or op_user_id op_name] in Hcall. rewrite Hcall. reflexivity.
  - apply Hrecorded. reflexivity.
Defined.

(** ** User directory *)

Lemma filter_replace {A : Type} (key : A -> string) (a : A) (l : list A) :
  filter (fun r => (key r =? key a)%string)
         (filter (fun r => negb (key r =? key a)%string) l ++ [a]) = [a].
Proof.
  rewrite filter_app. cbn [filter]. rewrite String.eqb_refl.
  replace (filter _ (filter _ l)) with (@nil A); [reflexivity|].
  symmetry. induction l as [|x l IH]; [reflexivity|].
  cbn [filter]. destruct (key x =? key a)%string eqn:E; cbn [negb filter].
  - exact IH.
  - rewrite E. exact IH.
Qed.

(** C8: [register_user] returns a boolean whenever the connection opens,
    whether or not the statement then succeeds; it keeps user ids unique;
    when the store answers it returns [True] and the only row of the id
    carries the given name, active, the other users being kept; when the
    statement or the commit fails it returns [False] and changes nothing;
    when the connection cannot be opened the error is raised to the caller,
    the connection being opened before the [try]. *)
Theorem register_user_upsert (st : storage) (db : DB) (user_id user_name : string) :
  let out := register_user st db user_id user_name in
  (st <> Unreachable -> exists ok : bool, fst out = Return ok) /\
  (NoDup (map usr_user_id (users db)) -> NoDup (map usr_user_id (users (snd out)))) /\
  (st = Healthy ->
   fst out = Return true /\
   filter (fun u => (usr_user_id u =? user_id)%string) (users (snd out))
   = [mkUser user_id user_name 1] /\
   (forall u, usr_user_id u <> user_id -> (In u (users (snd out)) <-> In u (users db))) /\
   attendance (snd out) = attendance db /\ settings (snd out) = settings db) /\
  (st = Faulty -> out = (Return false, db)) /\
  (st = Unreachable -> out = (Raise OperationalError, db)).
Proof.
  intros out. subst out. unfold register_user.
  destruct st; cbn [get_db execute fst snd with_users users attendance settings].
  - split; [intros _; exists true; reflexivity|]. split.
    + apply (nodup_replace usr_user_id (mkUser user_id user_name 1)).
    + split; [|split; discriminate]. intros _. split; [reflexivity|]. split.
      * apply (filter_replace usr_user_id (mkUser user_id user_name 1)).
      * split; [|split; reflexivity].
        intros u Hne. unfold replace_user. cbn [usr_user_id].
        rewrite in_app_iff, filter_In. cbn [In]. split.
        -- intros [[Hin _] | [<- | []]]; [assumption|]. exfalso. apply Hne. reflexivity.
        -- intros Hin. left. split; [assumption|].
           apply negb_true_iff. apply String.eqb_neq. assumption.
  - split; [intros _; exists false; reflexivity|]. split; [tauto|].
    split; [discriminate|]. split; [reflexivity|discriminate].
  - split; [intros Hopen; exfalso; apply Hopen; reflexivity|]. split; [tauto|].
    split; [discriminate|]. split; [discriminate|reflexivity].
Qed.

Lemma register_user_upsert_witness :
  NoDup (map usr_user_id (users Sample.alice_in)) /\
  Faulty <> Unreachable /\
  users (snd (register_user Healthy Sample.alice_in "ou_alice" "Alice W."))
  = [mkUser "ou_alice" "Alice W." 1] /\
  NoDup (map usr_user_id
           (users (snd (register_user Healthy Sample.alice_in "ou_alice" "Alice W.")))) /\
  (exists ok : bool, fst (register_user Faulty Sample.alice_in "ou_alice" "Alice W.") = Return ok).
Proof.
  assert (Hnd : NoDup (map usr_user_id (users Sample.alice_in))).
  { repeat constructor. simpl. tauto. }
  split; [exact Hnd|]. split; [discriminate|]. split; [reflexivity|].
  split.
  - destruct (register_user_upsert Healthy Sample.alice_in "ou_alice" "Alice W.")
      as [_ [Hkeep _]].
    apply Hkeep. exact Hnd.
  - destruct (register_user_upsert Faulty Sample.alice_in "ou_alice" "Alice W.")
      as [Hbool _].
    apply Hbool. discriminate.
Defined.

(** C8 as stated fails when the database cannot be opened: the call raises
    and returns no boolean. *)
Lemma register_user_raises_when_unreachable :
  ~ (exists ok : bool,
        fst (register_user Unreachable Sample.alice_in "ou_alice" "alice") = Return ok).
Proof. intros [ok Hok]. discriminate Hok. Qed.

Lemma register_user_healthy (db : DB) (user_id user_name : string) :
  register_user Healthy db user_id user_name
  = (Return true, snd (register_user Healthy db user_id user_name)).
Proof. reflexivity. Qed.

(** Reading the settings back for the page stores nothing. *)
Lemma saved_page_store {B : PyBuiltins} st page message (r : outcome unit * DB) :
  snd (saved_page st page message r) = snd r.
Proof. destruct r as [[u|e] db']; reflexivity. Qed.

Lemma webhook_store {B : PyBuiltins} st env db (d : WebhookData) :
  text_is (wd_msg_type d) "text" = true ->
  snd (feishu_webhook st env db (Some d))
  = snd (register_user st db
           (get_or (snd_user_id (get_or (wd_sender d) (mkSender None None))) "")
           (get_or (sid_name (get_or (snd_sender_id (get_or (wd_sender d) (mkSender None None)))
                                 (mkSenderId None))) "未知用户")).
Proof.
  intros Htext. unfold feishu_webhook. rewrite Htext. cbn [negb].
  destruct (register_user st db _ _) as [[ok|e] db1]; cbn [snd]; [|reflexivity].
  destruct (get_all_settings st db1) as [cfg|e]; [|reflexivity].
  destruct (is_in _ ["签到"; "/checkin"; "/签到"]).
  { destruct (task_buttons _); reflexivity. }
  destruct (is_in _ ["签退"; "/checkout"; "/签退"]); [reflexivity|].
  destruct (is_in _ ["日报"; "/report"; "/日报"]).
  { destruct (build_daily_report st env _); reflexivity. }
  destruct (is_in _ ["帮助"; "/help"]); reflexivity.
Qed.

Lemma registered_is_listed (db : DB) (user_id user_name : string) :
  exists l, get_all_users Healthy (snd (register_user Healthy db user_id user_name)) = Return l /\
            In (mkUserEntry user_id user_name) l.
Proof.
  unfold get_all_users, register_user. cbn [get_db execute bind snd with_users users].
  eexists. split; [reflexivity|].
  apply in_map_iff. exists (mkUser user_id user_name 1). split; [reflexivity|].
  apply filter_In. split; [|reflexivity].
  unfold replace_user. apply in_app_iff. right. left. reflexivity.
Qed.

(** C9: a call of [register_user] that reaches the store leaves the user in
    the active listing under the given name.  The call is made for every
    text message received by the webhook and for every accepted check-in
    from the status card, so the sender or operator is listed afterwards. *)
Theorem register_user_reactivates {B : PyBuiltins} (env : Env) (db : DB) :
  (forall user_id user_name,
      exists l, get_all_users Healthy (snd (register_user Healthy db user_id user_name))
                = Return l /\
                In (mkUserEntry user_id user_name) l) /\
  (forall d : WebhookData,
      text_is (wd_msg_type d) "text" = true ->
      exists l, get_all_users Healthy (snd (feishu_webhook Healthy env db (Some d)))
                = Return l /\
                In (mkUserEntry
                      (get_or (snd_user_id (get_or (wd_sender d) (mkSender None None))) "")
                      (get_or (sid_name (get_or (snd_sender_id
                                                   (get_or (wd_sender d) (mkSender None None)))
                                           (mkSenderId None))) "未知用户")) l) /\
  (forall (status : option string) (completion : option Z) (user_id user_name : string),
      has_record db user_id (today env) = false ->
      exists l, get_all_users Healthy
                  (snd (feishu_callback Healthy env db
                          (Some (mkCallbackData (Some "interactive")
                                   (Some (mkAction (Some (mkActionValue (Some "checkin")
                                                            status completion))))
                                   (Some (mkOperator (Some user_id) (Some user_name)))))))
                = Return l /\
                In (mkUserEntry user_id user_name) l).
Proof.
  split; [|split].
  - intros. apply registered_is_listed.
  - intros d Htext. rewrite webhook_store by assumption. apply registered_is_listed.
  - intros status completion user_id user_name Hnone.
    unfold feishu_callback.
    callback_fields.
    rewrite check_in_accepted by assumption. cbn [snd].
    unfold get_all_users. cbn [get_db execute bind users].
    eexists. split; [reflexivity|].
    apply in_map_iff. exists (mkUser user_id user_name 1). split; [reflexivity|].
    apply filter_In. split; [|reflexivity].
    unfold replace_user. apply in_app_iff. right. left. reflexivity.
Qed.

Lemma register_user_reactivates_witness :
  has_record Sample.carol_inactive "ou_dave" (today Sample.env) = false /\
  get_all_users Healthy (snd (register_user Healthy Sample.carol_inactive "ou_carol" "carol"))
  = Return [mkUserEntry "ou_carol" "carol"] /\
  exists l,
    get_all_users Healthy
      (snd (feishu_callback Healthy Sample.env Sample.carol_inactive
              (Some (mkCallbackData (Some "interactive")
                       (Some (mkAction (Some (mkActionValue (Some "checkin")
                                                (Some "外出拍摄") None))))
                       (Some (mkOperator (Some "ou_dave") (Some "dave")))))))
    = Return l /\
    In (mkUserEntry "ou_dave" "dave") l.
Proof.
  split; [reflexivity|]. split; [reflexivity|].
  destruct (register_user_reactivates (B := Lite.builtins) Sample.env Sample.carol_inactive)
    as [_ [_ Hcard]].
  apply Hcard. reflexivity.
Defined.

(** C9 as stated fails for card actions: a check-out from the completion
    card never calls [register_user], so a deactivated user who checks out
    stays out of the active listing. *)
Lemma checkout_action_keeps_user_inactive :
  users Sample.carol_inactive = [mkUser "ou_carol" "carol" 0] /\
  fst (check_out Healthy Sample.evening Sample.carol_inactive "ou_carol" 100 "")
  = Return (true, ("签退成功！" ++ nl ++ "今日完成度：100%")%string) /\
  ~ (exists l,
        get_all_users Healthy
          (snd (feishu_callback Healthy Sample.evening Sample.carol_inactive
                  (Some (mkCallbackData (Some "interactive")
                           (Some (mkAction (Some (mkActionValue (Some "checkout") None
                                                    (Some 100)))))
                           (Some (mkOperator (Some "ou_carol") (Some "carol")))))))
        = Return l /\
        In (mkUserEntry "ou_carol" "carol") l).
Proof.
  split; [reflexivity|]. split; [reflexivity|].
  intros [l [Hl Hin]]. vm_compute in Hl. inversion Hl; subst. exact Hin.
Qed.

(** ** Settings store *)

Lemma dict_lookup_set {V : Type} (k : string) (v : V) (d : list (string * V)) :
  dict_lookup k (dict_set k v d) = Some v.
Proof.
  induction d as [|[k' v'] d IH]; cbn [dict_set dict_lookup].
  - rewrite String.eqb_refl. reflexivity.
  - destruct (k' =? k)%string eqn:E; cbn [dict_lookup]; rewrite ?String.eqb_refl, ?E; auto.
Qed.

(** C6: after [set_setting key value], [get_setting key] returns [value]
    itself; when [value] is the JSON text of [v], decoding what was read
    gives [v], and so does the settings dict of [get_all_settings]; for a
    key without a row [get_setting] returns its default. *)
Theorem settings_round_trip {B : PyBuiltins} (env : Env) (db : DB)
  (key value : string) (default : option string) :
  let db' := snd (set_setting Healthy env db key value) in
  fst (set_setting Healthy env db key value) = Return tt /\
  get_setting Healthy db' key default = Return (Some value) /\
  (forall v : pyval,
      json_loads value = Some v ->
      decode_setting (Some value) = v /\
      exists cfg, get_all_settings Healthy db' = Return cfg /\ dict_lookup key cfg = Some v) /\
  (existsb (fun r => (set_key r =? key)%string) (settings db) = false ->
   get_setting Healthy db key default = Return default).
Proof.
  intros db'. subst db'. unfold set_setting. cbn [get_db execute fst snd].
  split; [reflexivity|]. split; [|split].
  - unfold get_setting. cbn [get_db execute bind with_settings settings]. unfold replace_setting.
    rewrite (filter_replace set_key (mkSetting key (Some value) (now env))). reflexivity.
  - intros v Hv. split.
    + cbn [decode_setting]. rewrite Hv. reflexivity.
    + unfold get_all_settings. cbn [get_db execute bind with_settings settings].
      eexists. split; [reflexivity|].
      unfold replace_setting. rewrite fold_left_app. cbn [fold_left set_key set_value].
      rewrite dict_lookup_set. cbn [decode_setting]. rewrite Hv. reflexivity.
  - intros Habsent. unfold get_setting. cbn [get_db execute bind].
    rewrite (existsb_false_filter _ _ Habsent). reflexivity.
Qed.

Lemma settings_round_trip_witness :
  json_loads (PyBuiltins := Lite.builtins)
    (Lite.json_dumps (PList [PStr "视频剪辑"; PStr "文案撰写"]))
  = Some (PList [PStr "视频剪辑"; PStr "文案撰写"]) /\
  existsb (fun r => (set_key r =? "task_tags")%string) (settings Sample.alice_in) = false /\
  get_setting Healthy Sample.alice_in "task_tags" (Some "[]") = Return (Some "[]") /\
  exists cfg,
    get_all_settings (H := Lite.builtins) Healthy
      (snd (set_setting Healthy Sample.env Sample.alice_in "task_tags"
              (Lite.json_dumps (PList [PStr "视频剪辑"; PStr "文案撰写"]))))
    = Return cfg /\
    dict_lookup "task_tags" cfg = Some (PList [PStr "视频剪辑"; PStr "文案撰写"]).
Proof.
  destruct (settings_round_trip (B := Lite.builtins) Sample.env Sample.alice_in "task_tags"
              (Lite.json_dumps (PList [PStr "视频剪辑"; PStr "文案撰写"])) (Some "[]"))
    as [_ [_ [Hdecode Habsent]]].
  split; [vm_compute; reflexivity|]. split; [reflexivity|].
  split; [apply Habsent; reflexivity|].
  apply (Hdecode (PList [PStr "视频剪辑"; PStr "文案撰写"])). vm_compute. reflexivity.
Defined.

(** ** The check-in card *)





(** ** The daily report *)

Lemma insert_by_time_perm (r : AttendanceRow) (l : list AttendanceRow) :
  Permutation (insert_by_time r l) (r :: l).
Proof.
  induction l as [|r' l IH]; cbn [insert_by_time]; [apply Permutation_refl|].
  destruct (time_leb _ _); [apply Permutation_refl|].
  eapply perm_trans; [apply perm_skip, IH | apply perm_swap].
Qed.

Lemma order_by_check_in_time_perm (l : list AttendanceRow) :
  Permutation (order_by_check_in_time l) l.
Proof.
  unfold order_by_check_in_time.
  induction l as [|r l IH]; cbn [fold_right]; [apply perm_nil|].
  eapply perm_trans; [apply insert_by_time_perm | apply perm_skip, IH].
Qed.

Lemma nodup_users_of_day (d : string) (l : list AttendanceRow) :
  (forall r, In r l -> att_date r = d) ->
  NoDup (map att_key l) -> NoDup (map att_user_id l).
Proof.
  induction l as [|r l IH]; cbn [map]; intros Hday Hnd; [constructor|].
  inversion Hnd as [|k ks Hnotin Hnd']; subst.
  constructor.
  - intros Hin. apply Hnotin. apply in_map_iff in Hin. destruct Hin as [r' [Hid Hin]].
    apply in_map_iff. exists r'. split; [|assumption].
    unfold att_key. rewrite Hid, (Hday r' (or_intror Hin)), (Hday r (or_introl eq_refl)).
    reflexivity.
  - apply IH; [|assumption]. intros r' Hin. apply Hday. right. assumption.
Qed.

Lemma name_in_spec (name : string) (names : list string) :
  name_in name names = true <-> In name names.
Proof.
  unfold name_in. rewrite existsb_exists. split.
  - intros [x [Hin E]]. apply String.eqb_eq in E. subst. assumption.
  - intros Hin. exists name. split; [assumption | apply String.eqb_refl].
Qed.

Section Report.

Context `{PyBuiltins}.

Lemma today_status_rows_total (rows : list AttendanceRow) :
  (forall r, In r rows -> exists v, decode_tasks (att_tasks_json r) = Return v) ->
  exists statuses,
    today_status_rows rows = Return statuses /\
    Forall2 (fun r s => exists tasks, s = today_status_of r tasks) rows statuses.
Proof.
  induction rows as [|r rows IH]; intros Hdec.
  - exists []. split; [reflexivity | constructor].
  - destruct (Hdec r (or_introl eq_refl)) as [v Hv].
    destruct IH as [statuses [Hrest Hall]].
    { intros r' Hin. apply Hdec. right. assumption. }
    exists (today_status_of r v :: statuses). split.
    + cbn [today_status_rows]. rewrite Hv. cbn [bind]. rewrite Hrest. reflexivity.
    + constructor; [exists v; reflexivity | assumption].
Qed.

Lemma snapshot_names (rows : list AttendanceRow) (statuses : list TodayStatus) :
  Forall2 (fun r s => exists tasks, s = today_status_of r tasks) rows statuses ->
  map ts_name statuses = map att_user_name rows.
Proof.
  induction 1 as [|r s rows statuses [tasks ->] _ IH]; [reflexivity|].
  cbn [map]. rewrite IH. reflexivity.
Qed.

Lemma snapshot_entries (entry : AttendanceRow -> string) (rows : list AttendanceRow)
  (statuses : list TodayStatus) :
  (forall r tasks, report_entry (today_status_of r tasks) = entry r) ->
  Forall2 (fun r s => exists tasks, s = today_status_of r tasks) rows statuses ->
  map report_entry statuses = map entry rows.
Proof.
  intros Hentry. induction 1 as [|r s rows statuses [tasks ->] _ IH]; [reflexivity|].
  cbn [map]. rewrite IH, Hentry. reflexivity.
Qed.

End Report.

(** C3: for a store that satisfies the schema and whose records of today
    carry a decodable (or empty) task list, the report is the heading, then
    for each row of today's ledger, in check-in order, an entry that opens
    with the row's user name, then, when somebody is absent, the "not
    checked in" heading with one line per absent user, holding the user's
    name.  Today's rows hold every user of today's ledger once; the absent
    users are the active users whose display name is not among today's
    names, each once. *)
Theorem daily_report_lists_each_once {B : PyBuiltins} (env : Env) (db : DB) :
  schema_ok db ->
  (forall r, In r (attendance db) -> att_date r = today env ->
             exists v, decode_tasks (att_tasks_json r) = Return v) ->
  let rows :=
    order_by_check_in_time
      (filter (fun r => (att_date r =? today env)%string) (attendance db)) in
  let absent :=
    filter (fun u => negb (name_in (usr_user_name u) (map att_user_name rows)))
           (filter (fun u => usr_is_active u =? 1) (users db)) in
  build_daily_report Healthy env db
  = Return ("📊 **今日团队去向** - " ++ today env ++ nl ++ nl
            ++ String.concat ""
                 (map (fun r =>
                         "• " ++ att_user_name r ++ " " ++ status_icon (att_morning_status r)
                         ++ " " ++ str_of_text (att_morning_status r) ++ nl
                         ++ "  📝 "
                         ++ (if truthy_text (att_task r) then str_of_text (att_task r)
                             else "未填写任务") ++ nl
                         ++ "  "
                         ++ (if text_is (att_progress_status r) "一切正常" then "🟢" else "🔴")
                         ++ " 进度: " ++ str_of_text (att_progress_status r) ++ nl
                         ++ (if truthy_text (att_check_out_time r)
                             then "  ⏰ 已签退 (" ++ str_of_int (att_completion r) ++ "%)" ++ nl
                             else "")
                         ++ nl) rows)
            ++ match absent with
               | [] => ""
               | _ :: _ =>
                   "⏰ **未签到**" ++ nl
                   ++ String.concat "" (map (fun u => "• " ++ usr_user_name u ++ nl) absent)
               end)%string /\
  NoDup (map att_user_id rows) /\
  (forall r, In r rows <-> In r (attendance db) /\ att_date r = today env) /\
  NoDup (map usr_user_id absent) /\
  (forall u, In u absent <->
             In u (users db) /\ usr_is_active u = 1 /\
             ~ In (usr_user_name u) (map att_user_name rows)).
Proof.
  intros [Hledger [Husers _]] Hdec rows absent.
  set (day := filter (fun r => (att_date r =? today env)%string) (attendance db)) in *.
  assert (Hperm : Permutation rows day) by apply order_by_check_in_time_perm.
  assert (Hin : forall r, In r rows <-> In r (attendance db) /\ att_date r = today env).
  { intros r. split.
    - intros Hr. apply (Permutation_in _ Hperm) in Hr. apply filter_In in Hr.
      rewrite String.eqb_eq in Hr. exact Hr.
    - intros Hr. apply (Permutation_in _ (Permutation_sym Hperm)). apply filter_In.
      rewrite String.eqb_eq. exact Hr. }
  destruct (today_status_rows_total rows) as [statuses [Hstat Hsnap]].
  { intros r Hr. apply Hin in Hr. destruct Hr. apply Hdec; assumption. }
  split; [|split; [|split; [exact Hin | split]]].
  - unfold build_daily_report, get_today_status, get_all_users, get_today_date.
    cbn [get_db execute bind]. fold day. fold rows. rewrite Hstat. cbn [bind].
    rewrite (snapshot_names _ _ Hsnap).
    assert (Hroster :
      map ue_name
        (filter (fun u => negb (name_in (ue_name u) (map att_user_name rows)))
           (map (fun u => mkUserEntry (usr_user_id u) (usr_user_name u))
              (filter (fun u => usr_is_active u =? 1) (users db))))
      = map usr_user_name absent).
    { subst absent. generalize (filter (fun u => usr_is_active u =? 1) (users db)).
      intros l. induction l as [|u l IH]; [reflexivity|].
      cbn [map filter ue_name].
      destruct (name_in (usr_user_name u) (map att_user_name rows)); cbn [negb map ue_name];
        rewrite IH; reflexivity. }
    rewrite Hroster. unfold report_content. rewrite map_map.
    match goal with
    | |- context [String.concat "" (map ?entry rows)] =>
        rewrite <- (snapshot_entries entry rows statuses)
          by first [exact Hsnap | intros; reflexivity]
    end.
    clear Hroster Hstat Hsnap. clearbody absent.
    destruct statuses; destruct absent; reflexivity.
  - apply (Permutation_NoDup (l := map att_user_id day)).
    + apply Permutation_map. apply Permutation_sym. exact Hperm.
    + apply (nodup_users_of_day (today env)).
      * intros r Hr. apply filter_In in Hr. rewrite String.eqb_eq in Hr. tauto.
      * apply nodup_map_filter. exact Hledger.
  - subst absent. apply nodup_map_filter. apply nodup_map_filter. exact Husers.
  - intros u. subst absent. rewrite !filter_In, negb_true_iff, Z.eqb_eq.
    rewrite <- not_true_iff_false, name_in_spec. tauto.
Qed.

Lemma daily_report_lists_each_once_witness :
  schema_ok Sample.team_day /\
  (forall r, In r (attendance Sample.team_day) -> att_date r = today Sample.evening ->
             exists v, decode_tasks (H := Lite.builtins) (att_tasks_json r) = Return v) /\
  build_daily_report (H := Lite.builtins) Healthy Sample.evening Sample.team_day
  = Return ("📊 **今日团队去向** - 2024-05-06" ++ nl ++ nl
            ++ "• alice 🏢 办公室坐班" ++ nl
            ++ "  📝 日常工作" ++ nl
            ++ "  🔴 进度: None" ++ nl
            ++ "  ⏰ 已签退 (75%)" ++ nl ++ nl
            ++ "• bob 📹 外出拍摄" ++ nl
            ++ "  📝 日常工作" ++ nl
            ++ "  🟢 进度: 一切正常" ++ nl ++ nl
            ++ "⏰ **未签到**" ++ nl
            ++ "• erin" ++ nl)%string.
Proof.
  assert (Hschema : schema_ok Sample.team_day).
  { unfold schema_ok. simpl. repeat split; repeat constructor; simpl;
      intros Hin; decompose [or] Hin; try discriminate; assumption. }
  assert (Hdec : forall r, In r (attendance Sample.team_day) ->
                           att_date r = today Sample.evening ->
                           exists v, decode_tasks (H := Lite.builtins) (att_tasks_json r)
                                     = Return v).
  { intros r Hin _. simpl in Hin. decompose [or] Hin; try contradiction; subst r;
      exists (PList []); reflexivity. }
  split; [exact Hschema|]. split; [exact Hdec|].
  destruct (daily_report_lists_each_once (B := Lite.builtins) Sample.evening Sample.team_day
              Hschema Hdec) as [Hreport _].
  rewrite Hreport. vm_compute. reflexivity.
Defined.

(** C3 as stated fails for a ledger whose record of today holds a task list
    that is not JSON: the store below is produced by one [check_in] and
    satisfies the schema, yet the report raises and lists nobody. *)
Lemma daily_report_raises_on_free_text_tasks :
  reachable (H := Lite.builtins)
    (snd (check_in Healthy Sample.env empty_db "ou_alice" "alice" "办公室坐班" "日常工作"
            "办公室" "剪辑, 发布")) /\
  schema_ok
    (snd (check_in Healthy Sample.env empty_db "ou_alice" "alice" "办公室坐班" "日常工作"
            "办公室" "剪辑, 发布")) /\
  has_record
    (snd (check_in Healthy Sample.env empty_db "ou_alice" "alice" "办公室坐班" "日常工作"
            "办公室" "剪辑, 发布"))
    "ou_alice" (today Sample.env) = true /\
  ~ (exists content,
        build_daily_report (H := Lite.builtins) Healthy Sample.env
          (snd (check_in Healthy Sample.env empty_db "ou_alice" "alice" "办公室坐班"
                  "日常工作" "办公室" "剪辑, 发布"))
        = Return content).
Proof.
  split; [apply reach_check_in; apply reach_empty|].
  split.
  { unfold schema_ok. vm_compute. repeat split; repeat constructor; intros []. }
  split; [vm_compute; reflexivity|].
  intros [content Hcontent]. vm_compute in Hcontent. discriminate Hcontent.
Qed.

(** ** Stores of the running program *)

Section Served.

Context `{PyBuiltins}.











End Served.

(** * Further properties *)

(** ** Settings: seeding, overwriting, decoding *)

Local Abbreviation key_is k := (fun r : SettingRow => (set_key r =? k)%string).

Local Abbreviation seed stamp defaults tbl :=
  (fold_left (fun t (kv : string * string) =>
                ignore_setting (mkSetting (fst kv) (Some (snd kv)) stamp) t)
             defaults tbl).

Lemma ignore_setting_present (k : string) (s : SettingRow) (tbl : list SettingRow) :
  existsb (key_is k) tbl = true ->
  filter (key_is k) (ignore_setting s tbl) = filter (key_is k) tbl /\
  existsb (key_is k) (ignore_setting s tbl) = true.
Proof.
  intros Hk. unfold ignore_setting.
  destruct (existsb (key_is (set_key s)) tbl) eqn:Hs; [split; [reflexivity | exact Hk]|].
  rewrite filter_app, existsb_app, Hk. split; [|reflexivity].
  cbn [filter]. destruct (set_key s =? k)%string eqn:E.
  - apply String.eqb_eq in E. rewrite E in Hs. congruence.
  - apply app_nil_r.
Qed.

Lemma seed_present (stamp k : string) (defaults : list (string * string))
  (tbl : list SettingRow) :
  existsb (key_is k) tbl = true ->
  filter (key_is k) (seed stamp defaults tbl) = filter (key_is k) tbl /\
  existsb (key_is k) (seed stamp defaults tbl) = true.
Proof.
  revert tbl. induction defaults as [|kv defaults IH]; intros tbl Hk; [split; auto|].
  cbn [fold_left].
  destruct (ignore_setting_present k (mkSetting (fst kv) (Some (snd kv)) stamp) tbl Hk)
    as [Hrows Hstill].
  destruct (IH _ Hstill) as [Hrows' Hstill']. split; [|exact Hstill'].
  rewrite Hrows'. exact Hrows.
Qed.

Lemma seed_lands (stamp k v : string) (defaults : list (string * string))
  (tbl : list SettingRow) :
  NoDup (map fst defaults) ->
  In (k, v) defaults ->
  existsb (key_is k) tbl = false ->
  filter (key_is k) (seed stamp defaults tbl) = [mkSetting k (Some v) stamp].
Proof.
  revert tbl. induction defaults as [|[k0 v0] defaults IH]; intros tbl Hnd Hin Hk; [destruct Hin|].
  cbn [fold_left fst snd]. inversion Hnd as [|x xs Hfresh Hnd']; subst.
  destruct Hin as [E | Hin].
  - inversion E; subst k0 v0.
    assert (Hnew : ignore_setting (mkSetting k (Some v) stamp) tbl
                   = tbl ++ [mkSetting k (Some v) stamp]).
    { unfold ignore_setting. cbn [set_key]. rewrite Hk. reflexivity. }
    rewrite Hnew.
    destruct (seed_present stamp k defaults (tbl ++ [mkSetting k (Some v) stamp]))
      as [Hrows _].
    { rewrite existsb_app. cbn [existsb set_key]. rewrite String.eqb_refl.
      rewrite orb_true_r. reflexivity. }
    rewrite Hrows, filter_app, (existsb_false_filter _ _ Hk).
    cbn [filter set_key app]. rewrite String.eqb_refl. reflexivity.
  - apply IH; [assumption | assumption |].
    unfold ignore_setting. cbn [set_key].
    destruct (existsb (key_is k0) tbl); [exact Hk|].
    rewrite existsb_app, Hk. cbn [existsb set_key orb].
    destruct (k0 =? k)%string eqn:E; [|reflexivity].
    apply String.eqb_eq in E. subst k0. exfalso. apply Hfresh.
    change k with (fst (k, v)). apply in_map. exact Hin.
Qed.

Lemma seed_covers (stamp : string) (defaults : list (string * string))
  (tbl : list SettingRow) (kv : string * string) :
  In kv defaults -> existsb (key_is (fst kv)) (seed stamp defaults tbl) = true.
Proof.
  revert tbl. induction defaults as [|kv0 defaults IH]; intros tbl Hin; [destruct Hin|].
  cbn [fold_left]. destruct Hin as [-> | Hin]; [|apply IH; exact Hin].
  apply seed_present. unfold ignore_setting. cbn [set_key].
  destruct (existsb (key_is (fst kv)) tbl) eqn:E; [exact E|].
  rewrite existsb_app. cbn [existsb set_key]. rewrite String.eqb_refl.
  rewrite orb_true_r. reflexivity.
Qed.

Lemma seed_covered (stamp : string) (defaults : list (string * string))
  (tbl : list SettingRow) :
  (forall kv, In kv defaults -> existsb (key_is (fst kv)) tbl = true) ->
  seed stamp defaults tbl = tbl.
Proof.
  induction defaults as [|kv defaults IH]; intros Hall; [reflexivity|].
  cbn [fold_left]. unfold ignore_setting at 2. cbn [set_key].
  rewrite (Hall kv (or_introl eq_refl)). apply IH.
  intros kv' Hin. apply Hall. right. exact Hin.
Qed.

Lemma default_settings_keys {B : PyBuiltins} : NoDup (map fst default_settings).
Proof.
  cbn [default_settings map fst].
  repeat constructor; cbn [In]; intros Hin; decompose [or] Hin; try discriminate; assumption.
Qed.

(** X1: start-up seeding never overwrites: a key that has a row reads as
    before, a default key without a row reads as its default, attendance
    and users are not touched, and seeding a seeded store changes nothing. *)
Theorem init_db_seeds_once {B : PyBuiltins} (env env' : Env) (db : DB) :
  let db' := snd (init_db Healthy env db) in
  attendance db' = attendance db /\
  users db' = users db /\
  (forall key default,
      has_setting db key = true ->
      get_setting Healthy db' key default = get_setting Healthy db key default) /\
  (forall key value default,
      In (key, value) default_settings ->
      has_setting db key = false ->
      get_setting Healthy db' key default = Return (Some value)) /\
  snd (init_db Healthy env' db') = db'.
Proof.
  intros db'. subst db'. unfold init_db. cbn [get_db execute snd with_settings attendance users].
  split; [reflexivity|]. split; [reflexivity|]. split; [|split].
  - intros key default Hk. unfold get_setting. cbn [get_db execute bind settings with_settings].
    destruct (seed_present (utc_now env) key default_settings (settings db) Hk) as [-> _].
    reflexivity.
  - intros key value default Hin Hk. unfold get_setting. cbn [get_db execute bind settings with_settings].
    rewrite (seed_lands (utc_now env) key value default_settings (settings db)
               default_settings_keys Hin Hk).
    reflexivity.
  - set (tbl := seed (utc_now env) default_settings (settings db)).
    cbn [settings with_settings attendance users].
    rewrite (seed_covered (utc_now env') default_settings tbl); [reflexivity|].
    intros kv Hin. apply seed_covers. exact Hin.
Qed.

Lemma init_db_seeds_once_witness :
  has_setting Sample.custom_status "status_options" = true /\
  has_setting Sample.custom_status "checkin_radius" = false /\
  get_setting Healthy (snd (init_db (H := Lite.builtins) Healthy Sample.env Sample.custom_status))
    "status_options" None
  = get_setting Healthy Sample.custom_status "status_options" None /\
  get_setting Healthy (snd (init_db (H := Lite.builtins) Healthy Sample.env Sample.custom_status))
    "checkin_radius" None
  = Return (Some "500").
Proof.
  destruct (init_db_seeds_once (B := Lite.builtins) Sample.env Sample.evening
              Sample.custom_status) as [_ [_ [Hkept [Hseeded _]]]].
  split; [reflexivity|]. split; [reflexivity|]. split.
  - apply Hkept. reflexivity.
  - apply Hseeded; [|reflexivity].
    cbn [default_settings In]. do 14 right. left. reflexivity.
Defined.

Lemma filter_other_key (k' : string) (s : SettingRow) (tbl : list SettingRow) :
  k' <> set_key s ->
  filter (key_is k') (replace_setting s tbl) = filter (key_is k') tbl.
Proof.
  intros Hne. unfold replace_setting. rewrite filter_app. cbn [filter].
  replace (set_key s =? k')%string with false
    by (symmetry; apply String.eqb_neq; congruence).
  rewrite app_nil_r.
  induction tbl as [|r tbl IH]; [reflexivity|].
  cbn [filter]. destruct (set_key r =? set_key s)%string eqn:E; cbn [negb filter].
  - apply String.eqb_eq in E.
    replace (set_key r =? k')%string with false
      by (symmetry; apply String.eqb_neq; congruence).
    exact IH.
  - destruct (set_key r =? k')%string; [rewrite IH|]; auto.
Qed.

(** X2: [set_setting] writes one key: afterwards the key has exactly one
    row, holding the value and the write's time stamp; every other key reads
    as before; a second write of the key replaces the first; attendance and
    users are not touched. *)
Theorem set_setting_touches_one_key (env env' : Env) (db : DB) (key value value' : string) :
  let db' := snd (set_setting Healthy env db key value) in
  attendance db' = attendance db /\
  users db' = users db /\
  filter (key_is key) (settings db') = [mkSetting key (Some value) (now env)] /\
  (forall key' default,
      key' <> key ->
      get_setting Healthy db' key' default = get_setting Healthy db key' default) /\
  get_setting Healthy (snd (set_setting Healthy env' db' key value')) key None
  = Return (Some value').
Proof.
  intros db'. subst db'. unfold set_setting. cbn [get_db execute snd with_settings attendance users settings].
  split; [reflexivity|]. split; [reflexivity|]. split; [|split].
  - apply (filter_replace set_key (mkSetting key (Some value) (now env))).
  - intros key' default Hne. unfold get_setting. cbn [get_db execute bind settings with_settings].
    rewrite filter_other_key by (cbn [set_key]; exact Hne). reflexivity.
  - unfold get_setting. cbn [get_db execute bind settings with_settings].
    unfold replace_setting at 1.
    rewrite (filter_replace set_key (mkSetting key (Some value') (now env'))). reflexivity.
Qed.

Lemma set_setting_touches_one_key_witness :
  "status_options" <> "bot_name" /\
  get_setting Healthy
    (snd (set_setting Healthy Sample.env Sample.custom_status "bot_name" "打卡助手"))
    "status_options" None
  = get_setting Healthy Sample.custom_status "status_options" None.
Proof.
  split; [discriminate|].
  destruct (set_setting_touches_one_key Sample.env Sample.evening Sample.custom_status
              "bot_name" "打卡助手" "x") as [_ [_ [_ [Hframe _]]]].
  apply Hframe. discriminate.
Defined.

Lemma dict_lookup_app {V : Type} (k : string) (a b : list (string * V)) :
  dict_lookup k (a ++ b)
  = match dict_lookup k a with
    | Some v => Some v
    | None => dict_lookup k b
    end.
Proof.
  induction a as [|[k' v'] a IH]; [reflexivity|].
  cbn [app dict_lookup]. destruct (k' =? k)%string; [reflexivity | exact IH].
Qed.

Lemma dict_set_fresh {V : Type} (k : string) (v : V) (d : list (string * V)) :
  dict_lookup k d = None -> dict_set k v d = d ++ [(k, v)].
Proof.
  induction d as [|[k' v'] d IH]; [reflexivity|].
  cbn [dict_lookup dict_set app]. destruct (k' =? k)%string; [discriminate|].
  intros Hk. rewrite IH by exact Hk. reflexivity.
Qed.

Section SettingsDict.

Context `{PyBuiltins}.

Local Abbreviation entry_of row := (set_key row, decode_setting (set_value row)).

Lemma settings_dict_rows (rows : list SettingRow) (acc : list (string * pyval)) :
  NoDup (map set_key rows) ->
  (forall r, In r rows -> dict_lookup (set_key r) acc = None) ->
  fold_left (fun d row => dict_set (set_key row) (decode_setting (set_value row)) d) rows acc
  = acc ++ map (fun row => entry_of row) rows.
Proof.
  revert acc. induction rows as [|r rows IH]; intros acc Hnd Hfresh.
  - cbn [fold_left map]. rewrite app_nil_r. reflexivity.
  - cbn [fold_left map]. inversion Hnd as [|k ks Hnotin Hnd']; subst.
    rewrite dict_set_fresh by (apply Hfresh; left; reflexivity).
    rewrite IH; [rewrite <- app_assoc; reflexivity | exact Hnd' |].
    intros r' Hin. rewrite dict_lookup_app, (Hfresh r' (or_intror Hin)).
    cbn [dict_lookup]. destruct (set_key r =? set_key r')%string eqn:E; [|reflexivity].
    apply String.eqb_eq in E. exfalso. apply Hnotin. rewrite E. apply in_map. exact Hin.
Qed.

Lemma settings_dict_lookup (rows : list SettingRow) (row : SettingRow) :
  NoDup (map set_key rows) ->
  In row rows ->
  dict_lookup (set_key row) (map (fun r => entry_of r) rows)
  = Some (decode_setting (set_value row)).
Proof.
  induction rows as [|r rows IH]; intros Hnd Hin; [destruct Hin|].
  inversion Hnd as [|k ks Hnotin Hnd']; subst.
  cbn [map dict_lookup]. destruct Hin as [-> | Hin].
  - rewrite String.eqb_refl. reflexivity.
  - destruct (set_key r =? set_key row)%string eqn:E; [|apply IH; assumption].
    apply String.eqb_eq in E. exfalso. apply Hnotin. rewrite E. apply in_map. exact Hin.
Qed.

Lemma settings_dict_absent (rows : list SettingRow) (key : string) :
  existsb (key_is key) rows = false ->
  dict_lookup key (map (fun r => entry_of r) rows) = None.
Proof.
  induction rows as [|r rows IH]; [reflexivity|].
  cbn [existsb map dict_lookup]. rewrite orb_false_iff. intros [-> Hrest].
  apply IH. exact Hrest.
Qed.

End SettingsDict.

(** X3: [get_all_settings] never raises on a value that is not JSON: the
    dict has one entry per row, in row order; a stored text appears decoded
    when [json.loads] accepts it and as the raw text otherwise, a NULL value
    as [None], and a key without a row is not in the dict. *)
Theorem get_all_settings_decodes {B : PyBuiltins} (db : DB) :
  NoDup (map set_key (settings db)) ->
  exists cfg,
    get_all_settings Healthy db = Return cfg /\
    map fst cfg = map set_key (settings db) /\
    (forall row s, In row (settings db) -> set_value row = Some s ->
                   dict_lookup (set_key row) cfg
                   = Some (match json_loads s with
                           | Some v => v
                           | None => PStr s
                           end)) /\
    (forall row, In row (settings db) -> set_value row = None ->
                 dict_lookup (set_key row) cfg = Some PNone) /\
    (forall key, has_setting db key = false -> dict_lookup key cfg = None).
Proof.
  intros Hnd. unfold get_all_settings. cbn [get_db execute bind].
  rewrite settings_dict_rows by (auto; intros; reflexivity). cbn [app].
  eexists. split; [reflexivity|]. split; [|split; [|split]].
  - rewrite map_map. reflexivity.
  - intros row s Hin Hs. rewrite settings_dict_lookup by assumption.
    rewrite Hs. reflexivity.
  - intros row Hin Hs. rewrite settings_dict_lookup by assumption.
    rewrite Hs. reflexivity.
  - intros key Hk. apply settings_dict_absent. exact Hk.
Qed.

Lemma get_all_settings_decodes_witness :
  NoDup (map set_key
           (settings (snd (init_db (H := Lite.builtins) Healthy Sample.env empty_db)))) /\
  exists cfg,
    get_all_settings (H := Lite.builtins) Healthy
      (snd (init_db (H := Lite.builtins) Healthy Sample.env empty_db)) = Return cfg /\
    dict_lookup "bot_name" cfg = Some (PStr "考勤小助手") /\
    dict_lookup "checkin_radius" cfg = Some (PInt 500) /\
    dict_lookup "no_such_key" cfg = None.
Proof.
  assert (Hnd : NoDup (map set_key
                         (settings (snd (init_db (H := Lite.builtins) Healthy Sample.env
                                           empty_db))))).
  { apply (init_db_schema (H := Lite.builtins)). repeat split; constructor. }
  split; [exact Hnd|].
  destruct (get_all_settings_decodes (B := Lite.builtins) _ Hnd)
    as [cfg [Hcfg [_ [Htext [_ Habsent]]]]].
  exists cfg. split; [exact Hcfg|]. split; [|split].
  - assert (Hrow := Htext (mkSetting "bot_name" (Some "考勤小助手") (utc_now Sample.env))
                      "考勤小助手").
    cbn [set_key] in Hrow. rewrite Hrow; [vm_compute; reflexivity | | reflexivity].
    vm_compute. left. reflexivity.
  - assert (Hrow := Htext (mkSetting "checkin_radius" (Some "500") (utc_now Sample.env))
                      "500").
    cbn [set_key] in Hrow. rewrite Hrow; [vm_compute; reflexivity | | reflexivity].
    vm_compute. do 14 right. left. reflexivity.
  - apply Habsent. vm_compute. reflexivity.
Defined.

(** ** Admin console: what the saving routes store *)

Lemma set_settings_healthy (env : Env) (kvs : list (string * string)) (db : DB) :
  fst (set_settings Healthy env db kvs) = Return tt /\
  attendance (snd (set_settings Healthy env db kvs)) = attendance db /\
  users (snd (set_settings Healthy env db kvs)) = users db.
Proof.
  revert db. induction kvs as [|[k v] kvs IH]; intros db; [repeat split|].
  cbn [set_settings]. unfold set_setting. cbn [get_db execute].
  destruct (IH (with_settings db (replace_setting (mkSetting k (Some v) (now env))
                                    (settings db)))) as [Hr [Ha Hu]].
  rewrite Hr, Ha, Hu. repeat split.
Qed.

Lemma set_settings_other_key (env : Env) (kvs : list (string * string)) (db : DB)
  (key : string) (default : option string) :
  ~ In key (map fst kvs) ->
  get_setting Healthy (snd (set_settings Healthy env db kvs)) key default
  = get_setting Healthy db key default.
Proof.
  revert db. induction kvs as [|[k v] kvs IH]; intros db Hfresh; [reflexivity|].
  cbn [set_settings]. unfold set_setting. cbn [get_db execute].
  rewrite IH by (intros Hin; apply Hfresh; right; exact Hin).
  unfold get_setting. cbn [get_db execute bind settings with_settings].
  rewrite filter_other_key; [reflexivity|].
  cbn [set_key]. intros E. apply Hfresh. left. symmetry. exact E.
Qed.

Lemma set_settings_read_back (env : Env) (kvs : list (string * string)) (db : DB)
  (key value : string) (default : option string) :
  NoDup (map fst kvs) ->
  In (key, value) kvs ->
  get_setting Healthy (snd (set_settings Healthy env db kvs)) key default
  = Return (Some value).
Proof.
  revert db. induction kvs as [|[k v] kvs IH]; intros db Hnd Hin; [destruct Hin|].
  inversion Hnd as [|x xs Hfresh Hnd']; subst.
  cbn [set_settings]. unfold set_setting. cbn [get_db execute].
  destruct Hin as [E | Hin].
  - inversion E; subst k v. rewrite set_settings_other_key by exact Hfresh.
    unfold get_setting. cbn [get_db execute bind settings with_settings]. unfold replace_setting.
    rewrite (filter_replace set_key (mkSetting key (Some value) (now env))). reflexivity.
  - apply IH; assumption.
Qed.

(** X4: each saving route stores, for every field of its form, the posted
    value or, when the form lacks the field, the route's fallback; the
    ledger and the users are not touched; when the store refuses the
    statements, or cannot be opened, the route raises and nothing is stored.
    After storing, the route reads the settings back and hands them to the
    template; the rendering is not covered here. *)
Theorem save_routes_store_form {B : PyBuiltins} (env : Env) (db : DB)
  (form : list (string * string)) :
  (forall k d,
      In (k, d) [("bot_name", "考勤小助手"); ("welcome_message", "你好！");
                 ("company_location", ""); ("checkin_radius", "500");
                 ("schedule_enabled", "true")] ->
      get_setting Healthy (snd (save_settings Healthy env db form)) k None
      = Return (Some (form_get form k d))) /\
  (forall k d,
      In (k, d) [("morning_time", "09:00"); ("noon_time", "13:00");
                 ("evening_time", "18:00"); ("report_time", "20:00");
                 ("week_report_time", "18:00"); ("month_report_time", "18:00")] ->
      get_setting Healthy (snd (save_timing Healthy env db form)) k None
      = Return (Some (form_get form k d))) /\
  get_setting Healthy (snd (save_tasks Healthy env db form)) "task_tags" None
  = Return (Some (form_get form "task_tags" "[]")) /\
  get_setting Healthy (snd (save_status Healthy env db form)) "status_options" None
  = Return (Some (form_get form "status_options" "[]")) /\
  (forall route, In route [save_settings; save_timing; save_tasks; save_status] ->
                 attendance (snd (route Healthy env db form)) = attendance db /\
                 users (snd (route Healthy env db form)) = users db /\
                 route Faulty env db form = (Raise OperationalError, db) /\
                 route Unreachable env db form = (Raise OperationalError, db)).
Proof.
  split; [|split; [|split; [|split]]].
  - intros k d Hin. unfold save_settings. rewrite saved_page_store.
    apply set_settings_read_back.
    + cbn [map fst]. repeat constructor; cbn [In]; intros Hk; decompose [or] Hk;
        try discriminate; assumption.
    + cbn [In] in Hin. decompose [or] Hin; try contradiction;
        match goal with E : (_, _) = (_, _) |- _ => inversion E; subst end;
        cbn [In]; tauto.
  - intros k d Hin. unfold save_timing. rewrite saved_page_store.
    apply set_settings_read_back.
    + cbn [map fst]. repeat constructor; cbn [In]; intros Hk; decompose [or] Hk;
        try discriminate; assumption.
    + cbn [In] in Hin. decompose [or] Hin; try contradiction;
        match goal with E : (_, _) = (_, _) |- _ => inversion E; subst end;
        cbn [In]; tauto.
  - unfold save_tasks. rewrite saved_page_store.
    apply set_settings_read_back; [repeat constructor; cbn; tauto|].
    left. reflexivity.
  - unfold save_status. rewrite saved_page_store.
    apply set_settings_read_back; [repeat constructor; cbn; tauto|].
    left. reflexivity.
  - intros route Hin. cbn [In] in Hin. decompose [or] Hin; try contradiction; subst route;
      unfold save_settings, save_timing, save_tasks, save_status;
      rewrite saved_page_store;
      (split; [apply set_settings_healthy|]; split; [apply set_settings_healthy|];
       split; reflexivity).
Qed.

Lemma save_routes_store_form_witness :
  In ("bot_name", "考勤小助手")
     [("bot_name", "考勤小助手"); ("welcome_message", "你好！"); ("company_location", "");
      ("checkin_radius", "500"); ("schedule_enabled", "true")] /\
  get_setting Healthy
    (snd (save_settings (H := Lite.builtins) Healthy Sample.env Sample.alice_in
            [("checkin_radius", "300")]))
    "bot_name" None
  = Return (Some "考勤小助手") /\
  get_setting Healthy
    (snd (save_settings (H := Lite.builtins) Healthy Sample.env Sample.alice_in
            [("checkin_radius", "300")]))
    "checkin_radius" None
  = Return (Some "300").
Proof.
  destruct (save_routes_store_form (B := Lite.builtins) Sample.env Sample.alice_in
              [("checkin_radius", "300")])
    as [Hgeneral _].
  split; [left; reflexivity|]. split.
  - apply (Hgeneral "bot_name" "考勤小助手"). left. reflexivity.
  - apply (Hgeneral "checkin_radius" "500"). do 3 right. left. reflexivity.
Defined.

(** ** Ledger: what one operation can do to the store *)

Local Abbreviation updated p f tbl :=
  (map (fun r : AttendanceRow => if p r then f r else r) tbl).

Lemma check_out_store env db user_id completion work_summary :
  fits_int64 completion = true ->
  snd (check_out Healthy env db user_id completion work_summary)
  = with_attendance db
      (updated (att_where user_id (today env))
               (set_check_out (current_time env) completion work_summary)
               (attendance db)).
Proof.
  intros Hfits.
  unfold check_out, update_attendance, bind_int, get_today_date, get_current_time.
  cbn [get_db execute]. rewrite Hfits. cbn [bind].
  destruct (_ =? 0)%nat; reflexivity.
Qed.

Lemma check_out_outcome env db user_id completion work_summary :
  fits_int64 completion = true ->
  fst (check_out Healthy env db user_id completion work_summary)
  = Return (if has_record db user_id (today env)
            then (true, ("签退成功！" ++ nl ++ "今日完成度：" ++ str_of_int completion
                         ++ "%")%string)
            else (false, "您今天还没有签到！")).
Proof.
  intros Hfits. destruct (has_record db user_id (today env)) eqn:Hrec.
  - rewrite check_out_recorded by assumption. reflexivity.
  - rewrite check_out_unrecorded by assumption. reflexivity.
Qed.

Lemma existsb_updated (p : AttendanceRow -> bool) (f : AttendanceRow -> AttendanceRow)
  (tbl : list AttendanceRow) :
  (forall r, p (f r) = p r) ->
  existsb p (updated p f tbl) = existsb p tbl.
Proof.
  intros Hf. induction tbl as [|r tbl IH]; [reflexivity|].
  cbn [map existsb]. rewrite IH. destruct (p r) eqn:E; [rewrite Hf|]; rewrite E; reflexivity.
Qed.

Lemma updated_twice (p : AttendanceRow -> bool) (f g : AttendanceRow -> AttendanceRow)
  (tbl : list AttendanceRow) :
  (forall r, p (f r) = p r) ->
  (forall r, g (f r) = g r) ->
  updated p g (updated p f tbl) = updated p g tbl.
Proof.
  intros Hp Hg. rewrite map_map. apply map_ext. intros r.
  destruct (p r) eqn:E; [rewrite Hp, E; apply Hg | rewrite E; reflexivity].
Qed.

Lemma filter_updated_other (p q : AttendanceRow -> bool) (f : AttendanceRow -> AttendanceRow)
  (tbl : list AttendanceRow) :
  (forall r, p r = true -> q r = false) ->
  (forall r, q (f r) = q r) ->
  filter q (updated p f tbl) = filter q tbl.
Proof.
  intros Hpq Hf. induction tbl as [|r tbl IH]; [reflexivity|].
  cbn [map filter]. rewrite IH. destruct (p r) eqn:E; [|reflexivity].
  rewrite Hf, (Hpq r E). reflexivity.
Qed.

Lemma att_where_other (u d u' d' : string) (r : AttendanceRow) :
  u' <> u \/ d' <> d -> att_where u d r = true -> att_where u' d' r = false.
Proof.
  intros Hne Hw. apply att_where_key in Hw. apply not_true_is_false. intros Hw'.
  apply att_where_key in Hw'. rewrite Hw in Hw'. inversion Hw'. subst.
  destruct Hne as [Hu | Hd]; [apply Hu | apply Hd]; reflexivity.
Qed.

(** X5: a second check-out on the same day overwrites the first: checking
    out with [(P, W)] and then with [(P', W')], where [P'] is a completion
    that SQLite can store (a signed 64-bit integer), gives the outcome and
    the store of checking out with [(P', W')] alone at the later time. *)
Theorem check_out_again_overwrites (env env' : Env) (db : DB) (user_id : string)
  (P P' : Z) (W W' : string) :
  today env' = today env ->
  fits_int64 P' = true ->
  check_out Healthy env' (snd (check_out Healthy env db user_id P W)) user_id P' W'
  = check_out Healthy env' db user_id P' W'.
Proof.
  intros Hday Hfits'.
  destruct (fits_int64 P) eqn:Hfits;
    [|rewrite (check_out_overflow env db user_id P W Hfits); reflexivity].
  rewrite (surjective_pairing (check_out Healthy env' (snd _) user_id P' W')).
  rewrite (surjective_pairing (check_out Healthy env' db user_id P' W')).
  rewrite !check_out_outcome, !check_out_store by assumption.
  assert (Hrec : has_record
                   (with_attendance db
                      (updated (att_where user_id (today env))
                               (set_check_out (current_time env) P W) (attendance db)))
                   user_id (today env')
                 = has_record db user_id (today env')).
  { unfold has_record. cbn [with_attendance attendance]. rewrite Hday.
    apply existsb_updated. intros; apply att_where_set_check_out. }
  rewrite Hrec. cbn [with_attendance attendance]. rewrite Hday.
  rewrite updated_twice by (intros; reflexivity). reflexivity.
Qed.

Lemma check_out_again_overwrites_witness :
  today Sample.evening = today Sample.env /\
  fits_int64 100 = true /\
  get_user_status Healthy Sample.evening
    (snd (check_out Healthy Sample.evening
            (snd (check_out Healthy Sample.env Sample.alice_in "ou_alice" 50 "上午"))
            "ou_alice" 100 "全天"))
    "ou_alice"
  = get_user_status Healthy Sample.evening
      (snd (check_out Healthy Sample.evening Sample.alice_in "ou_alice" 100 "全天"))
      "ou_alice".
Proof.
  split; [reflexivity|]. split; [reflexivity|].
  rewrite (check_out_again_overwrites Sample.env Sample.evening Sample.alice_in "ou_alice"
             50 100 "上午" "全天" eq_refl eq_refl).
  reflexivity.
Defined.

(** X6: a check-out or a progress update of one user on one day leaves the
    records of every other user, and of the same user on other days, as they
    were: their per-user query answers as before, and users and settings are
    not touched. *)
Theorem ledger_updates_are_isolated (env env' : Env) (db : DB)
  (user_id other : string) (P : Z) (W progress : string) :
  other <> user_id \/ today env' <> today env ->
  get_user_status Healthy env' (snd (check_out Healthy env db user_id P W)) other
  = get_user_status Healthy env' db other /\
  get_user_status Healthy env' (snd (update_progress Healthy env db user_id progress)) other
  = get_user_status Healthy env' db other /\
  users (snd (check_out Healthy env db user_id P W)) = users db /\
  settings (snd (check_out Healthy env db user_id P W)) = settings db /\
  users (snd (update_progress Healthy env db user_id progress)) = users db /\
  settings (snd (update_progress Healthy env db user_id progress)) = settings db.
Proof.
  intros Hne.
  destruct (fits_int64 P) eqn:Hfits;
    [rewrite check_out_store by assumption
    |rewrite (check_out_overflow env db user_id P W Hfits); cbn [snd]];
    unfold update_progress, update_attendance, get_today_date; cbn [get_db execute snd];
    unfold get_user_status, get_today_date;
    cbn [get_db execute bind with_attendance attendance users settings];
    rewrite !filter_updated_other;
    try (intros; apply (att_where_other user_id (today env)); assumption);
    try (intros; reflexivity);
    repeat split.
Qed.

Lemma ledger_updates_are_isolated_witness :
  ("ou_bob" <> "ou_alice" \/ today Sample.evening <> today Sample.evening) /\
  get_user_status Healthy Sample.evening
    (snd (check_out Healthy Sample.evening Sample.team_day "ou_alice" 100 "")) "ou_bob"
  = get_user_status Healthy Sample.evening Sample.team_day "ou_bob".
Proof.
  assert (Hne : "ou_bob" <> "ou_alice" \/ today Sample.evening <> today Sample.evening)
    by (left; discriminate).
  split; [exact Hne|].
  apply (ledger_updates_are_isolated Sample.evening Sample.evening Sample.team_day
           "ou_alice" "ou_bob" 100 "" "" Hne).
Defined.

Lemma max_id_bounds (ids : list Z) :
  0 <= fold_right Z.max 0 ids /\ forall i, In i ids -> i <= fold_right Z.max 0 ids.
Proof.
  induction ids as [|j ids [IH0 IH]]; cbn [fold_right]; [split; [lia | intros i []]|].
  split; [lia|]. intros i [-> | Hin]; [lia|]. specialize (IH i Hin). lia.
Qed.

Lemma next_rowid_positive (tbl : list AttendanceRow) : 0 < next_rowid tbl.
Proof. unfold next_rowid. destruct (max_id_bounds (map att_id tbl)). lia. Qed.

Lemma next_rowid_above (tbl : list AttendanceRow) (r : AttendanceRow) :
  In r tbl -> att_id r < next_rowid tbl.
Proof.
  intros Hin. unfold next_rowid. destruct (max_id_bounds (map att_id tbl)) as [_ Hmax].
  specialize (Hmax (att_id r) (in_map att_id _ _ Hin)). lia.
Qed.

Lemma has_setting_replace (s : SettingRow) (tbl : list SettingRow) (k : string) :
  existsb (key_is k) tbl = true -> existsb (key_is k) (replace_setting s tbl) = true.
Proof.
  intros Hk. unfold replace_setting. rewrite existsb_app. cbn [existsb].
  destruct (set_key s =? k)%string eqn:E; [rewrite !orb_true_r; reflexivity|].
  rewrite orb_false_r. apply existsb_exists in Hk. destruct Hk as [r [Hin Hr]].
  apply existsb_exists. exists r. split; [|exact Hr].
  apply filter_In. split; [exact Hin|]. apply negb_true_iff.
  apply String.eqb_eq in Hr. rewrite Hr, String.eqb_sym. exact E.
Qed.

Lemma check_out_keeps_users_and_settings st env db user_id completion work_summary :
  users (snd (check_out st env db user_id completion work_summary)) = users db /\
  settings (snd (check_out st env db user_id completion work_summary)) = settings db.
Proof.
  unfold check_out, update_attendance.
  destruct st; cbn [get_db execute]; [|split; reflexivity..].
  unfold bind_int. destruct (fits_int64 completion); cbn [bind]; [|split; reflexivity].
  destruct (_ =? 0)%nat; split; reflexivity.
Qed.

Section Steps.

Context `{PyBuiltins}.

(** Induction over reachable stores, one operation at a time. *)
Lemma reachable_by_steps (P : DB -> Prop) :
  P empty_db ->
  (forall db db', step db db' -> P db -> P db') ->
  forall db, reachable db -> P db.
Proof.
  intros Hempty Hstep db Hr.
  induction Hr; [exact Hempty | | | | | |];
    (eapply Hstep; [constructor | eassumption]).
Qed.

Lemma step_attendance (db db' : DB) :
  step db db' ->
  attendance db' = attendance db \/
  (exists (p : AttendanceRow -> bool) (f : AttendanceRow -> AttendanceRow),
      (forall r, check_in_part (f r) = check_in_part r) /\
               attendance db' = updated p f (attendance db)) \/
  (exists r, attendance db' = attendance db ++ [r] /\
             att_id r = next_rowid (attendance db)).
Proof.
  intros Hs. destruct Hs as [st env db | st env db key value | st db u n
                             | st env db u n s t l j | st env db u c w | st env db u p].
  - left. unfold init_db. destruct st; reflexivity.
  - left. unfold set_setting. destruct st; reflexivity.
  - left. unfold register_user. destruct st; reflexivity.
  - destruct st; [|left; reflexivity..].
    destruct (has_record db u (today env)) eqn:Hrec.
    + left. rewrite check_in_rejected by assumption. reflexivity.
    + right. right. rewrite check_in_accepted by assumption. cbn [snd attendance].
      eexists. split; reflexivity.
  - destruct st; [|left; reflexivity..].
    destruct (fits_int64 c) eqn:Hfits;
      [|left; rewrite check_out_overflow by assumption; reflexivity].
    right. left. rewrite check_out_store by assumption. cbn [with_attendance attendance].
    eexists _, _. split; [|reflexivity]. intros r. reflexivity.
  - destruct st; [|left; reflexivity..].
    right. left. unfold update_progress, update_attendance. cbn [get_db execute snd with_attendance attendance].
    eexists _, _. split; [|reflexivity]. intros r. reflexivity.
Qed.

Lemma step_users (db db' : DB) :
  step db db' ->
  users db' = users db \/
  exists u n, users db' = replace_user (mkUser u n 1) (users db).
Proof.
  intros Hs. destruct Hs as [st env db | st env db key value | st db u n
                             | st env db u n s t l j | st env db u c w | st env db u p].
  - left. unfold init_db. destruct st; reflexivity.
  - left. unfold set_setting. destruct st; reflexivity.
  - destruct st; [right; exists u, n; reflexivity | left; reflexivity..].
  - destruct st; [|left; reflexivity..].
    destruct (has_record db u (today env)) eqn:Hrec.
    + left. rewrite check_in_rejected by assumption. reflexivity.
    + right. rewrite check_in_accepted by assumption. exists u, n. reflexivity.
  - left. apply check_out_keeps_users_and_settings.
  - left. unfold update_progress. destruct st; reflexivity.
Qed.

Lemma step_settings (db db' : DB) (k : string) :
  step db db' -> has_setting db k = true -> has_setting db' k = true.
Proof.
  unfold has_setting.
  intros Hs Hk. destruct Hs as [st env db | st env db key value | st db u n
                                | st env db u n s t l j | st env db u c w | st env db u p].
  - unfold init_db. destruct st; [|exact Hk..]. cbn [get_db execute snd with_settings settings].
    apply seed_present. exact Hk.
  - unfold set_setting. destruct st; [|exact Hk..]. cbn [get_db execute snd with_settings settings].
    apply has_setting_replace. exact Hk.
  - unfold register_user. destruct st; exact Hk.
  - destruct st; [|exact Hk..]. destruct (has_record db u (today env)) eqn:Hrec.
    + rewrite check_in_rejected by assumption. exact Hk.
    + rewrite check_in_accepted by assumption. exact Hk.
  - destruct (check_out_keeps_users_and_settings st env db u c w) as [_ E].
    rewrite E. exact Hk.
  - unfold update_progress. destruct st; exact Hk.
Qed.

End Steps.

(** X7: in every reachable store the attendance ids are positive and
    pairwise different: a check-in takes an id above every id in use and no
    operation changes an id. *)
Theorem attendance_ids_unique {B : PyBuiltins} (db : DB) :
  reachable db ->
  NoDup (map att_id (attendance db)) /\
  (forall r, In r (attendance db) -> 0 < att_id r /\ att_id r < next_rowid (attendance db)).
Proof.
  intros Hr.
  assert (Hinv : NoDup (map att_id (attendance db)) /\
                 forall r, In r (attendance db) -> 0 < att_id r).
  { revert db Hr. apply reachable_by_steps.
    - split; [constructor | intros r []].
    - intros db db' Hs [Hnd Hpos].
      destruct (step_attendance db db' Hs) as [E | [[p [f [Hf E]]] | [r [E Hid]]]]; rewrite E.
      + split; assumption.
      + assert (Hids : map att_id (updated p f (attendance db)) = map att_id (attendance db)).
        { rewrite map_map. apply map_ext. intros r. destruct (p r); [|reflexivity].
          specialize (Hf r). unfold check_in_part in Hf. congruence. }
        split; [rewrite Hids; exact Hnd|].
        intros r Hin. apply in_map_iff in Hin. destruct Hin as [r0 [<- Hin]].
        destruct (p r0); [|apply Hpos; exact Hin].
        specialize (Hf r0). unfold check_in_part in Hf.
        replace (att_id (f r0)) with (att_id r0) by congruence. apply Hpos. exact Hin.
      + split.
        * rewrite map_app. cbn [map]. apply NoDup_app; [exact Hnd | repeat constructor; cbn; tauto|].
          intros i Hi [<- | []]. apply in_map_iff in Hi. destruct Hi as [r0 [Hi Hin]].
          assert (Hlt := next_rowid_above (attendance db) r0 Hin). lia.
        * intros r0 Hin. apply in_app_iff in Hin. destruct Hin as [Hin | [<- | []]].
          -- apply Hpos. exact Hin.
          -- rewrite Hid. apply next_rowid_positive. }
  destruct Hinv as [Hnd Hpos]. split; [exact Hnd|].
  intros r Hin. split; [apply Hpos; exact Hin | apply next_rowid_above; exact Hin].
Qed.

Lemma attendance_ids_unique_witness :
  reachable (H := Lite.builtins) Sample.alice_in /\
  NoDup (map att_id (attendance Sample.alice_in)).
Proof.
  assert (Hreach : reachable (H := Lite.builtins) Sample.alice_in)
    by (apply reach_check_in; apply reach_empty).
  split; [exact Hreach|].
  apply (attendance_ids_unique (B := Lite.builtins) Sample.alice_in Hreach).
Defined.

(** X8: no operation deletes or rewrites what a check-in wrote: after any
    one operation the ledger holds the rows it held, in place, with the same
    id, user, date, check-in time, status, location, task, task list and
    creation time, followed by at most one new row; every user id and every
    settings key that existed still exists. *)
Theorem nothing_is_deleted {B : PyBuiltins} (db db' : DB) :
  step db db' ->
  (exists added,
      map check_in_part (attendance db') = map check_in_part (attendance db) ++ added /\
      (List.length added <= 1)%nat) /\
  (forall u, In u (map usr_user_id (users db)) -> In u (map usr_user_id (users db'))) /\
  (forall k, has_setting db k = true -> has_setting db' k = true).
Proof.
  intros Hs. split; [|split].
  - destruct (step_attendance db db' Hs) as [E | [[p [f [Hf E]]] | [r [E Hid]]]]; rewrite E.
    + exists []. rewrite app_nil_r. split; [reflexivity | cbn; lia].
    + exists []. rewrite app_nil_r. split; [|cbn; lia].
      rewrite map_map. apply map_ext. intros r. destruct (p r); [apply Hf | reflexivity].
    + exists [check_in_part r]. rewrite map_app. split; [reflexivity | cbn; lia].
  - intros u Hin. destruct (step_users db db' Hs) as [E | [u' [n E]]]; rewrite E; [exact Hin|].
    unfold replace_user. rewrite map_app, in_app_iff. cbn [map usr_user_id In].
    destruct (String.eqb_spec u' u) as [-> | Hne]; [right; left; reflexivity|].
    left. apply in_map_iff in Hin. destruct Hin as [x [Hx Hin]].
    apply in_map_iff. exists x. split; [exact Hx|].
    apply filter_In. split; [exact Hin|]. apply negb_true_iff. apply String.eqb_neq.
    congruence.
  - intros k. apply step_settings. exact Hs.
Qed.

Lemma nothing_is_deleted_witness :
  step (H := Lite.builtins) Sample.team_day
    (snd (check_out Healthy Sample.evening Sample.team_day "ou_bob" 50 "")) /\
  exists added,
    map check_in_part
      (attendance (snd (check_out Healthy Sample.evening Sample.team_day "ou_bob" 50 "")))
    = map check_in_part (attendance Sample.team_day) ++ added /\
    (List.length added <= 1)%nat.
Proof.
  assert (Hs : step (H := Lite.builtins) Sample.team_day
                 (snd (check_out Healthy Sample.evening Sample.team_day "ou_bob" 50 "")))
    by apply step_check_out.
  split; [exact Hs|].
  exact (proj1 (nothing_is_deleted (B := Lite.builtins) _ _ Hs)).
Defined.

(** X9: no operation deactivates a user: in every reachable store every
    user is active and user ids are unique, so the active listing is the
    whole user table, one entry per user, in table order. *)
Theorem every_user_is_listed {B : PyBuiltins} (db : DB) :
  reachable db ->
  (forall u, In u (users db) -> usr_is_active u = 1) /\
  get_all_users Healthy db
  = Return (map (fun u => mkUserEntry (usr_user_id u) (usr_user_name u)) (users db)) /\
  NoDup (map usr_user_id (users db)).
Proof.
  intros Hr.
  assert (Hactive : forall u, In u (users db) -> usr_is_active u = 1).
  { revert db Hr.
    apply (reachable_by_steps (fun db => forall u, In u (users db) -> usr_is_active u = 1));
      [intros u []|].
    intros db db' Hs IH u Hin.
    destruct (step_users db db' Hs) as [E | [u' [n E]]]; rewrite E in Hin; [apply IH; exact Hin|].
    unfold replace_user in Hin. apply in_app_iff in Hin.
    destruct Hin as [Hin | [<- | []]]; [|reflexivity].
    apply filter_In in Hin. apply IH. tauto. }
  split; [exact Hactive|]. split.
  - unfold get_all_users. cbn [get_db execute bind]. f_equal. f_equal.
    clear Hr. induction (users db) as [|u l IH]; [reflexivity|].
    cbn [filter]. rewrite (Hactive u (or_introl eq_refl)). cbn [Z.eqb Pos.eqb].
    rewrite IH; [reflexivity|]. intros u' Hin. apply Hactive. right. exact Hin.
  - apply (reachable_schema_ok db Hr).
Qed.

Lemma every_user_is_listed_witness :
  reachable (H := Lite.builtins) Sample.alice_in /\
  get_all_users Healthy Sample.alice_in = Return [mkUserEntry "ou_alice" "alice"].
Proof.
  assert (Hreach : reachable (H := Lite.builtins) Sample.alice_in)
    by (apply reach_check_in; apply reach_empty).
  split; [exact Hreach|].
  destruct (every_user_is_listed (B := Lite.builtins) Sample.alice_in Hreach) as [_ [-> _]].
  reflexivity.
Defined.

(** ** Chat adapter: acknowledgments and dispatch *)

Lemma check_in_total st env db user_id user_name status task location tasks_json :
  st <> Unreachable ->
  exists ok msg db',
    check_in st env db user_id user_name status task location tasks_json
    = (Return (ok, msg), db') /\
    (st = Faulty -> db' = db /\ ok = false /\ msg = "签到失败，请重试").
Proof.
  intros Hopen. destruct st; [| |contradiction Hopen; reflexivity].
  - destruct (has_record db user_id (today env)) eqn:Hrec.
    + rewrite check_in_rejected by assumption. eexists _, _, _. split; [reflexivity|discriminate].
    + rewrite check_in_accepted by assumption. eexists _, _, _. split; [reflexivity|discriminate].
  - eexists _, _, _. split; [reflexivity|]. intros _. repeat split.
Qed.

Lemma check_out_total st env db user_id completion work_summary :
  st <> Unreachable ->
  exists ok msg db',
    check_out st env db user_id completion work_summary = (Return (ok, msg), db') /\
    (st = Faulty -> db' = db /\ ok = false /\ msg = "签退失败，请重试").
Proof.
  intros Hopen. destruct st; [| |contradiction Hopen; reflexivity].
  - destruct (fits_int64 completion) eqn:Hfits.
    + destruct (has_record db user_id (today env)) eqn:Hrec.
      * rewrite check_out_recorded by assumption.
        eexists _, _, _. split; [reflexivity|discriminate].
      * rewrite check_out_unrecorded by assumption.
        eexists _, _, _. split; [reflexivity|discriminate].
    + rewrite check_out_overflow by assumption.
      eexists _, _, _. split; [reflexivity|discriminate].
  - eexists _, _, _. split; [reflexivity|]. intros _. repeat split.
Qed.

Lemma send_text_message_posts (env : Env) (text : string) :
  snd (send_text_message env [] text None)
  = if (FEISHU_WEBHOOK_URL env =? "")%string then []
    else [(FEISHU_WEBHOOK_URL env,
           PDict [("msg_type", PStr "text"); ("text", PDict [("content", PStr text)])])].
Proof.
  unfold send_text_message, url_or_default.
  destruct (FEISHU_WEBHOOK_URL env =? "")%string; reflexivity.
Qed.

(** X10: for a body of the platform's types (keys may be absent) the
    callback endpoint answers code 0 whenever the connection to the database
    opens, whether or not the statements then succeed, and posts at most one
    message, none when no webhook URL is configured; when the statements
    fail the store is left as it was; when the connection cannot be opened,
    a check-in or check-out action is answered with code 500, nothing is
    posted and nothing is stored, and any other body is still acknowledged;
    a body that decodes to nothing is answered with code 500. *)
Theorem callback_acknowledges_when_connected (st : storage) (env : Env) (db : DB)
  (d : CallbackData) :
  let value :=
    get_or (act_value (get_or (cd_action d) (mkAction None))) (mkActionValue None None None) in
  (st <> Unreachable -> fst (fst (feishu_callback st env db (Some d))) = response_ok) /\
  (List.length (snd (fst (feishu_callback st env db (Some d)))) <= 1)%nat /\
  (FEISHU_WEBHOOK_URL env = "" -> snd (fst (feishu_callback st env db (Some d))) = []) /\
  (st <> Healthy -> snd (feishu_callback st env db (Some d)) = db) /\
  (st = Unreachable ->
   feishu_callback st env db (Some d)
   = if text_is (cd_type d) "interactive"
        && (text_is (av_action value) "checkin" || text_is (av_action value) "checkout")
     then (response_error, [], db)
     else (response_ok, [], db)) /\
  feishu_callback st env db None = (response_error, [], db).
Proof.
  intros value.
  assert (Hposts : forall text,
             (List.length (snd (send_text_message env [] text None)) <= 1)%nat /\
             (FEISHU_WEBHOOK_URL env = "" -> snd (send_text_message env [] text None) = [])).
  { intros text. rewrite send_text_message_posts.
    destruct (FEISHU_WEBHOOK_URL env =? "")%string eqn:E; cbn [List.length]; split;
      try lia; try reflexivity.
    intros Hurl. rewrite Hurl in E. discriminate. }
  unfold feishu_callback. fold value.
  destruct (text_is (cd_type d) "interactive"); cbn [negb andb].
  2: { cbn [fst snd List.length]. repeat split; lia. }
  destruct (text_is (av_action value) "checkin"); cbn [orb].
  { destruct st.
    - destruct (check_in_total Healthy env db
                  (get_or (op_user_id (get_or (cd_operator d) (mkOperator None None))) "")
                  (get_or (op_name (get_or (cd_operator d) (mkOperator None None))) "未知用户")
                  (get_or (av_status value) "办公室坐班") "日常工作"
                  (get_or (av_status value) "办公室坐班") default_tasks_json)
        as [ok [msg [db' [E _]]]]; [discriminate|].
      rewrite E. cbn [fst snd]. split; [reflexivity|]. split; [apply Hposts|].
      split; [apply Hposts|]. split; [intros Hst; contradiction Hst; reflexivity|].
      split; [discriminate | reflexivity].
    - cbn [check_in get_db execute fst snd]. split; [reflexivity|]. split; [apply Hposts|].
      split; [apply Hposts|]. split; [reflexivity|]. split; [discriminate | reflexivity].
    - cbn [check_in get_db fst snd List.length].
      split; [intros Hst; contradiction Hst; reflexivity|]. repeat split; lia. }
  destruct (text_is (av_action value) "checkout").
  { destruct st.
    - destruct (check_out_total Healthy env db
                  (get_or (op_user_id (get_or (cd_operator d) (mkOperator None None))) "")
                  (get_or (av_completion value) 0) "")
        as [ok [msg [db' [E _]]]]; [discriminate|].
      rewrite E. cbn [fst snd]. split; [reflexivity|]. split; [apply Hposts|].
      split; [apply Hposts|]. split; [intros Hst; contradiction Hst; reflexivity|].
      split; [discriminate | reflexivity].
    - cbn [check_out get_db execute fst snd]. split; [reflexivity|]. split; [apply Hposts|].
      split; [apply Hposts|]. split; [reflexivity|]. split; [discriminate | reflexivity].
    - cbn [check_out get_db fst snd List.length].
      split; [intros Hst; contradiction Hst; reflexivity|]. repeat split; lia. }
  cbn [fst snd List.length]. repeat split; lia.
Qed.

Lemma callback_acknowledges_when_connected_witness :
  Faulty <> Unreachable /\ Faulty <> Healthy /\
  fst (fst (feishu_callback Faulty Sample.env Sample.alice_in
              (Some (mkCallbackData (Some "interactive")
                       (Some (mkAction (Some (mkActionValue (Some "checkin") None None))))
                       None))))
  = response_ok /\
  snd (feishu_callback Faulty Sample.env Sample.alice_in
         (Some (mkCallbackData (Some "interactive")
                  (Some (mkAction (Some (mkActionValue (Some "checkin") None None))))
                  None)))
  = Sample.alice_in /\
  feishu_callback Unreachable Sample.env Sample.alice_in
    (Some (mkCallbackData (Some "interactive")
             (Some (mkAction (Some (mkActionValue (Some "checkout") None (Some 50)))))
             (Some (mkOperator (Some "ou_alice") (Some "alice")))))
  = (response_error, [], Sample.alice_in).
Proof.
  split; [discriminate|]. split; [discriminate|].
  destruct (callback_acknowledges_when_connected Faulty Sample.env Sample.alice_in
              (mkCallbackData (Some "interactive")
                 (Some (mkAction (Some (mkActionValue (Some "checkin") None None))))
                 None)) as [Hack [_ [_ [Hsame _]]]].
  split; [apply Hack; discriminate|]. split; [apply Hsame; discriminate|].
  destruct (callback_acknowledges_when_connected Unreachable Sample.env Sample.alice_in
              (mkCallbackData (Some "interactive")
                 (Some (mkAction (Some (mkActionValue (Some "checkout") None (Some 50)))))
                 (Some (mkOperator (Some "ou_alice") (Some "alice")))))
    as [_ [_ [_ [_ [Hdown _]]]]].
  apply Hdown. reflexivity.
Defined.

(** X11: the message webhook never writes the ledger or the settings: it
    only registers the sender, and that only for a text message; a body
    that is absent or not a text message is acknowledged with nothing posted
    and the store untouched. *)
Theorem webhook_leaves_ledger {B : PyBuiltins} (st : storage) (env : Env) (db : DB)
  (data : option WebhookData) :
  attendance (snd (feishu_webhook st env db data)) = attendance db /\
  settings (snd (feishu_webhook st env db data)) = settings db /\
  (forall u, In u (users db) ->
             In (usr_user_id u) (map usr_user_id (users (snd (feishu_webhook st env db data))))) /\
  (forall d, data = Some d -> text_is (wd_msg_type d) "text" = false ->
             feishu_webhook st env db data = (response_ok, [], db)) /\
  (data = None -> feishu_webhook st env db data = (response_ok, [], db)).
Proof.
  assert (Hignored : forall d, text_is (wd_msg_type d) "text" = false ->
                               feishu_webhook st env db (Some d) = (response_ok, [], db)).
  { intros d Htext. unfold feishu_webhook. rewrite Htext. reflexivity. }
  destruct data as [d|].
  - destruct (text_is (wd_msg_type d) "text") eqn:Htext.
    + rewrite webhook_store by assumption. unfold register_user.
      destruct st; cbn [get_db execute snd with_users attendance settings users].
      * split; [reflexivity|]. split; [reflexivity|]. split; [|split; [|discriminate]].
        -- intros u Hin. unfold replace_user. rewrite map_app, in_app_iff.
           cbn [map usr_user_id In].
           match goal with
           | |- In _ (map _ (filter (fun r => negb (_ =? ?x)%string) _)) \/ _ =>
               destruct (String.eqb_spec (usr_user_id u) x) as [E | Hne]
           end.
           ++ right. left. symmetry. exact E.
           ++ left. apply in_map. apply filter_In. split; [exact Hin|].
              apply negb_true_iff. apply String.eqb_neq. exact Hne.
        -- intros d' E Hno. inversion E; subst d'. congruence.
      * split; [reflexivity|]. split; [reflexivity|]. split; [|split; [|discriminate]].
        -- intros u Hin. apply in_map. exact Hin.
        -- intros d' E Hno. inversion E; subst d'. congruence.
      * split; [reflexivity|]. split; [reflexivity|]. split; [|split; [|discriminate]].
        -- intros u Hin. apply in_map. exact Hin.
        -- intros d' E Hno. inversion E; subst d'. congruence.
    + rewrite Hignored by assumption. cbn [snd].
      split; [reflexivity|]. split; [reflexivity|]. split; [|split; [|discriminate]].
      * intros u Hin. apply in_map. exact Hin.
      * intros d' E Hno. reflexivity.
  - cbn [feishu_webhook snd].
    split; [reflexivity|]. split; [reflexivity|]. split; [|split; [discriminate | reflexivity]].
    intros u Hin. apply in_map. exact Hin.
Qed.

Lemma webhook_leaves_ledger_witness :
  text_is (wd_msg_type (mkWebhookData (Some "image") None None)) "text" = false /\
  feishu_webhook (H := Lite.builtins) Healthy Sample.env Sample.team_day
    (Some (mkWebhookData (Some "image") None None))
  = (response_ok, [], Sample.team_day) /\
  attendance (snd (feishu_webhook (H := Lite.builtins) Healthy Sample.env Sample.team_day
                     (Some Sample.checkin_text)))
  = attendance Sample.team_day.
Proof.
  split; [reflexivity|]. split.
  - destruct (webhook_leaves_ledger (B := Lite.builtins) Healthy Sample.env Sample.team_day
                (Some (mkWebhookData (Some "image") None None))) as [_ [_ [_ [Hignored _]]]].
    apply (Hignored _ eq_refl). reflexivity.
  - apply (webhook_leaves_ledger (B := Lite.builtins) Healthy Sample.env Sample.team_day
             (Some Sample.checkin_text)).
Defined.

Lemma get_all_settings_healthy {B : PyBuiltins} (db : DB) :
  exists cfg, get_all_settings Healthy db = Return cfg.
Proof. unfold get_all_settings. cbn [get_db execute bind]. eexists. reflexivity. Qed.

(** X12: a text message that is none of the commands is answered with the
    echo and the hint at the help command, posted once to the configured
    webhook; the handler acknowledges and the ledger stays as it was. *)
Theorem unknown_text_is_echoed {B : PyBuiltins} (env : Env) (db : DB) (d : WebhookData) :
  let text_content :=
    str_strip (get_or (txt_content (get_or (wd_text d) (mkTextBody None))) "") in
  text_is (wd_msg_type d) "text" = true ->
  is_in text_content ["签到"; "/checkin"; "/签到"; "签退"; "/checkout"; "/签退";
                      "日报"; "/report"; "/日报"; "帮助"; "/help"] = false ->
  FEISHU_WEBHOOK_URL env <> "" ->
  fst (feishu_webhook Healthy env db (Some d))
  = (response_ok,
     [(FEISHU_WEBHOOK_URL env,
       PDict [("msg_type", PStr "text");
              ("text", PDict [("content",
                               PStr ("收到消息：" ++ text_content ++ nl ++ nl
                                     ++ "发送「帮助」查看可用命令")%string)])])]) /\
  attendance (snd (feishu_webhook Healthy env db (Some d))) = attendance db.
Proof.
  intros text_content Htext Hnone Hurl.
  assert (Hsplit : is_in text_content ["签到"; "/checkin"; "/签到"] = false /\
                   is_in text_content ["签退"; "/checkout"; "/签退"] = false /\
                   is_in text_content ["日报"; "/report"; "/日报"] = false /\
                   is_in text_content ["帮助"; "/help"] = false).
  { unfold is_in in *. cbn [existsb] in *.
    repeat match type of Hnone with
           | (_ || _)%bool = false => apply orb_false_iff in Hnone; destruct Hnone as [? Hnone]
           end.
    repeat split; repeat (apply orb_false_iff; split); assumption || reflexivity. }
  destruct Hsplit as [H1 [H2 [H3 H4]]].
  split.
  - unfold feishu_webhook. rewrite Htext. cbn [negb]. cbv zeta.
    rewrite register_user_healthy. cbv iota.
    destruct (get_all_settings_healthy
                (snd (register_user Healthy db
                        (get_or (snd_user_id (get_or (wd_sender d) (mkSender None None))) "")
                        (get_or (sid_name (get_or (snd_sender_id
                                                     (get_or (wd_sender d) (mkSender None None)))
                                             (mkSenderId None))) "未知用户"))))
      as [cfg ->].
    fold text_content. rewrite H1, H2, H3, H4. cbn [fst].
    rewrite send_text_message_posts.
    destruct (FEISHU_WEBHOOK_URL env =? "")%string eqn:E; [|reflexivity].
    apply String.eqb_eq in E. contradiction.
  - rewrite webhook_store by assumption. unfold register_user. reflexivity.
Qed.

Lemma unknown_text_is_echoed_witness :
  FEISHU_WEBHOOK_URL Sample.env <> "" /\
  fst (feishu_webhook (H := Lite.builtins) Healthy Sample.env Sample.team_day
         (Some (mkWebhookData (Some "text") None (Some (mkTextBody (Some "xyz123"))))))
  = (response_ok,
     [(FEISHU_WEBHOOK_URL Sample.env,
       PDict [("msg_type", PStr "text");
              ("text", PDict [("content",
                               PStr ("收到消息：xyz123" ++ nl ++ nl
                                     ++ "发送「帮助」查看可用命令")%string)])])]).
Proof.
  split; [discriminate|].
  apply (unknown_text_is_echoed (B := Lite.builtins) Sample.env Sample.team_day
           (mkWebhookData (Some "text") None (Some (mkTextBody (Some "xyz123")))));
    [reflexivity | vm_compute; reflexivity | discriminate].
Defined.

(** X13: pressing a status button records the check-in: for an operator
    without a record for today the store gets a row with the chosen status,
    the same label as location, the fixed task and the default task list,
    the per-user query shows it with no check-out, and the success text is
    posted to the operator; a payload without a status counts as the office
    status; for an operator who has a record the reply is the "already
    checked in" text and the store is unchanged. *)
Theorem callback_checkin_records_status (env : Env) (db : DB) (user_id user_name : string)
  (status : option string) (completion : option Z) :
  let data := mkCallbackData (Some "interactive")
                (Some (mkAction (Some (mkActionValue (Some "checkin") status completion))))
                (Some (mkOperator (Some user_id) (Some user_name))) in
  let chosen := get_or status "办公室坐班" in
  (has_record db user_id (today env) = false ->
   fst (feishu_callback Healthy env db (Some data))
   = (response_ok,
      snd (send_text_message env []
             ("@" ++ user_name ++ " 签到成功！" ++ nl ++ "状态：" ++ chosen ++ nl
              ++ "任务：日常工作")%string None)) /\
   filter (att_where user_id (today env))
          (attendance (snd (feishu_callback Healthy env db (Some data))))
   = [mkAttendance (next_rowid (attendance db)) user_id user_name (today env)
        (Some (current_time env)) None (Some chosen) None (Some chosen)
        (Some "日常工作") (Some "[]") 0 None None (utc_now env)] /\
   get_user_status Healthy env (snd (feishu_callback Healthy env db (Some data))) user_id
   = Return (Some (mkUserStatus user_name (Some (current_time env)) None (Some chosen)
                     (Some "日常工作") 0 None))) /\
  (has_record db user_id (today env) = true ->
   feishu_callback Healthy env db (Some data)
   = (response_ok,
      snd (send_text_message env [] ("@" ++ user_name ++ " 您今天已经签到过了！")%string None),
      db)).
Proof.
  intros data chosen. split.
  - intros Hnone.
    assert (Hrows : filter (att_where user_id (today env))
                      (attendance (snd (feishu_callback Healthy env db (Some data))))
                    = [mkAttendance (next_rowid (attendance db)) user_id user_name (today env)
                         (Some (current_time env)) None (Some chosen) None (Some chosen)
                         (Some "日常工作") (Some "[]") 0 None None (utc_now env)]).
    { unfold feishu_callback. subst data. callback_fields. cbn [op_user_id op_name].
      fold chosen. rewrite check_in_accepted by assumption. cbn [snd attendance].
      rewrite filter_app. unfold has_record in Hnone.
      rewrite (existsb_false_filter _ _ Hnone). cbn [filter app].
      unfold att_where. cbn [att_user_id att_date]. rewrite !String.eqb_refl. reflexivity. }
    split; [|split; [exact Hrows|]].
    + unfold feishu_callback. subst data. callback_fields. cbn [op_user_id op_name].
      fold chosen. rewrite check_in_accepted by assumption. reflexivity.
    + unfold get_user_status, get_today_date. cbn [get_db execute bind]. rewrite Hrows. reflexivity.
  - intros Hrec. unfold feishu_callback. subst data. callback_fields.
    cbn [op_user_id op_name]. fold chosen. rewrite check_in_rejected by assumption.
    reflexivity.
Qed.

Lemma callback_checkin_records_status_witness :
  has_record Sample.alice_in "ou_bob" (today Sample.env) = false /\
  has_record Sample.alice_in "ou_alice" (today Sample.env) = true /\
  get_user_status Healthy Sample.env
    (snd (feishu_callback Healthy Sample.env Sample.alice_in
            (Some (mkCallbackData (Some "interactive")
                     (Some (mkAction (Some (mkActionValue (Some "checkin") None None))))
                     (Some (mkOperator (Some "ou_bob") (Some "bob")))))))
    "ou_bob"
  = Return (Some (mkUserStatus "bob" (Some "09:01:30") None (Some "办公室坐班")
                    (Some "日常工作") 0 None)) /\
  snd (feishu_callback Healthy Sample.env Sample.alice_in
         (Some (mkCallbackData (Some "interactive")
                  (Some (mkAction (Some (mkActionValue (Some "checkin") (Some "会议中") None))))
                  (Some (mkOperator (Some "ou_alice") (Some "alice"))))))
  = Sample.alice_in.
Proof.
  split; [reflexivity|]. split; [reflexivity|]. split.
  - destruct (callback_checkin_records_status Sample.env Sample.alice_in "ou_bob" "bob"
                None None) as [Hnew _].
    apply Hnew. reflexivity.
  - destruct (callback_checkin_records_status Sample.env Sample.alice_in "ou_alice" "alice"
                (Some "会议中") None) as [_ Hdup].
    rewrite Hdup; reflexivity.
Defined.

(** ** Today's snapshots and the report command *)

Lemma time_leb_total (a b : option string) : time_leb a b = false -> time_leb b a = true.
Proof.
  destruct a as [x|], b as [y|]; cbn [time_leb]; try discriminate; try reflexivity.
  destruct (String.leb_total x y) as [E | E]; [congruence | intros _; exact E].
Qed.

Local Abbreviation earlier a b := (time_leb (att_check_in_time a) (att_check_in_time b) = true).

Lemma insert_by_time_sorted (r : AttendanceRow) (l : list AttendanceRow) :
  Sorted (fun a b => earlier a b) l -> Sorted (fun a b => earlier a b) (insert_by_time r l).
Proof.
  induction l as [|r' l IH]; intros Hs; cbn [insert_by_time].
  - repeat constructor.
  - destruct (time_leb (att_check_in_time r) (att_check_in_time r')) eqn:E.
    + constructor; [exact Hs | constructor; exact E].
    + inversion Hs as [|x xs Hs' Hhd]; subst. constructor; [apply IH; exact Hs'|].
      destruct l as [|r'' l]; cbn [insert_by_time].
      * constructor. apply time_leb_total. exact E.
      * destruct (time_leb (att_check_in_time r) (att_check_in_time r'')).
        -- constructor. apply time_leb_total. exact E.
        -- inversion Hhd; subst. constructor. assumption.
Qed.

Lemma order_by_check_in_time_sorted (l : list AttendanceRow) :
  Sorted (fun a b => earlier a b) (order_by_check_in_time l).
Proof.
  unfold order_by_check_in_time. induction l as [|r l IH]; cbn [fold_right].
  - constructor.
  - apply insert_by_time_sorted. exact IH.
Qed.

Lemma sorted_map {A K : Type} (R : K -> K -> Prop) (f : A -> K) (l : list A) :
  Sorted (fun a b => R (f a) (f b)) l -> Sorted R (map f l).
Proof.
  induction 1 as [|a l Hs IH Hhd]; cbn [map]; [constructor|].
  constructor; [exact IH|]. destruct Hhd; cbn [map]; constructor. assumption.
Qed.

Section ReportCommand.

Context `{PyBuiltins}.

Lemma snapshot_times (rows : list AttendanceRow) (statuses : list TodayStatus) :
  Forall2 (fun r s => exists tasks, s = today_status_of r tasks) rows statuses ->
  map ts_check_in statuses = map att_check_in_time rows /\
  List.length statuses = List.length rows.
Proof.
  induction 1 as [|r s rows statuses [tasks ->] _ [IH1 IH2]]; [split; reflexivity|].
  cbn [map List.length]. rewrite IH1, IH2. split; reflexivity.
Qed.


Lemma today_status_rows_fail (rows : list AttendanceRow) (r : AttendanceRow) :
  In r rows ->
  decode_tasks (att_tasks_json r) = Raise ValueError ->
  today_status_rows rows = Raise ValueError.
Proof.
  induction rows as [|r' rows IH]; intros Hin Hbad; [destruct Hin|].
  cbn [today_status_rows]. destruct Hin as [-> | Hin].
  - rewrite Hbad. reflexivity.
  - destruct (decode_tasks (att_tasks_json r')) as [v|e] eqn:E; cbn [bind].
    + rewrite (IH Hin Hbad). reflexivity.
    + unfold decode_tasks in E. destruct (att_tasks_json r') as [s|]; [|discriminate].
      destruct (s =? "")%string; [discriminate|].
      destruct (json_loads s); [discriminate|]. inversion E. reflexivity.
Qed.

End ReportCommand.

(** X14: [get_today_status] returns one snapshot per record of today and
    none of another day, ordered by check-in time ascending with records
    without a check-in time first. *)
Theorem today_status_is_ordered {B : PyBuiltins} (env : Env) (db : DB) :
  (forall r, In r (attendance db) -> att_date r = today env ->
             exists v, decode_tasks (att_tasks_json r) = Return v) ->
  exists statuses,
    get_today_status Healthy env db = Return statuses /\
    Sorted (fun a b => time_leb a b = true) (map ts_check_in statuses) /\
    Permutation (map ts_name statuses)
                (map att_user_name
                     (filter (fun r => (att_date r =? today env)%string) (attendance db))) /\
    List.length statuses
    = List.length (filter (fun r => (att_date r =? today env)%string) (attendance db)).
Proof.
  intros Hdec. unfold get_today_status, get_today_date. cbn [get_db execute bind].
  set (day := filter (fun r => (att_date r =? today env)%string) (attendance db)).
  destruct (today_status_rows_total (order_by_check_in_time day)) as [statuses [Hst Hsnap]].
  { intros r Hin. apply (Permutation_in _ (order_by_check_in_time_perm _)) in Hin.
    apply filter_In in Hin. destruct Hin as [Hin Hd]. apply String.eqb_eq in Hd.
    apply Hdec; assumption. }
  exists statuses. split; [exact Hst|].
  destruct (snapshot_times _ _ Hsnap) as [Htimes Hlen]. split; [|split].
  - rewrite Htimes. apply sorted_map. apply order_by_check_in_time_sorted.
  - rewrite (snapshot_names _ _ Hsnap). apply Permutation_map.
    apply order_by_check_in_time_perm.
  - rewrite Hlen. apply Permutation_length. apply order_by_check_in_time_perm.
Qed.

Lemma today_status_is_ordered_witness :
  (forall r, In r (attendance Sample.team_day) -> att_date r = today Sample.evening ->
             exists v, decode_tasks (H := Lite.builtins) (att_tasks_json r) = Return v) /\
  exists statuses,
    get_today_status (H := Lite.builtins) Healthy Sample.evening Sample.team_day
    = Return statuses /\
    Sorted (fun a b => time_leb a b = true) (map ts_check_in statuses) /\
    List.length statuses = 2%nat.
Proof.
  assert (Hdec : forall r, In r (attendance Sample.team_day) ->
                           att_date r = today Sample.evening ->
                           exists v, decode_tasks (H := Lite.builtins) (att_tasks_json r)
                                     = Return v).
  { intros r Hin _. simpl in Hin. decompose [or] Hin; try contradiction; subst r;
      exists (PList []); reflexivity. }
  split; [exact Hdec|].
  destruct (today_status_is_ordered (B := Lite.builtins) Sample.evening Sample.team_day Hdec)
    as [statuses [Hst [Hsorted [_ Hlen]]]].
  exists statuses. split; [exact Hst|]. split; [exact Hsorted | exact Hlen].
Defined.



(** X16: one record of today whose task list is a non-empty text that
    [json.loads] rejects makes [get_today_status] and the daily report raise
    [ValueError], and the report command is then answered with code 500 and
    nothing is posted. *)
Theorem report_fails_on_undecodable_tasks {B : PyBuiltins} (env : Env) (db : DB)
  (r : AttendanceRow) (s : string) (d : WebhookData) :
  In r (attendance db) ->
  att_date r = today env ->
  att_tasks_json r = Some s ->
  s <> "" ->
  json_loads s = None ->
  get_today_status Healthy env db = Raise ValueError /\
  build_daily_report Healthy env db = Raise ValueError /\
  (text_is (wd_msg_type d) "text" = true ->
   is_in (str_strip (get_or (txt_content (get_or (wd_text d) (mkTextBody None))) ""))
         ["日报"; "/report"; "/日报"] = true ->
   fst (feishu_webhook Healthy env db (Some d)) = (response_error, [])).
Proof.
  intros Hin Hday Hs Hne Hbad.
  assert (Hdecode : decode_tasks (att_tasks_json r) = Raise ValueError).
  { unfold decode_tasks. rewrite Hs.
    destruct (s =? "")%string eqn:E; [apply String.eqb_eq in E; contradiction|].
    rewrite Hbad. reflexivity. }
  assert (Hstatus : forall db', attendance db' = attendance db ->
                                get_today_status Healthy env db' = Raise ValueError).
  { intros db' Hsame. unfold get_today_status, get_today_date. cbn [get_db execute bind].
    rewrite Hsame. apply (today_status_rows_fail _ r); [|exact Hdecode].
    apply (Permutation_in _ (Permutation_sym (order_by_check_in_time_perm _))).
    apply filter_In. split; [exact Hin|]. apply String.eqb_eq. exact Hday. }
  split; [apply Hstatus; reflexivity|]. split.
  - unfold build_daily_report. rewrite Hstatus by reflexivity. reflexivity.
  - intros Htext Hkey. unfold feishu_webhook. rewrite Htext. cbn [negb]. cbv zeta.
    rewrite register_user_healthy. cbv iota.
    set (db1 := snd (register_user Healthy db _ _)).
    destruct (get_all_settings_healthy db1) as [cfg ->].
    set (text_content := str_strip _) in *.
    assert (Hother : is_in text_content ["签到"; "/checkin"; "/签到"] = false /\
                     is_in text_content ["签退"; "/checkout"; "/签退"] = false).
    { unfold is_in in Hkey. cbn [existsb] in Hkey.
      repeat (apply orb_true_iff in Hkey; destruct Hkey as [Hkey | Hkey]);
        try discriminate; apply String.eqb_eq in Hkey; rewrite Hkey; split; reflexivity. }
    destruct Hother as [-> ->]. rewrite Hkey.
    unfold build_daily_report. rewrite (Hstatus db1) by reflexivity. reflexivity.
Qed.

Lemma report_fails_on_undecodable_tasks_witness :
  build_daily_report (H := Lite.builtins) Healthy Sample.env
    (snd (check_in Healthy Sample.env empty_db "ou_alice" "alice" "办公室坐班" "日常工作"
            "办公室" "剪辑, 发布"))
  = Raise ValueError.
Proof.
  apply (report_fails_on_undecodable_tasks (B := Lite.builtins) Sample.env
           (snd (check_in Healthy Sample.env empty_db "ou_alice" "alice" "办公室坐班"
                   "日常工作" "办公室" "剪辑, 发布"))
           (mkAttendance 1 "ou_alice" "alice" "2024-05-06" (Some "09:01:30") None
              (Some "办公室坐班") None (Some "办公室") (Some "日常工作") (Some "剪辑, 发布")
              0 None None "2024-05-06 01:01:30")
           "剪辑, 发布" (mkWebhookData None None None));
    [left; reflexivity | reflexivity | reflexivity | discriminate | vm_compute; reflexivity].
Defined.

(** ** Admin console: the data page *)

Lemma recent_first_total (a b : AttendanceRow) :
  recent_first a b = false -> recent_first b a = true.
Proof.
  unfold recent_first. rewrite (String.compare_antisym (att_date b) (att_date a)).
  destruct (String.compare (att_date a) (att_date b)); cbn [CompOpp];
    [apply time_leb_total | reflexivity | discriminate].
Qed.

Lemma insert_recent_perm (r : AttendanceRow) (l : list AttendanceRow) :
  Permutation (insert_recent r l) (r :: l).
Proof.
  induction l as [|r' l IH]; cbn [insert_recent]; [apply Permutation_refl|].
  destruct (recent_first r r'); [apply Permutation_refl|].
  eapply perm_trans; [apply perm_skip, IH | apply perm_swap].
Qed.

Lemma order_recent_perm (l : list AttendanceRow) : Permutation (order_recent l) l.
Proof.
  unfold order_recent. induction l as [|r l IH]; cbn [fold_right]; [apply perm_nil|].
  eapply perm_trans; [apply insert_recent_perm | apply perm_skip, IH].
Qed.

Lemma insert_recent_sorted (r : AttendanceRow) (l : list AttendanceRow) :
  Sorted (fun a b => recent_first a b = true) l ->
  Sorted (fun a b => recent_first a b = true) (insert_recent r l).
Proof.
  induction l as [|r' l IH]; intros Hs; cbn [insert_recent].
  - repeat constructor.
  - destruct (recent_first r r') eqn:E.
    + constructor; [exact Hs | constructor; exact E].
    + inversion Hs as [|x xs Hs' Hhd]; subst. constructor; [apply IH; exact Hs'|].
      destruct l as [|r'' l]; cbn [insert_recent].
      * constructor. apply recent_first_total. exact E.
      * destruct (recent_first r r'').
        -- constructor. apply recent_first_total. exact E.
        -- inversion Hhd; subst. constructor. assumption.
Qed.

Lemma order_recent_sorted (l : list AttendanceRow) :
  Sorted (fun a b => recent_first a b = true) (order_recent l).
Proof.
  unfold order_recent. induction l as [|r l IH]; cbn [fold_right].
  - constructor.
  - apply insert_recent_sorted. exact IH.
Qed.

(** X17: the data page gets at most 100 records, all of them rows of the
    ledger: the first 100 of the ledger put in the order latest date first
    and, within a date, latest check-in first; a ledger of at most 100 rows
    is shown whole; when the store fails the page raises. *)
Theorem admin_data_shows_latest {B : PyBuiltins} (db : DB) :
  exists records rest cfg,
    admin_data Healthy db = Return (records, cfg) /\
    get_all_settings Healthy db = Return cfg /\
    (List.length records <= 100)%nat /\
    Permutation (records ++ rest) (attendance db) /\
    Sorted (fun a b => recent_first a b = true) (records ++ rest) /\
    ((List.length (attendance db) <= 100)%nat -> rest = []) /\
    ((100 < List.length (attendance db))%nat -> List.length records = 100%nat) /\
    admin_data Faulty db = Raise OperationalError.
Proof.
  destruct (get_all_settings_healthy db) as [cfg Hcfg].
  exists (firstn 100 (order_recent (attendance db))),
         (skipn 100 (order_recent (attendance db))), cfg.
  assert (Hlen : List.length (order_recent (attendance db)) = List.length (attendance db))
    by (apply Permutation_length; apply order_recent_perm).
  split; [unfold admin_data; cbn [get_db execute bind]; rewrite Hcfg; reflexivity|].
  split; [exact Hcfg|]. split; [apply firstn_le_length|].
  rewrite firstn_skipn. split; [apply order_recent_perm|].
  split; [apply order_recent_sorted|]. split; [|split; [|reflexivity]].
  - intros Hsmall. apply skipn_all2. lia.
  - intros Hbig. rewrite length_firstn. lia.
Qed.

Lemma admin_data_shows_latest_witness :
  (List.length (attendance Sample.team_day) <= 100)%nat /\
  exists records cfg,
    admin_data (H := Lite.builtins) Healthy Sample.team_day = Return (records, cfg) /\
    Permutation records (attendance Sample.team_day).
Proof.
  assert (Hsmall : (List.length (attendance Sample.team_day) <= 100)%nat) by (cbn; lia).
  split; [exact Hsmall|].
  destruct (admin_data_shows_latest (B := Lite.builtins) Sample.team_day)
    as [records [rest [cfg [Hpage [_ [_ [Hperm [_ [Hwhole _]]]]]]]]].
  exists records, cfg. split; [exact Hpage|].
  rewrite (Hwhole Hsmall), app_nil_r in Hperm. exact Hperm.
Defined.

Example team_day_data_page :
  admin_data (H := Lite.builtins) Healthy Sample.team_day
  = Return ([mkAttendance 1 "ou_bob" "bob" "2024-05-06" (Some "09:20:00") None
               (Some "外出拍摄") None (Some "外出拍摄") (Some "日常工作") (Some "[]") 0
               (Some "一切正常") None "2024-05-06 01:20:00";
             mkAttendance 2 "ou_alice" "alice" "2024-05-06" (Some "09:01:30")
               (Some "18:05:00") (Some "办公室坐班") (Some "已完成工作")
               (Some "办公室坐班") (Some "日常工作") (Some "[]") 75 None (Some "")
               "2024-05-06 01:01:30";
             mkAttendance 3 "ou_alice" "alice" "2024-05-05" (Some "09:10:00") None
               (Some "居家办公") None (Some "居家办公") (Some "日常工作") (Some "[]") 0
               None None "2024-05-05 01:10:00"], []).
Proof. vm_compute. reflexivity. Qed.

(** ** Failing store, calendar days, re-registration, card commands *)

(** X18: a store that cannot serve writes nothing, and the two ways of
    failing differ.  When the connection opens and the statements fail, the
    ledger operations swallow the fault ([check_in] and [check_out] return
    their retry text, [register_user] returns [False]), the queries,
    [update_progress] and [set_setting] raise, the message webhook answers a
    text message with code 500 and posts nothing, and the callback answers
    code 0 and posts the retry text.  When the connection cannot be opened,
    [check_in], [check_out] and [register_user] raise as well, their
    connection being opened before the [try], and both endpoints answer
    code 500 and post nothing. *)
Theorem failing_store_is_reported {B : PyBuiltins} (env : Env) (db : DB)
  (user_id user_name status task location tasks_json progress key value : string)
  (completion : Z) (d : WebhookData) (choice : option string) :
  let checkin_press :=
    mkCallbackData (Some "interactive")
      (Some (mkAction (Some (mkActionValue (Some "checkin") choice None))))
      (Some (mkOperator (Some user_id) (Some user_name))) in
  let checkout_press :=
    mkCallbackData (Some "interactive")
      (Some (mkAction (Some (mkActionValue (Some "checkout") choice (Some completion)))))
      (Some (mkOperator (Some user_id) (Some user_name))) in
  check_in Faulty env db user_id user_name status task location tasks_json
  = (Return (false, "签到失败，请重试"), db) /\
  check_out Faulty env db user_id completion value
  = (Return (false, "签退失败，请重试"), db) /\
  register_user Faulty db user_id user_name = (Return false, db) /\
  update_progress Faulty env db user_id progress = (Raise OperationalError, db) /\
  set_setting Faulty env db key value = (Raise OperationalError, db) /\
  get_user_status Faulty env db user_id = Raise OperationalError /\
  get_all_users Faulty db = Raise OperationalError /\
  build_daily_report Faulty env db = Raise OperationalError /\
  feishu_callback Faulty env db (Some checkin_press)
  = (response_ok,
     snd (send_text_message env [] ("@" ++ user_name ++ " 签到失败，请重试")%string None),
     db) /\
  feishu_callback Faulty env db (Some checkout_press)
  = (response_ok,
     snd (send_text_message env [] ("@" ++ user_name ++ " 签退失败，请重试")%string None),
     db) /\
  check_in Unreachable env db user_id user_name status task location tasks_json
  = (Raise OperationalError, db) /\
  check_out Unreachable env db user_id completion value = (Raise OperationalError, db) /\
  register_user Unreachable db user_id user_name = (Raise OperationalError, db) /\
  update_progress Unreachable env db user_id progress = (Raise OperationalError, db) /\
  set_setting Unreachable env db key value = (Raise OperationalError, db) /\
  get_user_status Unreachable env db user_id = Raise OperationalError /\
  get_all_users Unreachable db = Raise OperationalError /\
  build_daily_report Unreachable env db = Raise OperationalError /\
  feishu_callback Unreachable env db (Some checkin_press) = (response_error, [], db) /\
  feishu_callback Unreachable env db (Some checkout_press) = (response_error, [], db) /\
  (text_is (wd_msg_type d) "text" = true ->
   feishu_webhook Faulty env db (Some d) = (response_error, [], db) /\
   feishu_webhook Unreachable env db (Some d) = (response_error, [], db)).
Proof.
  intros checkin_press checkout_press.
  repeat (split; [reflexivity|]).
  intros Htext. unfold feishu_webhook. rewrite Htext. split; reflexivity.
Qed.

Lemma failing_store_is_reported_witness :
  text_is (wd_msg_type Sample.checkin_text) "text" = true /\
  feishu_webhook (H := Lite.builtins) Faulty Sample.env Sample.team_day
    (Some Sample.checkin_text)
  = (response_error, [], Sample.team_day) /\
  feishu_webhook (H := Lite.builtins) Unreachable Sample.env Sample.team_day
    (Some Sample.checkin_text)
  = (response_error, [], Sample.team_day).
Proof.
  split; [reflexivity|].
  apply (failing_store_is_reported (B := Lite.builtins) Sample.env Sample.team_day
           "" "" "" "" "" "" "" "" "" 0 Sample.checkin_text None).
  reflexivity.
Defined.

Lemma has_record_other_day env db user_id user_name status task location tasks_json
  (d : string) :
  d <> today env ->
  has_record db user_id d = false ->
  has_record (snd (check_in Healthy env db user_id user_name status task location tasks_json))
    user_id d = false.
Proof.
  intros Hne Hnone. destruct (has_record db user_id (today env)) eqn:Hrec.
  - rewrite check_in_rejected by assumption. exact Hnone.
  - rewrite check_in_accepted by assumption. unfold has_record in *. cbn [snd attendance].
    rewrite existsb_app, Hnone. cbn [existsb orb]. unfold att_where. cbn [att_user_id att_date].
    replace (today env =? d)%string with false
      by (symmetry; apply String.eqb_neq; congruence).
    rewrite andb_false_r. reflexivity.
Qed.

(** X19: records are per calendar day: a check-in of one day neither allows
    a check-out on another day (with a completion that SQLite can store, a
    signed 64-bit integer, the answer is "not checked in") nor blocks that
    day's check-in; after both check-ins the user has one record for each of
    the two dates. *)
Theorem records_are_per_day (env env' : Env) (db : DB)
  (user_id user_name status task location tasks_json : string)
  (user_name' status' task' location' tasks_json' : string) (P : Z) (W : string) :
  today env' <> today env ->
  has_record db user_id (today env) = false ->
  has_record db user_id (today env') = false ->
  let db1 := snd (check_in Healthy env db user_id user_name status task location tasks_json) in
  let db2 := snd (check_in Healthy env' db1 user_id user_name' status' task' location'
                    tasks_json') in
  (fits_int64 P = true ->
   check_out Healthy env' db1 user_id P W = (Return (false, "您今天还没有签到！"), db1)) /\
  fst (check_in Healthy env' db1 user_id user_name' status' task' location' tasks_json')
  = Return (true, ("签到成功！" ++ nl ++ "状态：" ++ status' ++ nl ++ "任务：" ++ task')%string) /\
  records_for db2 user_id (today env) = 1%nat /\
  records_for db2 user_id (today env') = 1%nat.
Proof.
  intros Hne Hnone Hnone' db1 db2.
  assert (Hnot : has_record db1 user_id (today env') = false)
    by (apply has_record_other_day; assumption).
  assert (Hrow : forall e d u n s t l j,
             has_record d u (today e) = false ->
             records_for (snd (check_in Healthy e d u n s t l j)) u (today e) = 1%nat).
  { intros e d u n s t l j Hno. rewrite check_in_accepted by assumption.
    unfold records_for, has_record in *. cbn [snd attendance]. rewrite filter_app.
    rewrite (existsb_false_filter _ _ Hno). cbn [filter app].
    unfold att_where. cbn [att_user_id att_date]. rewrite !String.eqb_refl. reflexivity. }
  split; [intros Hfits; apply check_out_unrecorded; assumption|]. split; [|split].
  - rewrite check_in_accepted by assumption. reflexivity.
  - subst db2. rewrite check_in_accepted by assumption. unfold records_for.
    cbn [snd attendance]. rewrite filter_app. cbn [filter].
    unfold att_where at 2. cbn [att_user_id att_date].
    replace (today env' =? today env)%string with false
      by (symmetry; apply String.eqb_neq; exact Hne).
    rewrite andb_false_r, app_nil_r. apply (Hrow env db). exact Hnone.
  - apply Hrow. exact Hnot.
Qed.

Lemma records_are_per_day_witness :
  "2024-05-07" <> today Sample.env /\
  fits_int64 100 = true /\
  check_out Healthy
    (mkEnv "2024-05-07" "18:00:00" "2024-05-07 18:00:00" "2024-05-07 10:00:00" "" true)
    Sample.alice_in "ou_alice" 100 ""
  = (Return (false, "您今天还没有签到！"), Sample.alice_in).
Proof.
  split; [discriminate|]. split; [reflexivity|].
  destruct (records_are_per_day Sample.env
              (mkEnv "2024-05-07" "18:00:00" "2024-05-07 18:00:00" "2024-05-07 10:00:00" ""
                 true)
              empty_db "ou_alice" "alice" "办公室坐班" "日常工作" "办公室坐班"
              default_tasks_json "" "" "" "" "" 100 "") as [Hout _];
    [discriminate | reflexivity | reflexivity | apply Hout; reflexivity].
Defined.

Lemma filter_twice {A : Type} (p : A -> bool) (l : list A) :
  filter p (filter p l) = filter p l.
Proof.
  induction l as [|a l IH]; [reflexivity|].
  cbn [filter]. destruct (p a) eqn:E; [cbn [filter]; rewrite E, IH|]; auto.
Qed.

(** X20: re-registration overwrites and moves: registering an id under one
    name and then under another leaves the store that registering under the
    second name alone leaves, with the user last in the active listing. *)
Theorem register_user_last_name_wins (db : DB) (user_id user_name user_name' : string) :
  register_user Healthy (snd (register_user Healthy db user_id user_name)) user_id user_name'
  = register_user Healthy db user_id user_name' /\
  exists others,
    get_all_users Healthy (snd (register_user Healthy db user_id user_name'))
    = Return (others ++ [mkUserEntry user_id user_name']) /\
    forall e, In e others -> ue_id e <> user_id.
Proof.
  split.
  - unfold register_user. cbn [get_db execute snd with_users users attendance settings].
    unfold replace_user. cbn [usr_user_id].
    rewrite filter_app, filter_twice. cbn [filter usr_user_id].
    rewrite String.eqb_refl. cbn [negb]. rewrite app_nil_r. reflexivity.
  - unfold get_all_users, register_user. cbn [get_db execute bind snd with_users users].
    unfold replace_user. cbn [usr_user_id]. rewrite filter_app, map_app.
    cbn [filter usr_is_active Z.eqb Pos.eqb map usr_user_id usr_user_name].
    eexists. split; [reflexivity|].
    intros e Hin. apply in_map_iff in Hin. destruct Hin as [u [<- Hin]].
    apply filter_In in Hin. destruct Hin as [Hin _]. apply filter_In in Hin.
    destruct Hin as [_ Hne]. apply negb_true_iff in Hne. apply String.eqb_neq in Hne.
    exact Hne.
Qed.



(** X22: on a day without records the report has no entries: it is the
    heading alone when no user is active, and otherwise the heading followed
    by the "not checked in" roster naming every active user, in table
    order. *)
Theorem report_of_an_empty_day {B : PyBuiltins} (env : Env) (db : DB) :
  (forall r, In r (attendance db) -> att_date r <> today env) ->
  build_daily_report Healthy env db
  = Return ("📊 **今日团队去向** - " ++ today env ++ nl ++ nl
            ++ match filter (fun u => (usr_is_active u =? 1)%Z) (users db) with
               | [] => ""
               | active =>
                   "⏰ **未签到**" ++ nl
                   ++ String.concat "" (map (fun u => roster_line (usr_user_name u)) active)
               end)%string.
Proof.
  intros Hnone.
  assert (Hday : filter (fun r => (att_date r =? today env)%string) (attendance db) = []).
  { apply existsb_false_filter. apply not_true_is_false. intros Hex.
    apply existsb_exists in Hex. destruct Hex as [r [Hin Hd]].
    apply String.eqb_eq in Hd. exact (Hnone r Hin Hd). }
  unfold build_daily_report, get_today_status, get_all_users, get_today_date.
  cbn [get_db execute bind]. rewrite Hday.
  cbn [order_by_check_in_time fold_right today_status_rows bind map name_in existsb negb].
  assert (Hall : forall l : list UserRow,
             map ue_name
               (filter (fun _ : UserEntry => true)
                  (map (fun u => mkUserEntry (usr_user_id u) (usr_user_name u)) l))
             = map usr_user_name l).
  { induction l as [|u l IH]; [reflexivity|]. cbn [map filter ue_name]. rewrite IH.
    reflexivity. }
  rewrite Hall. unfold report_content.
  destruct (filter (fun u => usr_is_active u =? 1) (users db)) as [|u l]; [reflexivity|].
  cbn [map]. rewrite map_map. reflexivity.
Qed.

Lemma report_of_an_empty_day_witness :
  (forall r, In r (attendance Sample.team_day) -> att_date r <> "2024-05-08") /\
  build_daily_report (H := Lite.builtins) Healthy
    (mkEnv "2024-05-08" "20:00:00" "2024-05-08 20:00:00" "2024-05-08 12:00:00" "" true)
    Sample.team_day
  = Return ("📊 **今日团队去向** - 2024-05-08" ++ nl ++ nl
            ++ "⏰ **未签到**" ++ nl
            ++ "• alice" ++ nl ++ "• bob" ++ nl ++ "• erin" ++ nl)%string.
Proof.
  assert (Hnone : forall r, In r (attendance Sample.team_day) -> att_date r <> "2024-05-08").
  { intros r Hin. simpl in Hin. decompose [or] Hin; try contradiction; subst r; discriminate. }
  split; [exact Hnone|].
  rewrite (report_of_an_empty_day (B := Lite.builtins)
             (mkEnv "2024-05-08" "20:00:00" "2024-05-08 20:00:00" "2024-05-08 12:00:00" ""
                true)
             Sample.team_day Hnone).
  reflexivity.
Defined.

Lemma register_user_last_name_wins_witness :
  get_all_users Healthy
    (snd (register_user Healthy
            (snd (register_user Healthy Sample.team_day "ou_alice" "alice")) "ou_alice" "Alice W."))
  = Return [mkUserEntry "ou_bob" "bob"; mkUserEntry "ou_erin" "erin";
            mkUserEntry "ou_alice" "Alice W."].
Proof.
  rewrite (proj1 (register_user_last_name_wins Sample.team_day "ou_alice" "alice" "Alice W.")).
  reflexivity.
Defined.
